(** * Trade-hunter scoring engines: a shallow embedding and its properties

    The development follows the Python sources:

    - [scoring/safe_eval.py]              module [SafeEval]
    - [scoring/options_flow_scoring.py]   module [OptionsFlow]
    - [scoring/fundamentals_scoring.py]   module [Fundamentals]
    - [scoring/price_action_scoring.py]   module [PriceAction]
    - [scoring/master_scoring.py]         module [MasterScoring]
    - [rulebooks/scoring_system.py]       module [ScoringSystem]
    - [scoring/sentiment_scoring.py]      module [Sentiment]
    - [scoring/position_risk_scoring.py]  module [PositionRisk]
    - [rulebooks/news_rulebook.py]        module [NewsRulebook]
    - [rulebooks/sentiment_rulebook.py]   module [SentimentRulebook]
    - [rulebooks/position_risk_rulebook.py] module [PositionRiskRulebook]

    Python floats are represented by exact rationals ([Q]): rounding,
    infinities and NaN are outside the model.  A Python [dict] is an
    association list in insertion order.  Exceptions are explicit: a
    computation returns an [outcome], either [Ret v] or [Raise e]. *)

From Stdlib Require Import ZArith QArith Qround Qabs String Ascii List Bool Lia Lqa.
From Stdlib Require Import Sorted Permutation.
Import ListNotations.

Local Open Scope string_scope.
Local Open Scope Q_scope.

(* ================================================================== *)
(** ** Exceptions and the outcome monad *)
(* ================================================================== *)

(** The places where [safe_eval] raises [ValueError], one tag per
    [raise] statement of the source. *)
Inductive value_error : Type :=
| InvalidSyntax                      (* "Invalid expression syntax" *)
| UnknownVariable (id : string)      (* "Unknown variable" *)
| UnsupportedBinary                  (* "Unsupported binary operator" *)
| UnsupportedBoolean                 (* "Unsupported boolean operator" *)
| BoolOpArity                        (* "Boolean operation requires at least 2 values" *)
| MismatchedCompare                  (* "Mismatched comparison operators and comparators" *)
| UnsupportedCompare                 (* "Unsupported comparison operator" *)
| UnsafeNode                         (* "Unsupported or unsafe AST node type" *)
| ErrorEvaluating.                   (* "Error evaluating expression" (wrapped exception) *)

Inductive exn : Type :=
| ValueError (why : value_error)
| TypeError
| ZeroDivisionError
| NameError (id : string)
| SyntaxError
| KeyError (key : string).

Inductive outcome (A : Type) : Type :=
| Ret (a : A)
| Raise (e : exn).
Arguments Ret {A} a.
Arguments Raise {A} e.

Definition bind {A B : Type} (c : outcome A) (k : A -> outcome B) : outcome B :=
  match c with
  | Ret a => k a
  | Raise e => Raise e
  end.

Notation "x <- c ;; k" := (bind c (fun x => k))
  (at level 61, c at next level, right associativity).

(** [try: return c  except Exception: return d] *)
Definition try_except {A : Type} (c : outcome A) (d : A) : A :=
  match c with
  | Ret a => a
  | Raise _ => d
  end.

(* ================================================================== *)
(** ** Rational helpers *)
(* ================================================================== *)

Definition Qltb (a b : Q) : bool := negb (Qle_bool b a).

(** Python's two-argument [min] and [max]: the first argument wins ties. *)
Definition py_min (a b : Q) : Q := if Qltb b a then b else a.
Definition py_max (a b : Q) : Q := if Qltb a b then b else a.

(** [max(low, min(high, value))], the clamp used by every engine. *)
Definition clamp (value low high : Q) : Q := py_max low (py_min high value).

(** Division as Python performs it: a zero divisor raises. *)
Definition py_div (a b : Q) : outcome Q :=
  if Qeq_bool b 0 then Raise ZeroDivisionError else Ret (a / b).

Definition Qsum (l : list Q) : Q := fold_left Qplus l 0.

(* ================================================================== *)
(** ** Dictionaries (insertion-ordered association lists) *)
(* ================================================================== *)

Definition dict (V : Type) : Type := list (string * V).

Fixpoint dict_get {V : Type} (k : string) (d : dict V) : option V :=
  match d with
  | [] => None
  | (k', v) :: d' => if String.eqb k k' then Some v else dict_get k d'
  end.

Definition dict_has {V : Type} (k : string) (d : dict V) : bool :=
  match dict_get k d with Some _ => true | None => false end.

(** [d[k] = v]: an existing key keeps its position. *)
Fixpoint dict_set {V : Type} (k : string) (v : V) (d : dict V) : dict V :=
  match d with
  | [] => [(k, v)]
  | (k', v') :: d' =>
      if String.eqb k k' then (k, v) :: d' else (k', v') :: dict_set k v d'
  end.

(** [d.update(e)] *)
Definition dict_update {V : Type} (d e : dict V) : dict V :=
  fold_left (fun acc kv => dict_set (fst kv) (snd kv) acc) e d.

Definition get_default {V : Type} (o : option V) (d : V) : V :=
  match o with Some v => v | None => d end.

(* ================================================================== *)
(** ** Strings *)
(* ================================================================== *)

(** ASCII characters for which [str.isspace] holds. *)
Definition is_space (c : ascii) : bool :=
  let n := nat_of_ascii c in
  ((9 <=? n) && (n <=? 13) || (28 <=? n) && (n <=? 32))%nat.

Fixpoint lstrip (s : string) : string :=
  match s with
  | String c s' => if is_space c then lstrip s' else s
  | EmptyString => EmptyString
  end.

Fixpoint string_rev_onto (s acc : string) : string :=
  match s with
  | EmptyString => acc
  | String c s' => string_rev_onto s' (String c acc)
  end.

Definition string_rev (s : string) : string := string_rev_onto s EmptyString.

(** [s.strip()] *)
Definition strip (s : string) : string :=
  string_rev (lstrip (string_rev (lstrip s))).

Definition is_empty (s : string) : bool :=
  match s with EmptyString => true | _ => false end.

(** [needle in s] *)
Fixpoint contains (needle s : string) : bool :=
  if String.prefix needle s then true
  else match s with
       | EmptyString => false
       | String _ s' => contains needle s'
       end.

(** [s.lower()], on ASCII letters. *)
Definition lower_char (c : ascii) : ascii :=
  let n := nat_of_ascii c in
  if ((65 <=? n) && (n <=? 90))%nat then ascii_of_nat (n + 32) else c.

Fixpoint lower (s : string) : string :=
  match s with
  | EmptyString => EmptyString
  | String c s' => String (lower_char c) (lower s')
  end.

(** [s.split(sep)] for a non-empty separator: [skip] characters of a
    separator found earlier are still to be dropped, [cur] is the
    current part, reversed. *)
Fixpoint split_go (sep s : string) (skip : nat) (cur : string) : list string :=
  match s with
  | EmptyString => [string_rev cur]
  | String c s' =>
      match skip with
      | S k => split_go sep s' k cur
      | O =>
          if String.prefix sep s
          then string_rev cur :: split_go sep s' (String.length sep - 1) EmptyString
          else split_go sep s' 0 (String c cur)
      end
  end.

Definition split (sep s : string) : list string := split_go sep s 0 EmptyString.

(** [s.strip(chars)] *)
Fixpoint lstrip_chars (chars : list ascii) (s : string) : string :=
  match s with
  | String c s' =>
      if existsb (Ascii.eqb c) chars then lstrip_chars chars s' else s
  | EmptyString => EmptyString
  end.

Definition strip_chars (chars : list ascii) (s : string) : string :=
  string_rev (lstrip_chars chars (string_rev (lstrip_chars chars s))).

Fixpoint repeat_string (n : nat) (s : string) : string :=
  match n with
  | O => EmptyString
  | S n' => s ++ repeat_string n' s
  end.

(* ================================================================== *)
(** ** Python values *)
(* ================================================================== *)

(** Objects that the engines place in an evaluation environment next to
    the snapshot's data: the builtin [abs] and the module [math]. *)
Inductive pyobject : Type := AbsFunction | MathModule.

(** What a snapshot variable or a literal can hold. *)
Inductive value : Type :=
| VNone
| VBool (b : bool)
| VInt (n : Z)
| VFloat (x : Q)
| VStr (s : string)
| VObject (o : pyobject).

Inductive number : Type := NInt (n : Z) | NFloat (x : Q).

(** [bool] is a subclass of [int]. *)
Definition as_number (v : value) : option number :=
  match v with
  | VBool b => Some (NInt (if b then 1 else 0)%Z)
  | VInt n => Some (NInt n)
  | VFloat x => Some (NFloat x)
  | _ => None
  end.

Definition number_Q (n : number) : Q :=
  match n with NInt z => inject_Z z | NFloat x => x end.

(** [bool(v)] *)
Definition truthy (v : value) : bool :=
  match v with
  | VNone => false
  | VBool b => b
  | VInt n => negb (n =? 0)%Z
  | VFloat x => negb (Qeq_bool x 0)
  | VStr s => negb (is_empty s)
  | VObject _ => true
  end.

Definition pyobject_eqb (o p : pyobject) : bool :=
  match o, p with
  | AbsFunction, AbsFunction | MathModule, MathModule => true
  | _, _ => false
  end.

(* ================================================================== *)
(** ** The [ast] node types *)
(* ================================================================== *)

Inductive operator : Type :=
| Add | Sub | Mult | Div | Mod
| Pow | FloorDiv | MatMult | LShift | RShift | BitOr | BitXor | BitAnd.

Inductive boolop : Type := And | Or.

Inductive cmpop : Type :=
| Eq | NotEq | Lt | LtE | Gt | GtE | Is | IsNot | In | NotIn.

Inductive unaryop : Type := Invert | Not | UAdd | USub.

(** Expression nodes.  [OtherNode] stands for the remaining node
    classes ([Lambda], [IfExp], [Dict], [Set], [Tuple], [List],
    generator expressions, f-strings, ...), named by their class. *)
Unset Elimination Schemes.
Inductive expr : Type :=
| Constant (v : value)
| Name (id : string)
| BinOp (left : expr) (op : operator) (right : expr)
| BoolOp (op : boolop) (values : list expr)
| Compare (left : expr) (ops : list cmpop) (comparators : list expr)
| UnaryOp (op : unaryop) (operand : expr)
| Call (func : expr) (args : list expr)
| Attribute (obj : expr) (attr : string)
| Subscript (obj : expr) (slice : expr)
| ListComp (elt : expr) (target : string) (iter : expr)
| NamedExpr (target : string) (val : expr)
| OtherNode (class : string).
Set Elimination Schemes.

(** The class of operator nodes, as keys of the [OPS] table. *)
Inductive op_type : Type :=
| BinT (op : operator)
| BoolT (op : boolop)
| CmpT (op : cmpop).

(* ================================================================== *)
(** ** The Python runtime *)
(* ================================================================== *)

(** Services of the interpreter that the engines call and that are not
    re-implemented here.  Every general theorem holds for all runtimes.

    - [ast_parse s] is the body of [ast.parse(s, mode='eval')], [None]
      when it raises [SyntaxError] (statements such as assignments and
      imports are syntax errors in this mode);
    - [builtin_eval s env] is [eval(s, {"__builtins__": {}}, env)];
    - [str_percent s v] is printf-style formatting [s % v];
    - [same_object a b] is the identity test on two values neither of
      which is [None], [True], [False] or an environment object. *)
Record Runtime : Type := {
  ast_parse : string -> option expr;
  builtin_eval : string -> dict value -> outcome value;
  str_percent : string -> value -> outcome value;
  same_object : value -> value -> bool
}.

(* ================================================================== *)
(** ** The functions of the [operator] module *)
(* ================================================================== *)

Module Operator.

Definition arith (fz : Z -> Z -> Z) (fq : Q -> Q -> Q) (a b : number) : value :=
  match a, b with
  | NInt x, NInt y => VInt (fz x y)
  | _, _ => VFloat (fq (number_Q a) (number_Q b))
  end.

Definition add (a b : value) : outcome value :=
  match as_number a, as_number b with
  | Some x, Some y => Ret (arith Z.add Qplus x y)
  | _, _ =>
      match a, b with
      | VStr s, VStr t => Ret (VStr (s ++ t))
      | _, _ => Raise TypeError
      end
  end.

Definition sub (a b : value) : outcome value :=
  match as_number a, as_number b with
  | Some x, Some y => Ret (arith Z.sub Qminus x y)
  | _, _ => Raise TypeError
  end.

Definition mul (a b : value) : outcome value :=
  match as_number a, as_number b with
  | Some x, Some y => Ret (arith Z.mul Qmult x y)
  | Some (NInt n), None =>
      match b with
      | VStr s => Ret (VStr (repeat_string (Z.to_nat n) s))
      | _ => Raise TypeError
      end
  | None, Some (NInt n) =>
      match a with
      | VStr s => Ret (VStr (repeat_string (Z.to_nat n) s))
      | _ => Raise TypeError
      end
  | _, _ => Raise TypeError
  end.

Definition truediv (a b : value) : outcome value :=
  match as_number a, as_number b with
  | Some x, Some y =>
      if Qeq_bool (number_Q y) 0 then Raise ZeroDivisionError
      else Ret (VFloat (number_Q x / number_Q y))
  | _, _ => Raise TypeError
  end.

(** The remainder takes the sign of the divisor. *)
Definition Qmod (x y : Q) : Q := x - y * inject_Z (Qfloor (x / y)).

Definition mod_ (rt : Runtime) (a b : value) : outcome value :=
  match a with
  | VStr s => str_percent rt s b
  | _ =>
      match as_number a, as_number b with
      | Some x, Some y =>
          if Qeq_bool (number_Q y) 0 then Raise ZeroDivisionError
          else Ret (arith Z.modulo Qmod x y)
      | _, _ => Raise TypeError
      end
  end.

Definition value_eqb (a b : value) : bool :=
  match as_number a, as_number b with
  | Some x, Some y => Qeq_bool (number_Q x) (number_Q y)
  | _, _ =>
      match a, b with
      | VNone, VNone => true
      | VStr s, VStr t => String.eqb s t
      | VObject o, VObject p => pyobject_eqb o p
      | _, _ => false
      end
  end.

Definition eq (a b : value) : outcome value := Ret (VBool (value_eqb a b)).
Definition ne (a b : value) : outcome value := Ret (VBool (negb (value_eqb a b))).

(** Ordering is defined between numbers and between strings; anything
    else (in particular [None]) raises [TypeError]. *)
Definition order (fq : Q -> Q -> bool) (fs : string -> string -> bool)
    (a b : value) : outcome value :=
  match as_number a, as_number b with
  | Some x, Some y => Ret (VBool (fq (number_Q x) (number_Q y)))
  | _, _ =>
      match a, b with
      | VStr s, VStr t => Ret (VBool (fs s t))
      | _, _ => Raise TypeError
      end
  end.

Definition lt : value -> value -> outcome value := order Qltb String.ltb.
Definition le : value -> value -> outcome value := order Qle_bool String.leb.
Definition gt : value -> value -> outcome value :=
  order (fun x y => Qltb y x) (fun s t => String.ltb t s).
Definition ge : value -> value -> outcome value :=
  order (fun x y => Qle_bool y x) (fun s t => String.leb t s).

(** [a is b] *)
Definition is_ (rt : Runtime) (a b : value) : bool :=
  match a, b with
  | VNone, VNone => true
  | VBool x, VBool y => Bool.eqb x y
  | VObject o, VObject p => pyobject_eqb o p
  | VNone, _ | VBool _, _ | VObject _, _ => false
  | _, VNone | _, VBool _ | _, VObject _ => false
  | _, _ => same_object rt a b
  end.

(** [abs(v)] *)
Definition abs (v : value) : outcome value :=
  match as_number v with
  | Some (NInt n) => Ret (VInt (Z.abs n))
  | Some (NFloat x) => Ret (VFloat (Qabs x))
  | None => Raise TypeError
  end.

End Operator.

(* ================================================================== *)
(** ** scoring/safe_eval.py *)
(* ================================================================== *)

Module SafeEval.

Section WithRuntime.

Variable rt : Runtime.

(** The [OPS] table: operator node class to implementation.  The two
    boolean entries are [lambda a, b: a and b] and [lambda a, b: a or b],
    applied to operands that are already evaluated. *)
Definition OPS (t : op_type) : option (value -> value -> outcome value) :=
  match t with
  | BinT Add => Some Operator.add
  | BinT Sub => Some Operator.sub
  | BinT Mult => Some Operator.mul
  | BinT Div => Some Operator.truediv
  | BinT Mod => Some (Operator.mod_ rt)
  | CmpT Eq => Some Operator.eq
  | CmpT NotEq => Some Operator.ne
  | CmpT Gt => Some Operator.gt
  | CmpT GtE => Some Operator.ge
  | CmpT Lt => Some Operator.lt
  | CmpT LtE => Some Operator.le
  | CmpT Is => Some (fun a b => Ret (VBool (Operator.is_ rt a b)))
  | CmpT IsNot => Some (fun a b => Ret (VBool (negb (Operator.is_ rt a b))))
  | BoolT And => Some (fun a b => Ret (if truthy a then b else a))
  | BoolT Or => Some (fun a b => Ret (if truthy a then a else b))
  | _ => None
  end.

Section Eval.

Variable variables : dict value.

(** The inner function [_eval]. *)
Fixpoint _eval (node : expr) : outcome value :=
  match node with
  | Constant v => Ret v
  | Name id =>
      match dict_get id variables with
      | Some v => Ret v
      | None => Raise (ValueError (UnknownVariable id))
      end
  | BinOp left_ op right_ =>
      match OPS (BinT op) with
      | None => Raise (ValueError UnsupportedBinary)
      | Some f =>
          a <- _eval left_ ;;
          b <- _eval right_ ;;
          f a b
      end
  | BoolOp op values =>
      match OPS (BoolT op) with
      | None => Raise (ValueError UnsupportedBoolean)
      | Some f =>
          if (length values <? 2)%nat then Raise (ValueError BoolOpArity)
          else
            match values with
            | [] => Raise (ValueError BoolOpArity)
            | first :: rest =>
                left_ <- _eval first ;;
                (fix loop (vs : list expr) (left_ : value) {struct vs} : outcome value :=
                   match vs with
                   | [] => Ret left_
                   | v :: vs' =>
                       r <- _eval v ;;
                       left_1 <- f left_ r ;;
                       loop vs' left_1
                   end) rest left_
            end
      end
  | Compare left_ ops comparators =>
      if negb (length ops =? length comparators)%nat
      then Raise (ValueError MismatchedCompare)
      else
        l <- _eval left_ ;;
        (fix loop (cs : list expr) (ops : list cmpop) (left_ : value) {struct cs}
           : outcome value :=
           match ops, cs with
           | op :: ops', c :: cs' =>
               match OPS (CmpT op) with
               | None => Raise (ValueError UnsupportedCompare)
               | Some oper =>
                   right_ <- _eval c ;;
                   t <- oper left_ right_ ;;
                   if negb (truthy t) then Ret (VBool false)
                   else loop cs' ops' right_
               end
           | _, _ => Ret (VBool true)
           end) comparators ops l
  | _ => Raise (ValueError UnsafeNode)
  end.

End Eval.

(** The operand loop of a [BoolOp] on its own: every operand is
    evaluated with [ev], then combined with the accumulated value. *)
Fixpoint boolop_loop (ev : expr -> outcome value) (f : value -> value -> outcome value)
    (vs : list expr) (acc : value) : outcome value :=
  match vs with
  | [] => Ret acc
  | v :: vs' => r <- ev v ;; acc' <- f acc r ;; boolop_loop ev f vs' acc'
  end.

(** [safe_eval(expr, variables)]: every exception that leaves the
    function is a [ValueError]. *)
Definition safe_eval (expr : string) (variables : dict value) : outcome bool :=
  if is_empty expr || is_empty (strip expr) then Ret false
  else
    let expr := strip expr in
    match ast_parse rt expr with
    | None => Raise (ValueError InvalidSyntax)
    | Some tree =>
        match _eval variables tree with
        | Ret result => Ret (truthy result)
        | Raise (ValueError why) => Raise (ValueError why)
        | Raise _ => Raise (ValueError ErrorEvaluating)
        end
    end.

End WithRuntime.

(** Node classes that fall through to the final [raise] of [_eval]. *)
Definition unsafe_node (e : expr) : bool :=
  match e with
  | Constant _ | Name _ | BinOp _ _ _ | BoolOp _ _ | Compare _ _ _ => false
  | _ => true
  end.

(** [reaches_unsafe variables e]: an unsafe node or an unknown variable
    stands where [_eval] arrives whatever the values are: at the root,
    in an operand of an arithmetic or boolean operator, in the left
    operand or the first comparator of a comparison. *)
Fixpoint reaches_unsafe (variables : dict value) (e : expr) : bool :=
  match e with
  | Constant _ => false
  | Name id => negb (dict_has id variables)
  | BinOp lhs _ rhs => reaches_unsafe variables lhs || reaches_unsafe variables rhs
  | BoolOp _ values => existsb (reaches_unsafe variables) values
  | Compare lhs ops comparators =>
      reaches_unsafe variables lhs ||
      match ops, comparators with
      | _ :: _, c :: _ => reaches_unsafe variables c
      | _, _ => false
      end
  | _ => true
  end.

End SafeEval.

(* ================================================================== *)
(** ** Python's own evaluation of the condition grammar *)
(* ================================================================== *)

(** The evaluation rules of the language itself for literals, names,
    the five arithmetic operators, comparisons, short-circuit [and] /
    [or] and calls.  [None] means that the node is not covered. *)
Module PythonEval.

Section WithRuntime.

Variable rt : Runtime.
Variable env : dict value.

Definition binop (op : operator) : option (value -> value -> outcome value) :=
  match op with
  | Add => Some Operator.add
  | Sub => Some Operator.sub
  | Mult => Some Operator.mul
  | Div => Some Operator.truediv
  | Mod => Some (Operator.mod_ rt)
  | _ => None
  end.

Definition cmp (op : cmpop) : option (value -> value -> outcome value) :=
  match op with
  | Eq => Some Operator.eq
  | NotEq => Some Operator.ne
  | Gt => Some Operator.gt
  | GtE => Some Operator.ge
  | Lt => Some Operator.lt
  | LtE => Some Operator.le
  | Is => Some (fun a b => Ret (VBool (Operator.is_ rt a b)))
  | IsNot => Some (fun a b => Ret (VBool (negb (Operator.is_ rt a b))))
  | _ => None
  end.

Definition call (f : value) (args : list value) : outcome value :=
  match f, args with
  | VObject AbsFunction, [v] => Operator.abs v
  | _, _ => Raise TypeError
  end.

Fixpoint eval (node : expr) : option (outcome value) :=
  match node with
  | Constant v => Some (Ret v)
  | Name id =>
      match dict_get id env with
      | Some v => Some (Ret v)
      | None => Some (Raise (NameError id))
      end
  | BinOp left_ op right_ =>
      match binop op, eval left_ with
      | Some f, Some (Ret a) =>
          match eval right_ with
          | Some (Ret b) => Some (f a b)
          | r => r
          end
      | Some _, r => r
      | None, _ => None
      end
  | BoolOp op values =>
      (fix loop (vs : list expr) (last : value) {struct vs} : option (outcome value) :=
         match vs with
         | [] => Some (Ret last)
         | v :: vs' =>
             match eval v with
             | Some (Ret x) =>
                 match op, truthy x, vs' with
                 | And, false, _ :: _ => Some (Ret x)
                 | Or, true, _ :: _ => Some (Ret x)
                 | _, _, _ => loop vs' x
                 end
             | r => r
             end
         end) values VNone
  | Compare left_ ops comparators =>
      match eval left_ with
      | Some (Ret l) =>
          (fix loop (cs : list expr) (ops : list cmpop) (left_ : value) {struct cs}
             : option (outcome value) :=
             match ops, cs with
             | op :: ops', c :: cs' =>
                 match cmp op, eval c with
                 | Some oper, Some (Ret right_) =>
                     match oper left_ right_ with
                     | Ret t =>
                         match cs' with
                         | [] => Some (Ret t)
                         | _ :: _ =>
                             if truthy t then loop cs' ops' right_ else Some (Ret t)
                         end
                     | Raise e => Some (Raise e)
                     end
                 | Some _, r => r
                 | None, _ => None
                 end
             | _, _ => Some (Ret (VBool true))
             end) comparators ops l
      | r => r
      end
  | Call func [arg] =>
      match eval func with
      | Some (Ret f) =>
          match eval arg with
          | Some (Ret v) => Some (call f [v])
          | r => r
          end
      | r => r
      end
  | _ => None
  end.

End WithRuntime.

End PythonEval.

(* ================================================================== *)
(** ** Rule tables *)
(* ================================================================== *)

(** The nested dictionaries of a rulebook, with the keys the engines
    read.  A key that the code reads with [.get] is an [option]; a
    score range is a pair, as the code unpacks it into two names. *)
Record StateRule : Type := {
  condition : option string;
  score_range : option (Q * Q);
  group : option string
}.

Record GroupInfo : Type := { base_weight : option Q }.

Record TimeframeRule : Type := { states : dict StateRule }.

Record MetricRule : Type := {
  metric_group : option string;
  metric_weight : option Q;
  timeframes : dict TimeframeRule
}.

Definition Snapshot : Type := dict value.

(** [(low + high) / 2.0] *)
Definition midpoint (r : Q * Q) : Q := (fst r + snd r) / 2.

(** [for x in xs: acc = body(acc, x)] where the body may raise. *)
Fixpoint for_each {A S : Type} (body : S -> A -> outcome S) (xs : list A) (acc : S)
  : outcome S :=
  match xs with
  | [] => Ret acc
  | x :: xs' => acc' <- body acc x ;; for_each body xs' acc'
  end.

(* ================================================================== *)
(** ** scoring/options_flow_scoring.py *)
(* ================================================================== *)

Module OptionsFlow.

Record Rulebook : Type := {
  groups : dict GroupInfo;          (* rulebook["meta"]["groups"] *)
  minor_states : dict StateRule     (* rulebook["timeframes"]["MINOR"]["states"] *)
}.

Record Engine : Type := { rulebook : Rulebook; weight : Q }.

(** [__init__(rulebook, weight=1.05)] *)
Definition init (rb : Rulebook) : Engine := {| rulebook := rb; weight := 105 # 100 |}.

Record StateDetail : Type := {
  detail_condition : string;
  avg_score : Q;
  weighted : Q;
  detail_base_weight : Q;
  detail_group : option string
}.

Record Result : Type := {
  minor_score : Q;
  final_options_flow_score : Q;
  matched_states : list string;
  state_details : dict StateDetail
}.

Section WithRuntime.

Variable rt : Runtime.

(** [_safe_eval(condition, variables)] *)
Definition _safe_eval (cond : string) (variables : dict value) : bool :=
  if is_empty cond || is_empty (strip cond) then false
  else try_except (SafeEval.safe_eval rt cond variables) false.

Definition group_weights (rb : Rulebook) : dict Q :=
  fold_left
    (fun acc gi => dict_set (fst gi) (get_default (base_weight (snd gi)) 1) acc)
    (groups rb) [].

Definition allowed_names (options_snapshot : Snapshot) : dict value :=
  dict_update
    (fold_left (fun acc kv => dict_set (fst kv) (snd kv) acc) options_snapshot [])
    [("abs", VObject AbsFunction); ("True", VBool true);
     ("False", VBool false); ("None", VNone)].

Record Acc : Type := {
  acc_matched : list string;
  acc_details : dict StateDetail;
  acc_score : Q
}.

(** [group_weights.get(group_name, 1.0) if group_name else 1.0] *)
Definition state_base_weight (gw : dict Q) (group_name : option string) : Q :=
  match group_name with
  | Some g => if is_empty g then 1 else get_default (dict_get g gw) 1
  | None => 1
  end.

(** One iteration of the loop over [minor_tf.items()]. *)
Definition step (gw : dict Q) (names : dict value) (acc : Acc)
    (item : string * StateRule) : Acc :=
  let '(state_name, state_data) := item in
  let cond := get_default (condition state_data) "" in
  let range := get_default (score_range state_data) (0, 0) in
  let group_name := group state_data in
  if _safe_eval cond names then
    let avg := midpoint range in
    let bw := state_base_weight gw group_name in
    let w := avg * bw in
    {| acc_matched := (acc_matched acc ++ [state_name])%list;
       acc_details :=
         dict_set state_name
           {| detail_condition := cond; avg_score := avg; weighted := w;
              detail_base_weight := bw; detail_group := group_name |}
           (acc_details acc);
       acc_score := acc_score acc + w |}
  else acc.

(** The contributions of the matching States, in rulebook order: the
    midpoint of the score range times the base weight of the group. *)
Definition weighted_midpoints (gw : dict Q) (names : dict value)
    (sts : dict StateRule) : list Q :=
  map (fun item : string * StateRule =>
         midpoint (get_default (score_range (snd item)) (0, 0))
         * state_base_weight gw (group (snd item)))
    (filter (fun item : string * StateRule =>
               _safe_eval (get_default (condition (snd item)) "") names) sts).

(** [score(options_snapshot)] *)
Definition score (e : Engine) (options_snapshot : Snapshot) : Result :=
  let gw := group_weights (rulebook e) in
  let names := allowed_names options_snapshot in
  let acc :=
    fold_left (step gw names) (minor_states (rulebook e))
      {| acc_matched := []; acc_details := []; acc_score := 0 |} in
  {| minor_score := acc_score acc;
     final_options_flow_score := acc_score acc * weight e;
     matched_states := acc_matched acc;
     state_details := acc_details acc |}.

End WithRuntime.

End OptionsFlow.

(* ================================================================== *)
(** ** scoring/fundamentals_scoring.py *)
(* ================================================================== *)

Module Fundamentals.

Record Rulebook : Type := {
  metrics : dict MetricRule;        (* rulebook.get("metrics", {}) *)
  groups : dict GroupInfo           (* rulebook.get("meta", {}).get("groups", {}) *)
}.

Record Engine : Type := { rulebook : Rulebook; weight : Q }.

(** [__init__(rulebook)] *)
Definition init (rb : Rulebook) : Engine := {| rulebook := rb; weight := 75 # 100 |}.

Record Result : Type := {
  minor_score : Q;
  major_score : Q;
  final_fundamentals_score : Q;
  metric_scores : dict Q;
  matched_states : list string
}.

(** [_combine_minor_major(minor, major)] *)
Definition _combine_minor_major (minor major : Q) : Q :=
  let has_minor := Qltb (1 # 1000000) (Qabs minor) in
  let has_major := Qltb (1 # 1000000) (Qabs major) in
  if has_minor && has_major then major * (7 # 10) + minor * (3 # 10)
  else if has_major then major
  else if has_minor then minor
  else 0.

Definition env_keys : list string :=
  ["pe_ratio"; "ps_ratio"; "pb_ratio"; "eps_growth_5y"; "revenue_growth_yoy";
   "profit_margin"; "operating_margin"; "roe"; "debt_to_equity";
   "interest_coverage"; "free_cash_flow_yield"; "dividend_yield";
   "market_cap"; "sector"].

(** [snapshot.get(key)] *)
Definition snapshot_get (snapshot : Snapshot) (k : string) : value :=
  get_default (dict_get k snapshot) VNone.

Definition local_env (snapshot : Snapshot) : dict value :=
  map (fun k => (k, snapshot_get snapshot k)) env_keys.

Section WithRuntime.

Variable rt : Runtime.

(** [_match_condition(snapshot, condition_expr)] *)
Definition _match_condition (snapshot : Snapshot) (condition_expr : string) : bool :=
  try_except
    (v <- builtin_eval rt condition_expr (local_env snapshot) ;; Ret (truthy v))
    false.

(** One iteration of the loop over [states_def.items()]. *)
Definition state_step (metric_name : string) (snapshot : Snapshot)
    (acc : list Q * list string) (item : string * StateRule) : list Q * list string :=
  let '(state_name, state_rule) := item in
  let range := get_default (score_range state_rule) (- (1), 1) in
  match condition state_rule with
  | None => acc
  | Some condition_expr =>
      if is_empty condition_expr then acc
      else if _match_condition snapshot condition_expr then
        ((fst acc ++ [midpoint range])%list,
         (snd acc ++ [(metric_name ++ "." ++ state_name)%string])%list)
      else acc
  end.

(** [_score_metric_states(metric_name, states_def, snapshot)] *)
Definition _score_metric_states (metric_name : string) (states_def : dict StateRule)
    (snapshot : Snapshot) : outcome (option Q * list string) :=
  let '(matched_scores, matched) :=
    fold_left (state_step metric_name snapshot) states_def ([], []) in
  match matched_scores with
  | [] => Ret (None, matched)
  | _ :: _ =>
      metric_score <- py_div (Qsum matched_scores)
                        (inject_Z (Z.of_nat (length matched_scores))) ;;
      Ret (Some metric_score, matched)
  end.

Record Acc : Type := {
  weighted_sum : Q;
  total_weight : Q;
  acc_scores : dict Q;
  acc_states : list string
}.

(** [w = metric_weight * group_base_weight], with both defaults 1.0. *)
Definition effective_weight (groups_def : dict GroupInfo) (metric_rule : MetricRule) : Q :=
  let metric_weight := get_default (metric_weight metric_rule) 1 in
  let group_base_weight :=
    match metric_group metric_rule with
    | Some g =>
        match dict_get g groups_def with
        | Some gi => get_default (base_weight gi) 1
        | None => 1
        end
    | None => 1
    end in
  metric_weight * group_base_weight.

(** One iteration of the loop over [metrics_def.items()]. *)
Definition metric_step (groups_def : dict GroupInfo) (timeframe : string)
    (snapshot : Snapshot)
    (acc : Acc) (item : string * MetricRule) : outcome Acc :=
  let '(metric_name, metric_rule) := item in
  match dict_get timeframe (timeframes metric_rule) with
  | None => Ret acc
  | Some tf =>
      r <- _score_metric_states metric_name (states tf) snapshot ;;
      match r with
      | (None, _) => Ret acc
      | (Some metric_score, metric_state_names) =>
          let w := effective_weight groups_def metric_rule in
          Ret {| weighted_sum := weighted_sum acc + metric_score * w;
                 total_weight := total_weight acc + w;
                 acc_scores := dict_set metric_name metric_score (acc_scores acc);
                 acc_states := (acc_states acc ++ metric_state_names)%list |}
      end
  end.

(** [_score_timeframe(timeframe, snapshot)] *)
Definition _score_timeframe (e : Engine) (timeframe : string) (snapshot : Snapshot)
  : outcome (Q * dict Q * list string) :=
  let metrics_def := metrics (rulebook e) in
  let groups_def := groups (rulebook e) in
  acc <- for_each (metric_step groups_def timeframe snapshot) metrics_def
           {| weighted_sum := 0; total_weight := 0; acc_scores := []; acc_states := [] |} ;;
  if Qeq_bool (total_weight acc) 0 then Ret (0, acc_scores acc, acc_states acc)
  else
    final_timeframe_score <- py_div (weighted_sum acc) (total_weight acc) ;;
    Ret (final_timeframe_score, acc_scores acc, acc_states acc).

(** [score(fundamentals_snapshot)] *)
Definition score (e : Engine) (fundamentals_snapshot : Snapshot) : outcome Result :=
  minor <- _score_timeframe e "MINOR" fundamentals_snapshot ;;
  major <- _score_timeframe e "MAJOR" fundamentals_snapshot ;;
  let '(minor_score, minor_metric_scores, minor_states) := minor in
  let '(major_score, major_metric_scores, major_states) := major in
  let combined := _combine_minor_major minor_score major_score in
  let final_weighted := combined * weight e in
  Ret {| minor_score := minor_score;
         major_score := major_score;
         final_fundamentals_score := final_weighted;
         metric_scores := dict_update minor_metric_scores major_metric_scores;
         matched_states := (minor_states ++ major_states)%list |}.

(** *** The aggregation as the specification words it *)

(** A State counts when its condition is present, non-empty and matches. *)
Definition state_matches (snapshot : Snapshot) (st : StateRule) : bool :=
  match condition st with
  | Some c => negb (is_empty c) && _match_condition snapshot c
  | None => false
  end.

(** The midpoints of the matching States, in rulebook order. *)
Definition matched_midpoints (states_def : dict StateRule) (snapshot : Snapshot)
  : list Q :=
  map (fun item => midpoint (get_default (score_range (snd item)) (- (1), 1)))
    (filter (fun item => state_matches snapshot (snd item)) states_def).

(** The Metric's score: the arithmetic mean of the matched midpoints,
    no score when no State matches. *)
Definition spec_metric_score (states_def : dict StateRule) (snapshot : Snapshot)
  : option Q :=
  match matched_midpoints states_def snapshot with
  | [] => None
  | l => Some (Qsum l / inject_Z (Z.of_nat (length l)))
  end.

(** The Metrics that produced a score in a timeframe, each with its
    score and its weight [metric_weight * group_base_weight]. *)
Definition contributions (groups_def : dict GroupInfo) (timeframe : string)
    (snapshot : Snapshot) (ms : dict MetricRule) : list (Q * Q) :=
  flat_map
    (fun item : string * MetricRule =>
       match dict_get timeframe (timeframes (snd item)) with
       | None => []
       | Some tf =>
           match spec_metric_score (states tf) snapshot with
           | None => []
           | Some sc => [(sc, effective_weight groups_def (snd item))]
           end
       end) ms.

(** [sum(score * w) / sum(w)], and 0 when the weights sum to 0. *)
Definition spec_timeframe_score (cs : list (Q * Q)) : Q :=
  if Qeq_bool (Qsum (map snd cs)) 0 then 0
  else Qsum (map (fun c => fst c * snd c) cs) / Qsum (map snd cs).

End WithRuntime.

(** *** Valid rule tables *)

(** Both ends of a score range lie inside the scale [[lo, hi]]. *)
Definition range_in_scale (lo hi : Q) (r : Q * Q) : Prop :=
  lo <= fst r <= hi /\ lo <= snd r <= hi.

(** Every score range the engine can read lies inside the scale (a
    State without a range is read as [[-1, 1]]). *)
Definition ranges_in_scale (lo hi : Q) (rb : Rulebook) : Prop :=
  forall metric_name m tf_name tf state_name st,
    List.In (metric_name, m) (metrics rb) ->
    List.In (tf_name, tf) (timeframes m) ->
    List.In (state_name, st) (states tf) ->
    range_in_scale lo hi (get_default (score_range st) (- (1), 1)).

(** Every Metric has a positive weight [metric_weight * group_base_weight]. *)
Definition positive_weights (rb : Rulebook) : Prop :=
  forall metric_name m,
    List.In (metric_name, m) (metrics rb) -> 0 < effective_weight (groups rb) m.

End Fundamentals.

(* ================================================================== *)
(** ** scoring/price_action_scoring.py *)
(* ================================================================== *)

Module PriceAction.

Record PatternRule : Type := {
  base_impact : option Q;
  timeframes : dict TimeframeRule
}.

Record Rulebook : Type := { patterns : dict PatternRule }.

Record Engine : Type := { rulebook : Rulebook; weight : Q }.

(** [__init__(rulebook)] *)
Definition init (rb : Rulebook) : Engine := {| rulebook := rb; weight := 12 # 10 |}.

(** [matched_states] is built as [list(set(...))]: the names without
    repetition, in no specified order. *)
Record Result : Type := {
  minor_score : Q;
  major_score : Q;
  final_price_action_score : Q;
  matched_states : list string
}.

(** [pattern_data.get(key)] and [pattern_data.get(key, False)] *)
Definition data_get (pattern_data : Snapshot) (key : string) : value :=
  get_default (dict_get key pattern_data) VNone.

Definition data_get_or_false (pattern_data : Snapshot) (key : string) : value :=
  get_default (dict_get key pattern_data) (VBool false).

(** [v == "text"], [v is True], and the operators [and] / [or] on values. *)
Definition eq_text (v : value) (text : string) : value :=
  VBool (Operator.value_eqb v (VStr text)).

Definition is_True (v : value) : value :=
  VBool (match v with VBool true => true | _ => false end).

Definition py_and (a b : value) : value := if truthy a then b else a.
Definition py_or (a b : value) : value := if truthy a then a else b.

(** The branches of [_match_state] that return without a recursive
    call, in source order, on the lower-cased condition; [None] when
    none of them returns. *)
Definition match_keywords (pattern_data : Snapshot) (cond : string) : option value :=
  let get := data_get pattern_data in
  let get_or_false := data_get_or_false pattern_data in
  (* --- STRUCTURE --- *)
  if contains "hh + hl" cond || contains "structure == 'hh_hl'" cond
     || contains "higher highs" cond
  then Some (py_or (eq_text (get "structure") "UPTREND")
                   (eq_text (get "structure") "HH_HL"))
  else if contains "lh + ll" cond || contains "structure == 'lh_ll'" cond
          || contains "lower lows" cond
  then Some (py_or (eq_text (get "structure") "DOWNTREND")
                   (eq_text (get "structure") "LH_LL"))
  (* --- BREAKOUTS --- *)
  else if contains "close above well-defined resistance" cond
          || contains "break above resistance" cond
  then Some (py_and (eq_text (get "breakout") "UP") (get_or_false "volume_confirmation"))
  else if contains "close below well-defined support" cond
          || contains "break below support" cond
  then Some (py_and (eq_text (get "breakout") "DOWN") (get_or_false "volume_confirmation"))
  (* --- GAPS --- *)
  else if contains "gap up" cond && contains "follow through" cond
  then Some (py_and (eq_text (get "gap_direction") "UP") (get_or_false "gap_follow_through"))
  else if contains "gap up then price falls back" cond || contains "gap up filled" cond
  then Some (py_and (py_and (eq_text (get "gap_direction") "UP")
                            (is_True (get "gap_filled")))
                    (is_True (get "rejected")))
  else if contains "gap down" cond && contains "follow through" cond
  then Some (py_and (eq_text (get "gap_direction") "DOWN")
                    (get_or_false "gap_follow_through"))
  else if contains "gap down then reclaimed" cond
          || contains "gap down filled and reclaimed" cond
  then Some (py_and (py_and (eq_text (get "gap_direction") "DOWN")
                            (is_True (get "gap_filled")))
                    (is_True (get "reclaimed")))
  (* --- CANDLES --- *)
  else if contains "bullish engulfing" cond
          || contains "candle_pattern == 'bullish_engulfing'" cond
  then Some (py_or (eq_text (get "candle_pattern") "BULL_ENG")
                   (eq_text (get "candle_pattern") "BULLISH_ENGULFING"))
  else if contains "bearish engulfing" cond
          || contains "candle_pattern == 'bearish_engulfing'" cond
  then Some (py_or (eq_text (get "candle_pattern") "BEAR_ENG")
                   (eq_text (get "candle_pattern") "BEARISH_ENGULFING"))
  else if contains "hammer" cond
  then Some (eq_text (get "candle_pattern") "HAMMER")
  else if contains "shooting star" cond
  then Some (eq_text (get "candle_pattern") "SHOOTING_STAR")
  (* --- TRAPS / FAILURES --- *)
  else if contains "failed breakout" cond || contains "failed_breakout" cond
  then Some (get_or_false "failed_breakout")
  else if contains "failed breakdown" cond || contains "failed_breakdown" cond
  then Some (get_or_false "failed_breakdown")
  (* --- DEFAULT: direct field matching --- *)
  else if contains " == " cond
  then
    match split " == " cond with
    | [field; text] =>
        let field_name := strip field in
        let val := strip_chars ["'"%char; "034"%char] (strip text) in
        Some (eq_text (get field_name) val)
    | _ => None
    end
  else None.

(** [_match_state(pattern_data, condition)].  The recursive calls are
    on the parts of the condition between two [" and "] or two [" or "],
    which are shorter than the condition: [fuel] bounds their depth. *)
Fixpoint match_state_fuel (fuel : nat) (pattern_data : Snapshot) (condition : string)
  : value :=
  let cond := lower condition in
  match match_keywords pattern_data cond with
  | Some v => v
  | None =>
      if contains " and " cond then
        match fuel with
        | O => VBool false
        | S fuel' =>
            VBool (forallb
                     (fun part => truthy (match_state_fuel fuel' pattern_data (strip part)))
                     (split " and " cond))
        end
      else if contains " or " cond then
        match fuel with
        | O => VBool false
        | S fuel' =>
            VBool (existsb
                     (fun part => truthy (match_state_fuel fuel' pattern_data (strip part)))
                     (split " or " cond))
        end
      else VBool false
  end.

Definition _match_state (pattern_data : Snapshot) (condition : string) : value :=
  match_state_fuel (String.length condition) pattern_data condition.

Record Acc : Type := {
  acc_matched : list string;
  score_accumulator : list Q;
  pattern_weights : list Q
}.

(** One iteration of the loop over [states_def.items()]. *)
Definition state_step (pattern_name : string) (pattern_data : Snapshot) (impact : Q)
    (acc : Acc) (item : string * StateRule) : outcome Acc :=
  let '(state_name, state_rule) := item in
  match condition state_rule with
  | None => Raise (KeyError "condition")
  | Some cond =>
      if truthy (_match_state pattern_data cond) then
        match score_range state_rule with
        | None => Raise (KeyError "score_range")
        | Some r =>
            Ret {| acc_matched :=
                     (acc_matched acc ++ [(pattern_name ++ ":" ++ state_name)%string])%list;
                   score_accumulator :=
                     (score_accumulator acc ++ [midpoint r * impact])%list;
                   pattern_weights := (pattern_weights acc ++ [impact])%list |}
        end
      else Ret acc
  end.

(** One iteration of the loop over [patterns.items()]. *)
Definition pattern_step (timeframe : string) (pattern_data : Snapshot)
    (acc : Acc) (item : string * PatternRule) : outcome Acc :=
  let '(pattern_name, pattern_cfg) := item in
  let impact := get_default (base_impact pattern_cfg) 5 in
  match dict_get timeframe (timeframes pattern_cfg) with
  | None => Ret acc
  | Some tf_cfg =>
      for_each (state_step pattern_name pattern_data impact) (states tf_cfg) acc
  end.

(** [_score_timeframe(timeframe, pattern_data)] *)
Definition _score_timeframe (e : Engine) (timeframe : string) (pattern_data : Snapshot)
  : outcome (Q * list string) :=
  match patterns (rulebook e) with
  | [] => Ret (0, [])
  | ps =>
      acc <- for_each (pattern_step timeframe pattern_data) ps
               {| acc_matched := []; score_accumulator := []; pattern_weights := [] |} ;;
      match score_accumulator acc with
      | [] => Ret (0, [])
      | _ :: _ =>
          let total_weight := Qsum (pattern_weights acc) in
          final_score <-
            (if Qltb 0 total_weight
             then py_div (Qsum (score_accumulator acc)) total_weight
             else py_div (Qsum (score_accumulator acc))
                    (inject_Z (Z.of_nat (length (score_accumulator acc))))) ;;
          Ret (final_score, acc_matched acc)
      end
  end.

(** [score(pattern_data)] *)
Definition score (e : Engine) (pattern_data : Snapshot) : outcome Result :=
  minor <- _score_timeframe e "MINOR" pattern_data ;;
  major <- _score_timeframe e "MAJOR" pattern_data ;;
  let '(minor_score, minor_states) := minor in
  let '(major_score, major_states) := major in
  let final := ((minor_score + major_score) / 2) * weight e in
  Ret {| minor_score := minor_score;
         major_score := major_score;
         final_price_action_score := final;
         matched_states := nodup string_dec (minor_states ++ major_states) |}.

End PriceAction.

(* ================================================================== *)
(** ** scoring/master_scoring.py *)
(* ================================================================== *)

Inductive direction : Type := LONG | SHORT | NEUTRAL.

Module MasterScoring.

Record Config : Type := {
  use_macro : bool;
  use_sector : bool;
  use_news : bool;
  use_technical : bool;
  use_options : bool;
  use_pattern : bool;
  use_strategy_context : bool;
  use_position_risk : bool;
  direction_threshold : Q
}.

Definition DEFAULT_CONFIG : Config :=
  {| use_macro := true; use_sector := true; use_news := true;
     use_technical := true; use_options := true; use_pattern := true;
     use_strategy_context := true; use_position_risk := true;
     direction_threshold := 2 |}.

Definition module_score_keys : dict string :=
  [("macro", "final_macro_score");
   ("sector", "final_sector_macro_score");
   ("news", "final_news_score");
   ("technical", "final_technical_score");
   ("options", "final_options_score");
   ("pattern", "final_pattern_price_score");
   ("strategy_context", "final_strategy_context_score");
   ("position_risk", "final_position_risk_score")].

Definition module_order : list string :=
  ["macro"; "sector"; "news"; "technical"; "options"; "pattern";
   "strategy_context"; "position_risk"].

Record MasterScoreResult : Type := {
  symbol : string;
  module_scores : dict Q;
  final_master_score : Q;
  result_direction : direction;
  abs_strength : Q;
  used_modules : list string
}.

(** [_clamp(value, low, high)] *)
Definition _clamp (value low high : Q) : Q := clamp value low high.

(** [_is_module_enabled(module_name)] *)
Definition _is_module_enabled (config : Config) (module_name : string) : bool :=
  let mapping : dict (Config -> bool) :=
    [("macro", use_macro); ("sector", use_sector); ("news", use_news);
     ("technical", use_technical); ("options", use_options);
     ("pattern", use_pattern); ("strategy_context", use_strategy_context);
     ("position_risk", use_position_risk)] in
  match dict_get module_name mapping with
  | None => false
  | Some key => key config
  end.

(** [_direction_from_score(score)] *)
Definition _direction_from_score (config : Config) (score : Q) : direction :=
  let threshold := direction_threshold config in
  if Qle_bool threshold score then LONG
  else if Qle_bool score (- threshold) then SHORT
  else NEUTRAL.

Record Acc : Type := {
  acc_scores : dict Q;
  acc_used : list string;
  total : Q;
  count : nat
}.

(** The checks at the head of the loop body: [None] when the module is
    skipped ([continue]), the clamped score when it takes part. *)
Definition module_contribution (config : Config) (module_results : dict (dict value))
    (module_name : string) : outcome (option Q) :=
  if negb (_is_module_enabled config module_name) then Ret None
  else
    match dict_get module_name module_results with
    | None | Some [] => Ret None
    | Some result_dict =>
        match dict_get module_name module_score_keys with
        | None => Ret None
        | Some score_key =>
            if is_empty score_key then Ret None
            else
              match dict_get score_key result_dict with
              | None | Some VNone => Ret None
              | Some raw_score =>
                  match as_number raw_score with
                  | None => Raise TypeError
                  | Some n => Ret (Some (_clamp (number_Q n) (- (10)) 10))
                  end
              end
        end
    end.

(** One iteration of the loop over [module_order]. *)
Definition module_step (config : Config) (module_results : dict (dict value))
    (acc : Acc) (module_name : string) : outcome Acc :=
  c <- module_contribution config module_results module_name ;;
  match c with
  | None => Ret acc
  | Some clamped =>
      Ret {| acc_scores := dict_set module_name clamped (acc_scores acc);
             acc_used := (acc_used acc ++ [module_name])%list;
             total := total acc + clamped;
             count := S (count acc) |}
  end.

(** [score_symbol(symbol, module_results)] *)
Definition score_symbol (config : Config) (sym : string)
    (module_results : dict (dict value)) : outcome MasterScoreResult :=
  acc <- for_each (module_step config module_results) module_order
           {| acc_scores := []; acc_used := []; total := 0; count := O |} ;;
  final_score <-
    (if (count acc =? 0)%nat then Ret 0
     else py_div (total acc) (inject_Z (Z.of_nat (count acc)))) ;;
  let final_score := _clamp final_score (- (10)) 10 in
  Ret {| symbol := sym;
         module_scores := acc_scores acc;
         final_master_score := final_score;
         result_direction := _direction_from_score config final_score;
         abs_strength := Qabs final_score;
         used_modules := acc_used acc |}.

(** The clamped scores of the modules that take part, in module order. *)
Fixpoint clamped_scores (config : Config) (module_results : dict (dict value))
    (names : list string) : list Q :=
  match names with
  | [] => []
  | n :: ns =>
      match module_contribution config module_results n with
      | Ret (Some c) => c :: clamped_scores config module_results ns
      | _ => clamped_scores config module_results ns
      end
  end.

(** The arithmetic mean, 0 for the empty list. *)
Definition mean_or_zero (l : list Q) : Q :=
  match l with
  | [] => 0
  | _ :: _ => Qsum l / inject_Z (Z.of_nat (length l))
  end.

End MasterScoring.

(* ================================================================== *)
(** ** rulebooks/scoring_system.py *)
(* ================================================================== *)

Module ScoringSystem.

(** *** Input data *)

Record IndicatorSnapshot : Type := {
  snapshot_timeframe : string;
  rsi : option Q;
  macd : option Q;
  macd_signal : option Q;
  macd_histogram : option Q;
  sma9 : option Q;
  sma20 : option Q;
  sma50 : option Q;
  sma150 : option Q;
  sma200 : option Q;
  vwap : option Q;
  atr : option Q;
  upper_band : option Q;
  lower_band : option Q;
  bandwidth : option Q;
  price : option Q;
  volume : option Q;
  avg_volume_same_period : option Q;
  intraday_ATR : option Q
}.

Record MacroSnapshot : Type := {
  spy_daily_regime_score : Q;
  spy_intraday_regime_score : Q;
  vix_score : Q;
  fear_greed_score : Q;
  macro_news_score : Q
}.

Record SectorSnapshot : Type := {
  sector_name : string;
  sector_score_daily : Q;
  sector_score_intraday : Q
}.

(** The news, options-flow and micro-company inputs of a symbol are
    read only by the components of those departments. *)
Record SymbolState : Type := {
  symbol : string;
  sector : option string;
  symbol_price : option Q;
  indicators_minor : option IndicatorSnapshot;
  indicators_major : option IndicatorSnapshot
}.

Record UniverseState : Type := {
  symbols : dict SymbolState;
  macro : MacroSnapshot;
  sectors : dict SectorSnapshot
}.

(** *** Output data *)

(** The [detail] dictionary of one indicator in one timeframe. *)
Record IndicatorDetail : Type := {
  detail_matched_states : option (list (string * Q));
  detail_reason : option string;
  detail_base_score : option Q
}.

Record Breakdown : Type := {
  indicator : string;
  breakdown_group : string;
  breakdown_minor_score : option Q;
  breakdown_major_score : option Q;
  combined : Q;
  detail_minor : IndicatorDetail;
  detail_major : IndicatorDetail
}.

(** The [details] dictionary of a component, by shape. *)
Inductive Details : Type :=
| ReasonOnly (reason : string)
| TechnicalDetails (indicators_breakdown : list Breakdown) (final_technical_score : Q)
| MacroDetails (inputs : MacroSnapshot) (combined_macro_score : Q)
| SectorDetails (name : string) (daily intraday combined_sector_score : Q).


Record ComponentScore : Type := {
  component_name : string;
  raw_score : Q;
  weight : Q;
  weighted_score : Q;
  details : Details
}.

Record SymbolScoreResult : Type := {
  result_symbol : string;
  total_score : Q;
  result_direction : direction;
  components : list ComponentScore
}.

(** *** BaseScoringComponent *)

(** A component is its name, its weight and its implementation of the
    method [_compute_raw_score]. *)
Record BaseScoringComponent : Type := {
  name : string;
  self_weight : Q;
  _compute_raw_score : SymbolState -> UniverseState -> outcome (Q * Details)
}.

(** [BaseScoringComponent.score_symbol(symbol_state, universe_state)] *)
Definition score_symbol (self : BaseScoringComponent) (symbol_state : SymbolState)
    (universe_state : UniverseState) : outcome ComponentScore :=
  r <- _compute_raw_score self symbol_state universe_state ;;
  let '(raw, det) := r in
  let raw_score_clamped := py_max (- (10)) (py_min 10 raw) in
  let weighted := raw_score_clamped * self_weight self in
  Ret {| component_name := name self;
         raw_score := raw_score_clamped;
         weight := self_weight self;
         weighted_score := weighted;
         details := det |}.

(** *** TechnicalIndicatorsComponent *)

Inductive ScoreSpec : Type :=
| RangePair (low high : Q)
| Scalar (x : Q).

Record StateCfg : Type := {
  state_condition : option string;
  state_score_range : option ScoreSpec
}.

(** [tf_states = None] and [tf_context_rules = None] together are the
    empty dictionary. *)
Record TfCfg : Type := {
  tf_states : option (dict StateCfg);
  tf_context_rules : option (list string)
}.

Record IndicatorCfg : Type := {
  base_impact : option Q;
  indicator_group : option string;
  indicator_timeframes : dict TfCfg
}.

Definition float_or_none (x : option Q) : value :=
  match x with Some q => VFloat q | None => VNone end.

(** [a or b] on two optional floats. *)
Definition or_else (a b : option Q) : option Q :=
  match a with
  | Some q => if Qeq_bool q 0 then b else a
  | None => b
  end.

Definition technical_env (snapshot : IndicatorSnapshot) (symbol_state : SymbolState)
  : dict value :=
  [("rsi", float_or_none (rsi snapshot));
   ("macd", float_or_none (macd snapshot));
   ("signal", float_or_none (macd_signal snapshot));
   ("histogram", float_or_none (macd_histogram snapshot));
   ("sma9", float_or_none (sma9 snapshot));
   ("sma20", float_or_none (sma20 snapshot));
   ("sma50", float_or_none (sma50 snapshot));
   ("sma150", float_or_none (sma150 snapshot));
   ("sma200", float_or_none (sma200 snapshot));
   ("vwap", float_or_none (vwap snapshot));
   ("atr", float_or_none (atr snapshot));
   ("upper_band", float_or_none (upper_band snapshot));
   ("lower_band", float_or_none (lower_band snapshot));
   ("bandwidth", float_or_none (bandwidth snapshot));
   ("price", float_or_none (or_else (price snapshot) (symbol_price symbol_state)));
   ("current_volume", float_or_none (volume snapshot));
   ("avg_volume_same_period", float_or_none (avg_volume_same_period snapshot));
   ("intraday_ATR", float_or_none (intraday_ATR snapshot));
   ("abs", VObject AbsFunction);
   ("math", VObject MathModule)].

Section Technical.

Variable rt : Runtime.
Variable indicator_defs : dict IndicatorCfg.

(** [_evaluate_condition(condition, snapshot, symbol_state)] *)
Definition _evaluate_condition (cond_text : string) (snapshot : IndicatorSnapshot)
    (symbol_state : SymbolState) : bool :=
  let env := technical_env snapshot symbol_state in
  let cond := strip cond_text in
  if is_empty cond then false
  else if contains "AND" cond || contains ":" cond then false
  else try_except (v <- builtin_eval rt cond env ;; Ret (truthy v)) false.

Definition state_step (snapshot : IndicatorSnapshot) (symbol_state : SymbolState)
    (acc : list Q * list (string * Q)) (item : string * StateCfg)
  : list Q * list (string * Q) :=
  let '(state_name, state_cfg) := item in
  let condition_str := get_default (state_condition state_cfg) "" in
  let range := get_default (state_score_range state_cfg) (RangePair (- (1)) 1) in
  if _evaluate_condition condition_str snapshot symbol_state then
    let s := match range with
             | RangePair low high => (low + high) / 2
             | Scalar x => x
             end in
    ((fst acc ++ [s])%list, (snd acc ++ [(state_name, s)])%list)
  else acc.

Definition reason_detail (r : string) : IndicatorDetail :=
  {| detail_matched_states := None; detail_reason := Some r; detail_base_score := None |}.

(** [_score_indicator_timeframe(name, cfg, symbol_state, snapshot, timeframe)] *)
Definition _score_indicator_timeframe (cfg : IndicatorCfg) (symbol_state : SymbolState)
    (snapshot : option IndicatorSnapshot) (timeframe : string)
  : outcome (option Q * IndicatorDetail) :=
  match snapshot with
  | None => Ret (None, reason_detail ("no_" ++ timeframe ++ "_data"))
  | Some snap =>
      match dict_get timeframe (indicator_timeframes cfg) with
      | None
      | Some {| tf_states := None; tf_context_rules := None |} =>
          Ret (None, reason_detail ("no_" ++ timeframe ++ "_config"))
      | Some tf_cfg =>
          let sts := get_default (tf_states tf_cfg) [] in
          let '(raw_scores, matched) :=
            fold_left (state_step snap symbol_state) sts ([], []) in
          match raw_scores with
          | [] =>
              Ret (Some 0,
                   {| detail_matched_states := Some [];
                      detail_reason := Some "no_state_matched";
                      detail_base_score := None |})
          | _ :: _ =>
              base_score <- py_div (Qsum raw_scores)
                              (inject_Z (Z.of_nat (length raw_scores))) ;;
              Ret (Some base_score,
                   {| detail_matched_states := Some matched;
                      detail_reason := None;
                      detail_base_score := Some base_score |})
          end
      end
  end.

Record Acc : Type := {
  acc_components : list Breakdown;
  acc_total_score : Q;
  acc_total_weight : Q
}.

(** The per-indicator blend: [combined = 0.0], then each timeframe
    score that is not [None] adds its share. *)
Definition combine_timeframes (indicator_score_minor indicator_score_major : option Q)
  : Q :=
  let w_minor := 6 # 10 in
  let w_major := 4 # 10 in
  let combined := 0 in
  let combined := match indicator_score_minor with
                  | Some s => combined + s * w_minor
                  | None => combined
                  end in
  match indicator_score_major with
  | Some s => combined + s * w_major
  | None => combined
  end.

(** One iteration of the loop over [indicator_defs.items()]. *)
Definition indicator_step (symbol_state : SymbolState) (acc : Acc)
    (item : string * IndicatorCfg) : outcome Acc :=
  let '(ind_name, cfg) := item in
  let impact := get_default (base_impact cfg) 5 in
  let grp := get_default (indicator_group cfg) "MOMENTUM" in
  mi <- _score_indicator_timeframe cfg symbol_state
          (indicators_minor symbol_state) "MINOR" ;;
  ma <- _score_indicator_timeframe cfg symbol_state
          (indicators_major symbol_state) "MAJOR" ;;
  let '(indicator_score_minor, d_minor) := mi in
  let '(indicator_score_major, d_major) := ma in
  let c := combine_timeframes indicator_score_minor indicator_score_major in
  Ret {| acc_components :=
           (acc_components acc ++
            [{| indicator := ind_name; breakdown_group := grp;
                breakdown_minor_score := indicator_score_minor;
                breakdown_major_score := indicator_score_major;
                combined := c; detail_minor := d_minor; detail_major := d_major |}])%list;
         acc_total_score := acc_total_score acc + c * impact;
         acc_total_weight := acc_total_weight acc + Qabs impact |}.

(** [TechnicalIndicatorsComponent._compute_raw_score] *)
Definition technical_compute_raw_score (symbol_state : SymbolState)
    (universe_state : UniverseState) : outcome (Q * Details) :=
  match indicators_minor symbol_state, indicators_major symbol_state with
  | None, None => Ret (0, ReasonOnly "no_indicator_data")
  | _, _ =>
      acc <- for_each (indicator_step symbol_state) indicator_defs
               {| acc_components := []; acc_total_score := 0; acc_total_weight := 0 |} ;;
      final_score <-
        (if Qeq_bool (acc_total_weight acc) 0 then Ret 0
         else py_div (acc_total_score acc) (acc_total_weight acc)) ;;
      let final_score := py_max (- (10)) (py_min 10 final_score) in
      Ret (final_score, TechnicalDetails (acc_components acc) final_score)
  end.

Definition TechnicalIndicatorsComponent (w : Q) : BaseScoringComponent :=
  {| name := "TECHNICAL"; self_weight := w;
     _compute_raw_score := technical_compute_raw_score |}.

End Technical.

(** *** MacroScoringComponent *)

Definition macro_compute_raw_score (symbol_state : SymbolState)
    (universe_state : UniverseState) : outcome (Q * Details) :=
  let m := macro universe_state in
  let w_spy_daily := 35 # 100 in
  let w_spy_intraday := 25 # 100 in
  let w_vix := 2 # 10 in
  let w_fear_greed := 1 # 10 in
  let w_macro_news := 1 # 10 in
  let score :=
    spy_daily_regime_score m * w_spy_daily +
    spy_intraday_regime_score m * w_spy_intraday +
    vix_score m * w_vix +
    fear_greed_score m * w_fear_greed +
    macro_news_score m * w_macro_news in
  let score := py_max (- (10)) (py_min 10 score) in
  Ret (score, MacroDetails m score).

Definition MacroScoringComponent (w : Q) : BaseScoringComponent :=
  {| name := "MACRO"; self_weight := w; _compute_raw_score := macro_compute_raw_score |}.

(** *** SectorScoringComponent *)

Definition sector_compute_raw_score (symbol_state : SymbolState)
    (universe_state : UniverseState) : outcome (Q * Details) :=
  match sector symbol_state with
  | None => Ret (0, ReasonOnly "no_sector_data")
  | Some s =>
      if is_empty s then Ret (0, ReasonOnly "no_sector_data")
      else
        match dict_get s (sectors universe_state) with
        | None => Ret (0, ReasonOnly "no_sector_data")
        | Some sector_snap =>
            let w_daily := 5 # 10 in
            let w_intraday := 5 # 10 in
            let score :=
              sector_score_daily sector_snap * w_daily +
              sector_score_intraday sector_snap * w_intraday in
            let score := py_max (- (10)) (py_min 10 score) in
            Ret (score,
                 SectorDetails s (sector_score_daily sector_snap)
                   (sector_score_intraday sector_snap) score)
        end
  end.

Definition SectorScoringComponent (w : Q) : BaseScoringComponent :=
  {| name := "SECTOR"; self_weight := w; _compute_raw_score := sector_compute_raw_score |}.

(** *** MasterScoringEngine *)

Record MasterScoringEngine : Type := {
  _all_components : list BaseScoringComponent
}.

(** Insertion into a list sorted by decreasing key, after the elements
    of equal key: [list.sort(key=..., reverse=True)] is stable. *)
Fixpoint insert_desc {A : Type} (key : A -> Q) (x : A) (l : list A) : list A :=
  match l with
  | [] => [x]
  | y :: l' => if Qltb (key y) (key x) then x :: l else y :: insert_desc key x l'
  end.

Definition sort_desc {A : Type} (key : A -> Q) (l : list A) : list A :=
  fold_left (fun sorted x => insert_desc key x sorted) l [].

(** The direction test of [score_universe]. *)
Definition direction_of_total (total : Q) : direction :=
  if Qltb (5 # 10) total then LONG
  else if Qltb total (- (5 # 10)) then SHORT
  else NEUTRAL.

(** The body of the loop over [universe.symbols.items()]. *)
Definition score_one (self : MasterScoringEngine) (universe : UniverseState)
    (item : string * SymbolState) : outcome SymbolScoreResult :=
  let '(sym, state) := item in
  component_scores <-
    for_each (fun acc component =>
                cs <- score_symbol component state universe ;;
                Ret (acc ++ [cs])%list)
      (_all_components self) [] ;;
  let total := Qsum (map weighted_score component_scores) in
  Ret {| result_symbol := sym;
         total_score := total;
         result_direction := direction_of_total total;
         components := component_scores |}.

(** [MasterScoringEngine.score_universe(universe)] *)
Definition score_universe (self : MasterScoringEngine) (universe : UniverseState)
  : outcome (list SymbolScoreResult) :=
  results <-
    for_each (fun acc item =>
                r <- score_one self universe item ;;
                Ret (acc ++ [r])%list)
      (symbols universe) [] ;;
  Ret (sort_desc (fun r => Qabs (total_score r)) results).

End ScoringSystem.

(* ================================================================== *)
(** ** A concrete runtime and concrete inputs *)
(* ================================================================== *)

Module Examples.

(** What [ast.parse(s, mode='eval').body] is for the condition strings
    used below. *)
Definition parse_table : dict expr :=
  [("x is not None and x > 0",
    BoolOp And
      [Compare (Name "x") [IsNot] [Constant VNone];
       Compare (Name "x") [Gt] [Constant (VInt 0)]]);
   ("gamma_exposure is not None and gamma_exposure < 0 and abs(gamma_exposure) >= gamma_critical_threshold",
    BoolOp And
      [Compare (Name "gamma_exposure") [IsNot] [Constant VNone];
       Compare (Name "gamma_exposure") [Lt] [Constant (VInt 0)];
       Compare (Call (Name "abs") [Name "gamma_exposure"]) [GtE]
         [Name "gamma_critical_threshold"]]);
   ("a > 0", Compare (Name "a") [Gt] [Constant (VInt 0)]);
   ("a > 1", Compare (Name "a") [Gt] [Constant (VInt 1)]);
   ("rsi >= 70", Compare (Name "rsi") [GtE] [Constant (VInt 70)]);
   ("rsi <= 30", Compare (Name "rsi") [LtE] [Constant (VInt 30)]);
   ("rsi >= 80", Compare (Name "rsi") [GtE] [Constant (VInt 80)]);
   ("12 <= pe_ratio <= 18 and pb_ratio < 2.0",
    BoolOp And
      [Compare (Constant (VInt 12)) [LtE; LtE] [Name "pe_ratio"; Constant (VInt 18)];
       Compare (Name "pb_ratio") [Lt] [Constant (VFloat 2)]]);
   ("pe_ratio < 20", Compare (Name "pe_ratio") [Lt] [Constant (VInt 20)]);
   ("pe_ratio > 100", Compare (Name "pe_ratio") [Gt] [Constant (VInt 100)])].

(** The operator-level services: no condition below formats a string or
    tests the identity of two numbers or strings. *)
Definition rt_operators : Runtime :=
  {| ast_parse := fun s => dict_get s parse_table;
     builtin_eval := fun _ _ => Raise SyntaxError;
     str_percent := fun _ _ => Raise TypeError;
     same_object := fun _ _ => false |}.

(** [eval] on the strings of [parse_table] follows the language's own
    evaluation rules. *)
Definition rt0 : Runtime :=
  {| ast_parse := ast_parse rt_operators;
     builtin_eval := fun s env =>
       match dict_get s parse_table with
       | Some tree =>
           match PythonEval.eval rt_operators env tree with
           | Some r => r
           | None => Raise SyntaxError
           end
       | None => Raise SyntaxError
       end;
     str_percent := str_percent rt_operators;
     same_object := same_object rt_operators |}.

Definition short_circuit_condition : string := "x is not None and x > 0".

Definition short_circuit_tree : expr :=
  BoolOp And
    [Compare (Name "x") [IsNot] [Constant VNone];
     Compare (Name "x") [Gt] [Constant (VInt 0)]].

(** The condition of the state [NEGATIVE_GAMMA_VOLATILE] of
    [OPTIONS_FLOW_RULEBOOK]. *)
Definition abs_condition : string :=
  "gamma_exposure is not None and gamma_exposure < 0 and abs(gamma_exposure) >= gamma_critical_threshold".

Definition abs_tree : expr :=
  BoolOp And
    [Compare (Name "gamma_exposure") [IsNot] [Constant VNone];
     Compare (Name "gamma_exposure") [Lt] [Constant (VInt 0)];
     Compare (Call (Name "abs") [Name "gamma_exposure"]) [GtE]
       [Name "gamma_critical_threshold"]].

Definition gamma_snapshot : Snapshot :=
  [("gamma_exposure", VFloat (- (5))); ("gamma_critical_threshold", VFloat 3)].

(** The state [NEGATIVE_GAMMA_VOLATILE] and its group, as in
    [OPTIONS_FLOW_RULEBOOK]. *)
Definition gamma_rulebook : OptionsFlow.Rulebook :=
  {| OptionsFlow.groups := [("GAMMA", {| base_weight := Some (11 # 10) |})];
     OptionsFlow.minor_states :=
       [("NEGATIVE_GAMMA_VOLATILE",
         {| condition := Some abs_condition;
            score_range := Some (- (8), - (5));
            group := Some "GAMMA" |})] |}.

(** *** Inputs of the rule-table engines *)

Definition state_rule (cond : string) (low high : Q) : StateRule :=
  {| condition := Some cond; score_range := Some (low, high); group := None |}.

Definition major_metric (sts : dict StateRule) : MetricRule :=
  {| metric_group := None; metric_weight := Some 1;
     timeframes := [("MAJOR", {| states := sts |})] |}.

(** Matches when [pe_ratio < 20]. *)
Definition pe_cheap : MetricRule :=
  major_metric [("CHEAP", state_rule "pe_ratio < 20" 4 6)].

(** Matches when [pe_ratio > 100]. *)
Definition pe_expensive : MetricRule :=
  major_metric [("EXPENSIVE", state_rule "pe_ratio > 100" (- (6)) (- (4)))].

Definition pe_snapshot : Snapshot :=
  [("pe_ratio", VInt 15); ("pb_ratio", VFloat (18 # 10))].

(** Two States that both match [pe_snapshot], with midpoints 4 and 6. *)
Definition overlapping_states : dict StateRule :=
  [("CHEAP", state_rule "pe_ratio < 20" 3 5);
   ("FAIR_VALUE", state_rule "12 <= pe_ratio <= 18 and pb_ratio < 2.0" 5 7)].



Definition options_rulebook (sts : dict StateRule) : OptionsFlow.Rulebook :=
  {| OptionsFlow.groups := []; OptionsFlow.minor_states := sts |}.


(** Two module results, 8 and 6. *)
Definition two_modules : dict (dict value) :=
  [("macro", [("final_macro_score", VFloat 8)]);
   ("news", [("final_news_score", VFloat 6)])].

(** The pattern [STRUCTURE] of [PRICE_ACTION_RULEBOOK] with its first
    short-horizon State. *)
Definition structure_rulebook : PriceAction.Rulebook :=
  {| PriceAction.patterns :=
       [("STRUCTURE",
         {| PriceAction.base_impact := Some 7;
            PriceAction.timeframes :=
              [("MINOR",
                {| states :=
                     [("INTRADAY_STRONG_UPTREND",
                       state_rule "structure == 'HH_HL' AND swings_count >= 3" 4 6)] |})]
         |})] |}.

Definition uptrend : Snapshot := [("structure", VStr "UPTREND")].

(** *** Inputs of the technical component *)

Definition rsi_snapshot (tf : string) (r : Q) : ScoringSystem.IndicatorSnapshot :=
  {| ScoringSystem.snapshot_timeframe := tf;
     ScoringSystem.rsi := Some r;
     ScoringSystem.macd := None; ScoringSystem.macd_signal := None;
     ScoringSystem.macd_histogram := None; ScoringSystem.sma9 := None;
     ScoringSystem.sma20 := None; ScoringSystem.sma50 := None;
     ScoringSystem.sma150 := None; ScoringSystem.sma200 := None;
     ScoringSystem.vwap := None; ScoringSystem.atr := None;
     ScoringSystem.upper_band := None; ScoringSystem.lower_band := None;
     ScoringSystem.bandwidth := None; ScoringSystem.price := None;
     ScoringSystem.volume := None; ScoringSystem.avg_volume_same_period := None;
     ScoringSystem.intraday_ATR := None |}.

Definition one_state_indicator (state_name cond : string) (low high : Q)
  : ScoringSystem.IndicatorCfg :=
  {| ScoringSystem.base_impact := Some 5;
     ScoringSystem.indicator_group := Some "MOMENTUM";
     ScoringSystem.indicator_timeframes :=
       [("MINOR",
         {| ScoringSystem.tf_states :=
              Some [(state_name,
                     {| ScoringSystem.state_condition := Some cond;
                        ScoringSystem.state_score_range :=
                          Some (ScoringSystem.RangePair low high) |})];
            ScoringSystem.tf_context_rules := None |})] |}.

(** Matches when [rsi >= 70], with score range [[4, 6]]. *)
Definition rsi_high : ScoringSystem.IndicatorCfg :=
  one_state_indicator "HIGH" "rsi >= 70" 4 6.

(** Matches when [rsi <= 30], with score range [[-6, -4]]. *)
Definition rsi_low : ScoringSystem.IndicatorCfg :=
  one_state_indicator "LOW" "rsi <= 30" (- (6)) (- (4)).


(** A symbol with a short-horizon snapshot only, [rsi = 75]. *)
Definition minor_only : ScoringSystem.SymbolState :=
  {| ScoringSystem.symbol := "AAPL";
     ScoringSystem.sector := None;
     ScoringSystem.symbol_price := None;
     ScoringSystem.indicators_minor := Some (rsi_snapshot "MINOR" 75);
     ScoringSystem.indicators_major := None |}.

Definition macro_of (vix : Q) : ScoringSystem.MacroSnapshot :=
  {| ScoringSystem.spy_daily_regime_score := 0;
     ScoringSystem.spy_intraday_regime_score := 0;
     ScoringSystem.vix_score := vix;
     ScoringSystem.fear_greed_score := 0;
     ScoringSystem.macro_news_score := 0 |}.

Definition universe_with (m : ScoringSystem.MacroSnapshot) : ScoringSystem.UniverseState :=
  {| ScoringSystem.symbols := [("AAPL", minor_only)];
     ScoringSystem.macro := m;
     ScoringSystem.sectors := [] |}.

Definition universe_of (vix : Q) : ScoringSystem.UniverseState :=
  universe_with (macro_of vix).


(** An engine with the macro component alone. *)
Definition macro_engine (w : Q) : ScoringSystem.MasterScoringEngine :=
  {| ScoringSystem._all_components := [ScoringSystem.MacroScoringComponent w] |}.

(** An engine of the macro and the sector component, each of weight 1,
    and a universe in which both reach the top of the scale. *)
Definition two_component_engine : ScoringSystem.MasterScoringEngine :=
  {| ScoringSystem._all_components :=
       [ScoringSystem.MacroScoringComponent 1;
        ScoringSystem.SectorScoringComponent 1] |}.

Definition tech_symbol : ScoringSystem.SymbolState :=
  {| ScoringSystem.symbol := "MSFT";
     ScoringSystem.sector := Some "XLK";
     ScoringSystem.symbol_price := None;
     ScoringSystem.indicators_minor := None;
     ScoringSystem.indicators_major := None |}.

Definition bullish_macro : ScoringSystem.MacroSnapshot :=
  {| ScoringSystem.spy_daily_regime_score := 10;
     ScoringSystem.spy_intraday_regime_score := 10;
     ScoringSystem.vix_score := 10;
     ScoringSystem.fear_greed_score := 10;
     ScoringSystem.macro_news_score := 10 |}.

Definition bullish_universe : ScoringSystem.UniverseState :=
  {| ScoringSystem.symbols := [("MSFT", tech_symbol)];
     ScoringSystem.macro := bullish_macro;
     ScoringSystem.sectors :=
       [("XLK", {| ScoringSystem.sector_name := "XLK";
                   ScoringSystem.sector_score_daily := 10;
                   ScoringSystem.sector_score_intraday := 10 |})] |}.

End Examples.

(* ================================================================== *)
(** ** More of the standard types: dictionaries, strings, loops *)
(* ================================================================== *)

(** [d.setdefault(k, v)]: a key that is present keeps its value. *)
Definition dict_setdefault {V : Type} (k : string) (v : V) (d : dict V) : dict V :=
  if dict_has k d then d else dict_set k v d.

(** [list(d.keys())] *)
Definition dict_keys {V : Type} (d : dict V) : list string := map fst d.

(** [s.upper()], on ASCII letters. *)
Definition upper_char (c : ascii) : ascii :=
  let n := nat_of_ascii c in
  if ((97 <=? n) && (n <=? 122))%nat then ascii_of_nat (n - 32) else c.

Fixpoint upper (s : string) : string :=
  match s with
  | EmptyString => EmptyString
  | String c s' => String (upper_char c) (upper s')
  end.

(** [bool(o)] for an optional string: [None] and [""] are false. *)
Definition str_truthy (o : option string) : bool :=
  match o with
  | Some s => negb (is_empty s)
  | None => false
  end.

(** [o == text] for an optional string [o]. *)
Definition opt_eqb (o : option string) (text : string) : bool :=
  match o with
  | Some s => String.eqb s text
  | None => false
  end.

(** The comparator loop of a [Compare] node on its own: [ev] evaluates
    a comparator, [ops] and [cs] are walked together as [zip] pairs them. *)
Fixpoint compare_loop (rt : Runtime) (ev : expr -> outcome value) (cs : list expr)
    (ops : list cmpop) (left_ : value) {struct cs} : outcome value :=
  match ops, cs with
  | op :: ops', c :: cs' =>
      match SafeEval.OPS rt (CmpT op) with
      | None => Raise (ValueError UnsupportedCompare)
      | Some oper =>
          right_ <- ev c ;;
          t <- oper left_ right_ ;;
          if negb (truthy t) then Ret (VBool false)
          else compare_loop rt ev cs' ops' right_
      end
  | _, _ => Ret (VBool true)
  end.




(** The variables an expression of the condition grammar names. *)
Fixpoint names_of (e : expr) : list string :=
  match e with
  | Name id => [id]
  | BinOp lhs _ rhs => (names_of lhs ++ names_of rhs)%list
  | BoolOp _ values => flat_map names_of values
  | Compare lhs _ comparators => (names_of lhs ++ flat_map names_of comparators)%list
  | _ => []
  end.

(** [always_unsafe e]: a node outside the grammar stands where [_eval]
    arrives whatever the variables hold (compare
    [SafeEval.reaches_unsafe], which also counts unknown variables). *)
Fixpoint always_unsafe (e : expr) : bool :=
  match e with
  | Constant _ | Name _ => false
  | BinOp lhs _ rhs => always_unsafe lhs || always_unsafe rhs
  | BoolOp _ values => existsb always_unsafe values
  | Compare lhs ops comparators =>
      always_unsafe lhs ||
      match ops, comparators with
      | _ :: _, c :: _ => always_unsafe c
      | _, _ => false
      end
  | _ => true
  end.

(** The parser of [rt] gives the conditions of [table] the trees that
    [table] records. *)
Definition parses (rt : Runtime) (table : dict expr) : Prop :=
  forall cond tree, dict_get cond table = Some tree -> ast_parse rt cond = Some tree.

(** A State that no snapshot can match under [safe_eval]: it has no
    condition, its condition is blank, or the tree of its condition has
    a node outside the grammar in a position that is always evaluated. *)
Definition never_matches (table : dict expr) (st : StateRule) : bool :=
  match condition st with
  | Some c =>
      is_empty c || is_empty (strip c) ||
      match dict_get (strip c) table with
      | Some tree => always_unsafe tree
      | None => false
      end
  | None => true
  end.

(** A list in non-increasing order of [key]. *)
Definition sorted_desc {A : Type} (key : A -> Q) (l : list A) : Prop :=
  StronglySorted (fun x y => key y <= key x) l.

(* ================================================================== *)
(** ** scoring/sentiment_scoring.py *)
(* ================================================================== *)

Module Sentiment.

Definition SENTIMENT_MODULE_WEIGHT : Q := 80 # 100.

Record Rulebook : Type := {
  timeframes : dict TimeframeRule    (* rulebook["timeframes"] *)
}.

Record Engine : Type := { rulebook : Rulebook; weight : Q }.

(** [__init__(rulebook)] *)
Definition init (rb : Rulebook) : Engine :=
  {| rulebook := rb; weight := SENTIMENT_MODULE_WEIGHT |}.

Record StateDetail : Type := {
  state_name : string;
  detail_timeframe : string;
  detail_condition : string;
  detail_score_range : Q * Q;
  raw_score : Q
}.

Record Result : Type := {
  minor_score : Q;
  major_score : Q;
  final_sentiment_score : Q;
  matched_states : list string;
  state_details : list StateDetail
}.

(** [_combine_minor_major(minor, major)] *)
Definition _combine_minor_major (minor major : Q) : Q :=
  let has_minor := Qltb (1 # 1000000) (Qabs minor) in
  let has_major := Qltb (1 # 1000000) (Qabs major) in
  if has_minor && has_major then (6 # 10) * minor + (4 # 10) * major
  else if has_major then major
  else if has_minor then minor
  else 0.

(** The raw score of a State: the midpoint of its score range. *)
Definition state_midpoint (item : string * StateRule) : Q :=
  midpoint (get_default (score_range (snd item)) (0, 0)).

(** The evaluation environment: the snapshot, then the helper names. *)
Definition eval_env (snapshot : Snapshot) : dict value :=
  dict_update
    (fold_left (fun acc kv => dict_set (fst kv) (snd kv) acc) snapshot [])
    [("abs", VObject AbsFunction); ("True", VBool true);
     ("False", VBool false); ("None", VNone)].

Section WithRuntime.

Variable rt : Runtime.

(** [_safe_eval(condition, variables)] *)
Definition _safe_eval (cond : string) (variables : dict value) : bool :=
  if is_empty cond || is_empty (strip cond) then false
  else try_except (SafeEval.safe_eval rt cond variables) false.

Record Acc : Type := {
  acc_states : list string;
  acc_scores : list Q;
  acc_details : list StateDetail
}.

(** One iteration of the loop over [states_def.items()]. *)
Definition state_step (timeframe : string) (env : dict value) (acc : Acc)
    (item : string * StateRule) : Acc :=
  let '(name, state_data) := item in
  let cond := get_default (condition state_data) "" in
  let range := get_default (score_range state_data) (0, 0) in
  if is_empty cond then acc
  else if _safe_eval cond env then
    let raw := midpoint range in
    {| acc_states := (acc_states acc ++ [name])%list;
       acc_scores := (acc_scores acc ++ [raw])%list;
       acc_details :=
         (acc_details acc ++
          [{| state_name := name; detail_timeframe := timeframe;
              detail_condition := cond; detail_score_range := range;
              raw_score := raw |}])%list |}
  else acc.

(** [_score_timeframe(timeframe, snapshot)] *)
Definition _score_timeframe (e : Engine) (timeframe : string) (snapshot : Snapshot)
  : outcome (Q * list string * list StateDetail) :=
  match dict_get timeframe (timeframes (rulebook e)) with
  | None => Ret (0, [], [])
  | Some tf =>
      let states_def := states tf in
      let env := eval_env snapshot in
      let acc :=
        fold_left (state_step timeframe env) states_def
          {| acc_states := []; acc_scores := []; acc_details := [] |} in
      match acc_scores acc with
      | [] => Ret (0, [], [])
      | _ :: _ =>
          avg_score <- py_div (Qsum (acc_scores acc))
                         (inject_Z (Z.of_nat (length (acc_scores acc)))) ;;
          Ret (avg_score, acc_states acc, acc_details acc)
      end
  end.

(** [score(sentiment_snapshot)] *)
Definition score (e : Engine) (sentiment_snapshot : Snapshot) : outcome Result :=
  minor <- _score_timeframe e "MINOR" sentiment_snapshot ;;
  major <- _score_timeframe e "MAJOR" sentiment_snapshot ;;
  let '(minor_score, minor_matched_states, minor_state_details) := minor in
  let '(major_score, major_matched_states, major_state_details) := major in
  let combined_score := _combine_minor_major minor_score major_score in
  let final := combined_score * weight e in
  Ret {| minor_score := minor_score;
         major_score := major_score;
         final_sentiment_score := final;
         matched_states := (minor_matched_states ++ major_matched_states)%list;
         state_details := (minor_state_details ++ major_state_details)%list |}.

(** The States of a timeframe whose condition is non-empty and
    evaluates to true, in rulebook order. *)
Definition matching (env : dict value) (states_def : dict StateRule)
  : dict StateRule :=
  filter (fun item : string * StateRule =>
            let cond := get_default (condition (snd item)) "" in
            negb (is_empty cond) && _safe_eval cond env) states_def.

(** The States of [timeframe] that match the snapshot. *)
Definition matching_in (e : Engine) (snapshot : Snapshot) (timeframe : string)
  : dict StateRule :=
  match dict_get timeframe (timeframes (rulebook e)) with
  | Some tf => matching (eval_env snapshot) (states tf)
  | None => []
  end.

End WithRuntime.

(** Every score range of the rulebook lies inside [[lo, hi]] (a State
    without a range is read as [[0, 0]]). *)
Definition ranges_in_scale (lo hi : Q) (rb : Rulebook) : Prop :=
  forall tf_name tf name st,
    List.In (tf_name, tf) (timeframes rb) ->
    List.In (name, st) (states tf) ->
    Fundamentals.range_in_scale lo hi (get_default (score_range st) (0, 0)).

(** The same for the States that [table] does not rule out, as a test. *)
Definition live_ranges_in_scale (table : dict expr) (lo hi : Q) (rb : Rulebook) : bool :=
  forallb
    (fun tf : string * TimeframeRule =>
       forallb
         (fun item : string * StateRule =>
            never_matches table (snd item) ||
            let r := get_default (score_range (snd item)) (0, 0) in
            Qle_bool lo (fst r) && Qle_bool (fst r) hi
            && Qle_bool lo (snd r) && Qle_bool (snd r) hi)
         (states (snd tf)))
    (timeframes rb).

(** The names of the States that [table] does not rule out. *)
Definition live_states (table : dict expr) (rb : Rulebook) : list string :=
  flat_map
    (fun tf : string * TimeframeRule =>
       map fst (filter (fun item : string * StateRule =>
                          negb (never_matches table (snd item))) (states (snd tf))))
    (timeframes rb).

End Sentiment.

(* ================================================================== *)
(** ** scoring/position_risk_scoring.py *)
(* ================================================================== *)

Module PositionRisk.

Record Rulebook : Type := {
  metrics : dict MetricRule;        (* rulebook.get("metrics", {}) *)
  groups : dict GroupInfo           (* rulebook.get("meta", {}).get("groups", {}) *)
}.

Record Engine : Type := { rulebook : Rulebook; weight : Q }.

(** [__init__(rulebook)] *)
Definition init (rb : Rulebook) : Engine := {| rulebook := rb; weight := 70 # 100 |}.

Record Result : Type := {
  minor_score : Q;
  major_score : Q;
  final_position_risk_score : Q;
  metric_scores : dict Q;
  matched_states : list string
}.

(** [_combine_minor_major(minor, major)] *)
Definition _combine_minor_major (minor major : Q) : Q :=
  let has_minor := Qltb (1 # 1000000) (Qabs minor) in
  let has_major := Qltb (1 # 1000000) (Qabs major) in
  if has_minor && has_major then minor * (6 # 10) + major * (4 # 10)
  else if has_minor then minor
  else if has_major then major
  else 0.

(** The keys that [_build_snapshot_env] gives a default, in the order
    of the [setdefault] calls. *)
Definition defaults : dict value :=
  [("is_open", VBool false);
   ("direction", VNone);
   ("symbol_risk_pct_of_equity", VFloat 0);
   ("open_pnl_abs", VFloat 0);
   ("open_pnl_pct", VFloat 0);
   ("max_favorable_excursion_pct", VFloat 0);
   ("max_adverse_excursion_pct", VFloat 0)].

Section WithFloat.

(** [float(s)] on a string is a service of the interpreter: the number
    the text denotes, or the exception raised. *)
Variable str_to_float : string -> outcome Q.

(** [float(v)] *)
Definition py_float (v : value) : outcome Q :=
  match v with
  | VBool b => Ret (if b then 1 else 0)
  | VInt n => Ret (inject_Z n)
  | VFloat x => Ret x
  | VStr s => str_to_float s
  | VNone | VObject _ => Raise TypeError
  end.

(** [float(d.get(key, default) or default)] *)
Definition float_field (d : Snapshot) (key : string) (default : Q) : outcome Q :=
  let v := get_default (dict_get key d) (VFloat default) in
  py_float (if truthy v then v else VFloat default).

(** [_build_snapshot_env(account_state, position_state)] *)
Definition _build_snapshot_env (account_state position_state : Snapshot)
  : outcome Snapshot :=
  equity <- float_field account_state "equity" 0 ;;
  realized <- float_field account_state "realized_pnl_today" 0 ;;
  unrealized <- float_field account_state "unrealized_pnl_today" 0 ;;
  open_val <- float_field account_state "open_positions_value" 0 ;;
  tradable_equity_pct <- float_field account_state "tradable_equity_pct" 1 ;;
  let daily_pl_abs := realized + unrealized in
  daily_pl_pct <-
    (if negb (Qeq_bool equity 0) then py_div daily_pl_abs equity else Ret 0) ;;
  let denom_capital :=
    if negb (Qeq_bool equity 0) then equity * tradable_equity_pct else 0 in
  capital_usage_pct <-
    (if negb (Qeq_bool denom_capital 0) then py_div open_val denom_capital
     else Ret 0) ;;
  let snapshot := dict_update (dict_update [] account_state) position_state in
  let snapshot := dict_set "daily_pl_abs" (VFloat daily_pl_abs) snapshot in
  let snapshot := dict_set "daily_pl_pct" (VFloat daily_pl_pct) snapshot in
  let snapshot := dict_set "capital_usage_pct" (VFloat capital_usage_pct) snapshot in
  let snapshot :=
    fold_left (fun s kv => dict_setdefault (fst kv) (snd kv) s) defaults snapshot in
  Ret snapshot.

Section WithRuntime.

Variable rt : Runtime.

(** [_match_condition(snapshot, condition_expr)] *)
Definition _match_condition (snapshot : Snapshot) (condition_expr : string) : bool :=
  let local_env := snapshot in
  try_except (SafeEval.safe_eval rt condition_expr local_env) false.

(** One iteration of the loop over [states_def.items()]. *)
Definition state_step (metric_name : string) (snapshot : Snapshot)
    (acc : list Q * list string) (item : string * StateRule) : list Q * list string :=
  let '(state_name, state_rule) := item in
  let range := get_default (score_range state_rule) (- (1), 1) in
  match condition state_rule with
  | None => acc
  | Some condition_expr =>
      if is_empty condition_expr then acc
      else if _match_condition snapshot condition_expr then
        ((fst acc ++ [midpoint range])%list,
         (snd acc ++ [(metric_name ++ "." ++ state_name)%string])%list)
      else acc
  end.

(** [_score_metric_states(metric_name, states_def, snapshot)] *)
Definition _score_metric_states (metric_name : string) (states_def : dict StateRule)
    (snapshot : Snapshot) : outcome (option Q * list string) :=
  let '(matched_scores, matched) :=
    fold_left (state_step metric_name snapshot) states_def ([], []) in
  match matched_scores with
  | [] => Ret (None, matched)
  | _ :: _ =>
      metric_score <- py_div (Qsum matched_scores)
                        (inject_Z (Z.of_nat (length matched_scores))) ;;
      Ret (Some metric_score, matched)
  end.

Record Acc : Type := {
  weighted_sum : Q;
  total_weight : Q;
  acc_scores : dict Q;
  acc_states : list string
}.

(** [w = metric_weight * group_base_weight], with both defaults 1.0. *)
Definition effective_weight (groups_def : dict GroupInfo) (metric_rule : MetricRule) : Q :=
  let metric_weight := get_default (metric_weight metric_rule) 1 in
  let group_base_weight :=
    match metric_group metric_rule with
    | Some g =>
        match dict_get g groups_def with
        | Some gi => get_default (base_weight gi) 1
        | None => 1
        end
    | None => 1
    end in
  metric_weight * group_base_weight.

(** One iteration of the loop over [metrics_def.items()]. *)
Definition metric_step (groups_def : dict GroupInfo) (timeframe : string)
    (snapshot : Snapshot)
    (acc : Acc) (item : string * MetricRule) : outcome Acc :=
  let '(metric_name, metric_rule) := item in
  match dict_get timeframe (timeframes metric_rule) with
  | None => Ret acc
  | Some tf =>
      r <- _score_metric_states metric_name (states tf) snapshot ;;
      match r with
      | (None, _) => Ret acc
      | (Some metric_score, metric_state_names) =>
          let w := effective_weight groups_def metric_rule in
          Ret {| weighted_sum := weighted_sum acc + metric_score * w;
                 total_weight := total_weight acc + w;
                 acc_scores := dict_set metric_name metric_score (acc_scores acc);
                 acc_states := (acc_states acc ++ metric_state_names)%list |}
      end
  end.

(** [_score_timeframe(timeframe, snapshot)] *)
Definition _score_timeframe (e : Engine) (timeframe : string) (snapshot : Snapshot)
  : outcome (Q * dict Q * list string) :=
  let metrics_def := metrics (rulebook e) in
  let groups_def := groups (rulebook e) in
  acc <- for_each (metric_step groups_def timeframe snapshot) metrics_def
           {| weighted_sum := 0; total_weight := 0; acc_scores := []; acc_states := [] |} ;;
  if Qeq_bool (total_weight acc) 0 then Ret (0, acc_scores acc, acc_states acc)
  else
    final_timeframe_score <- py_div (weighted_sum acc) (total_weight acc) ;;
    Ret (final_timeframe_score, acc_scores acc, acc_states acc).

(** [score(account_state, position_state)] *)
Definition score (e : Engine) (account_state : Snapshot)
    (position_state : option Snapshot) : outcome Result :=
  let position_state := get_default position_state [] in
  snapshot <- _build_snapshot_env account_state position_state ;;
  minor <- _score_timeframe e "MINOR" snapshot ;;
  major <- _score_timeframe e "MAJOR" snapshot ;;
  let '(minor_score, minor_metric_scores, minor_states) := minor in
  let '(major_score, major_metric_scores, major_states) := major in
  let combined := _combine_minor_major minor_score major_score in
  let final_weighted := combined * weight e in
  Ret {| minor_score := minor_score;
         major_score := major_score;
         final_position_risk_score := final_weighted;
         metric_scores := dict_update minor_metric_scores major_metric_scores;
         matched_states := (minor_states ++ major_states)%list |}.

(** A State counts when its condition is present, non-empty and matches. *)
Definition state_matches (snapshot : Snapshot) (st : StateRule) : bool :=
  match condition st with
  | Some c => negb (is_empty c) && _match_condition snapshot c
  | None => false
  end.

(** The midpoints of the matching States, in rulebook order. *)
Definition matched_midpoints (states_def : dict StateRule) (snapshot : Snapshot)
  : list Q :=
  map (fun item => midpoint (get_default (score_range (snd item)) (- (1), 1)))
    (filter (fun item => state_matches snapshot (snd item)) states_def).

(** The Metric's score: the arithmetic mean of the matched midpoints,
    no score when no State matches. *)
Definition spec_metric_score (states_def : dict StateRule) (snapshot : Snapshot)
  : option Q :=
  match matched_midpoints states_def snapshot with
  | [] => None
  | l => Some (Qsum l / inject_Z (Z.of_nat (length l)))
  end.

(** The Metrics that produced a score in a timeframe, each with its
    score and its weight [metric_weight * group_base_weight]. *)
Definition contributions (groups_def : dict GroupInfo) (timeframe : string)
    (snapshot : Snapshot) (ms : dict MetricRule) : list (Q * Q) :=
  flat_map
    (fun item : string * MetricRule =>
       match dict_get timeframe (timeframes (snd item)) with
       | None => []
       | Some tf =>
           match spec_metric_score (states tf) snapshot with
           | None => []
           | Some sc => [(sc, effective_weight groups_def (snd item))]
           end
       end) ms.

(** The names [metric.state] of the matching States of a Metric, in
    rulebook order. *)
Definition matched_names (metric_name : string) (states_def : dict StateRule)
    (snapshot : Snapshot) : list string :=
  map (fun item => (metric_name ++ "." ++ fst item)%string)
    (filter (fun item => state_matches snapshot (snd item)) states_def).

(** The matching States of a timeframe, Metric by Metric. *)
Definition timeframe_names (timeframe : string) (snapshot : Snapshot)
    (ms : dict MetricRule) : list string :=
  flat_map
    (fun item : string * MetricRule =>
       match dict_get timeframe (timeframes (snd item)) with
       | None => []
       | Some tf => matched_names (fst item) (states tf) snapshot
       end) ms.

End WithRuntime.

End WithFloat.

(** Every score range the engine can read lies inside the scale (a
    State without a range is read as [[-1, 1]]). *)
Definition ranges_in_scale (lo hi : Q) (rb : Rulebook) : Prop :=
  forall metric_name m tf_name tf state_name st,
    List.In (metric_name, m) (metrics rb) ->
    List.In (tf_name, tf) (timeframes m) ->
    List.In (state_name, st) (states tf) ->
    Fundamentals.range_in_scale lo hi (get_default (score_range st) (- (1), 1)).

(** Every Metric has a positive weight [metric_weight * group_base_weight]. *)
Definition positive_weights (rb : Rulebook) : Prop :=
  forall metric_name m,
    List.In (metric_name, m) (metrics rb) -> 0 < effective_weight (groups rb) m.

(** The names [metric.state] of the States of a timeframe that [table]
    does not rule out. *)
Definition live_names (table : dict expr) (timeframe : string) (ms : dict MetricRule)
  : list string :=
  flat_map
    (fun item : string * MetricRule =>
       match dict_get timeframe (timeframes (snd item)) with
       | None => []
       | Some tf =>
           map (fun s : string * StateRule => (fst item ++ "." ++ fst s)%string)
             (filter (fun s : string * StateRule => negb (never_matches table (snd s)))
                (states tf))
       end) ms.

End PositionRisk.

(* ================================================================== *)
(** ** scoring/master_scoring.py: ranking, and the results it is fed *)
(* ================================================================== *)

Module MasterRanking.

(** [rank_symbols(symbol_results, min_abs_score)]: the loop that
    filters, then [filtered.sort(key=..., reverse=True)]. *)
Definition rank_symbols (symbol_results : dict MasterScoring.MasterScoreResult)
    (min_abs_score : Q) : list (string * MasterScoring.MasterScoreResult) :=
  let filtered :=
    fold_left
      (fun filtered (item : string * MasterScoring.MasterScoreResult) =>
         if Qle_bool min_abs_score (MasterScoring.abs_strength (snd item))
         then (filtered ++ [item])%list else filtered)
      symbol_results [] in
  ScoringSystem.sort_desc (fun x => MasterScoring.abs_strength (snd x)) filtered.

(** [score_symbol_master(symbol, module_results, config)], for the
    configuration that [__init__] arrives at. *)
Definition score_symbol_master (sym : string) (module_results : dict (dict value))
    (config : MasterScoring.Config) : outcome MasterScoring.MasterScoreResult :=
  MasterScoring.score_symbol config sym module_results.

(** The keys of the dictionaries that the engines' [score] methods
    return, in the order of their [return] statements. *)
Definition options_flow_result_keys : list string :=
  ["minor_score"; "final_options_flow_score"; "matched_states"; "state_details"].

Definition price_action_result_keys : list string :=
  ["minor_score"; "major_score"; "final_price_action_score"; "matched_states"].

Definition position_risk_result_keys : list string :=
  ["minor_score"; "major_score"; "final_position_risk_score"; "metric_scores";
   "matched_states"].

(** What [result_dict.get(score_key)] is for a module, [None] also when
    [module_results] has no entry for it. *)
Definition score_value (module_results : dict (dict value)) (module_name : string)
  : option value :=
  match dict_get module_name module_results,
        dict_get module_name MasterScoring.module_score_keys with
  | Some result_dict, Some score_key => dict_get score_key result_dict
  | _, _ => None
  end.

(** A module takes part in the score when the loop body reaches its end. *)
Definition takes_part (config : MasterScoring.Config) (module_results : dict (dict value))
    (module_name : string) : bool :=
  match MasterScoring.module_contribution config module_results module_name with
  | Ret (Some _) => true
  | _ => false
  end.

End MasterRanking.

(* ================================================================== *)
(** ** rulebooks/news_rulebook.py *)
(* ================================================================== *)

Module NewsRulebook.

Section WithRules.

(** The rule of a news type, whatever its shape. *)
Variable Rule : Type.

(** [MARKET_MACRO_RULEBOOK.get("news_types", {})],
    [SECTOR_MACRO_RULEBOOK.get("sectors", {})],
    [NEWS_MICRO_GLOBAL_RULEBOOK.get("news_types", {})] and
    [NEWS_MICRO_RULEBOOK.get("types", {})]. *)
Variables market_macro sector_macro micro_global micro_company : dict Rule.

(** The module-level [_flat_map], after its four [update] calls. *)
Definition _flat_map : dict Rule :=
  dict_update
    (dict_update (dict_update (dict_update [] market_macro) sector_macro) micro_global)
    micro_company.

(** [get_news_type_rule(news_type)] *)
Definition get_news_type_rule (news_type : string) : option Rule :=
  dict_get news_type _flat_map.

End WithRules.

End NewsRulebook.

(* ================================================================== *)
(** ** rulebooks/scoring_system.py: the other components *)
(* ================================================================== *)

Module ScoringComponents.

Record NewsItem : Type := {
  item_symbol : option string;
  item_sector : option string;
  scope : string;
  news_type : string;
  surprise_level : option string;
  raw_text : string;
  timestamp : Q
}.

Record OptionsFlowSnapshot : Type := {
  of_symbol : string;
  put_call_ratio : option Q;
  call_volume_multiple : option Q;
  put_volume_multiple : option Q;
  unusual_activity : bool;
  uoa_direction : option string;
  iv_change_pct : option Q;
  skew_type : option string;
  gamma_regime : option string
}.

Record MicroCompanySnapshot : Type := {
  mc_symbol : string;
  last_earnings_surprise : option Q;
  guidance_delta : option Q;
  had_dilution : bool;
  had_buyback : bool;
  management_event : option string;
  legal_risk_level : option string;
  mna_role : option string
}.

(** [SymbolState] and [UniverseState] with the fields that the news,
    options-flow and micro-company components read. *)
Record SymbolInputs : Type := {
  state : ScoringSystem.SymbolState;
  news_items : list NewsItem;
  options_flow : option OptionsFlowSnapshot;
  micro_company : option MicroCompanySnapshot
}.

Record UniverseInputs : Type := {
  universe : ScoringSystem.UniverseState;
  global_news : list NewsItem
}.

(** *** NewsScoringComponent *)

(** An entry of a rule's [scoring] dictionary: a number, a list of
    numbers, or a dictionary (given by its keys), which is the shape
    the news rulebooks use ([{"score_range": [7, 8], "note": ...}]). *)
Inductive SurpriseCfg : Type :=
| CfgNumber (x : Q)
| CfgList (l : list Q)
| CfgDict (keys : list string).

(** A rule, by its [scoring] entry and its remaining keys ([scope],
    [description], [base_impact], ...). *)
Record NewsRule : Type := {
  scoring : option (dict SurpriseCfg);
  rule_other_keys : list string
}.

(** The rulebook handed to the component: the rules by news type, and
    the entry [SECTOR_SENSITIVITY]. *)
Record Rulebook : Type := {
  rules : dict NewsRule;
  SECTOR_SENSITIVITY : option (dict Q)
}.

(** [not rule] *)
Definition rule_is_empty (r : NewsRule) : bool :=
  match scoring r, rule_other_keys r with
  | None, [] => true
  | _, _ => false
  end.

(** [bool(surprise_cfg)] *)
Definition cfg_truthy (c : SurpriseCfg) : bool :=
  match c with
  | CfgNumber x => negb (Qeq_bool x 0)
  | CfgList l => negb (length l =? 0)%nat
  | CfgDict keys => negb (length keys =? 0)%nat
  end.

(** [_score_single_news_item(item, symbol_state)] *)
Definition _score_single_news_item (rulebook : Rulebook) (item : NewsItem)
    (symbol_state : SymbolInputs) : outcome (option Q) :=
  match dict_get (news_type item) (rules rulebook) with
  | None => Ret None
  | Some rule =>
      if rule_is_empty rule then Ret None
      else
        let scoring_config := get_default (scoring rule) [] in
        let surprise :=
          if str_truthy (surprise_level item)
          then get_default (surprise_level item) "INLINE" else "INLINE" in
        match dict_get surprise scoring_config with
        | None => Ret (Some 0)
        | Some surprise_cfg =>
            if negb (cfg_truthy surprise_cfg) then Ret (Some 0)
            else
              value <-
                match surprise_cfg with
                | CfgList [low; high] => Ret ((low + high) / 2)
                | CfgNumber x => Ret x
                | CfgList _ | CfgDict _ => Raise TypeError
                end ;;
              let sector_sensitivity_map :=
                get_default (SECTOR_SENSITIVITY rulebook) [] in
              let sector_mult :=
                match ScoringSystem.sector (state symbol_state) with
                | Some s =>
                    if negb (is_empty s)
                    then get_default (dict_get s sector_sensitivity_map) 1
                    else 1
                | None => 1
                end in
              Ret (Some (value * sector_mult))
        end
  end.

Record Contribution : Type := {
  contribution_scope : string;
  contribution_type : string;
  contribution_score : Q
}.

Record NewsAcc : Type := {
  total_score : Q;
  count : nat;
  contributions : list Contribution
}.

(** The body of both loops of [NewsScoringComponent._compute_raw_score]. *)
Definition news_step (rulebook : Rulebook) (symbol_state : SymbolInputs)
    (acc : NewsAcc) (item : NewsItem) : outcome NewsAcc :=
  score <- _score_single_news_item rulebook item symbol_state ;;
  match score with
  | Some s =>
      Ret {| total_score := total_score acc + s;
             count := S (count acc);
             contributions :=
               (contributions acc ++
                [{| contribution_scope := scope item;
                    contribution_type := news_type item;
                    contribution_score := s |}])%list |}
  | None => Ret acc
  end.

(** The [details] dictionaries of the components of this module. *)
Inductive Details : Type :=
| Reason (reason : string)
| NewsDetails (avg_news_score : Q) (items_contributed : list Contribution)
| PartsDetails (components : list (string * Q)) (score : Q).

(** [NewsScoringComponent._compute_raw_score] *)
Definition news_compute_raw_score (rulebook : Rulebook) (symbol_state : SymbolInputs)
    (universe_state : UniverseInputs) : outcome (Q * Details) :=
  let base_no_news_bias := 0 in
  acc <- for_each (news_step rulebook symbol_state) (global_news universe_state)
           {| total_score := 0; count := O; contributions := [] |} ;;
  acc <- for_each (news_step rulebook symbol_state) (news_items symbol_state) acc ;;
  let '(total, n) :=
    if (count acc =? 0)%nat then (base_no_news_bias, 1%nat)
    else (total_score acc, count acc) in
  avg_score <- py_div total (inject_Z (Z.of_nat n)) ;;
  let avg_score := py_max (- (10)) (py_min 10 avg_score) in
  Ret (avg_score, NewsDetails avg_score (contributions acc)).

(** The items that receive a score, with their scores, in order. *)
Fixpoint scored_items (rulebook : Rulebook) (symbol_state : SymbolInputs)
    (items : list NewsItem) : list Q :=
  match items with
  | [] => []
  | item :: items' =>
      match _score_single_news_item rulebook item symbol_state with
      | Ret (Some s) => s :: scored_items rulebook symbol_state items'
      | _ => scored_items rulebook symbol_state items'
      end
  end.

(** *** OptionsFlowScoringComponent and MicroCompanyScoringComponent *)

(** [score += s] together with [parts.append((label, s))]. *)
Definition add_part (acc : Q * list (string * Q)) (label : string) (s : Q)
  : Q * list (string * Q) :=
  (fst acc + s, (snd acc ++ [(label, s)])%list).

(** [OptionsFlowScoringComponent._compute_raw_score] *)
Definition options_compute_raw_score (symbol_state : SymbolInputs)
    (universe_state : UniverseInputs) : outcome (Q * Details) :=
  match options_flow symbol_state with
  | None => Ret (0, Reason "no_options_flow_data")
  | Some of_ =>
      let acc : Q * list (string * Q) := (0, []) in
      (* put/call ratio *)
      let acc :=
        match put_call_ratio of_ with
        | Some r =>
            if Qltb r (6 # 10) then add_part acc "put_call_ratio_bullish" 4
            else if Qltb 2 r then add_part acc "put_call_ratio_bearish" (- (4))
            else acc
        | None => acc
        end in
      (* unusual activity *)
      let acc :=
        if unusual_activity of_ && str_truthy (uoa_direction of_) then
          let direction := upper (get_default (uoa_direction of_) "") in
          if String.eqb direction "CALL" then add_part acc "uoa_call" 5
          else if String.eqb direction "PUT" then add_part acc "uoa_put" (- (5))
          else acc
        else acc in
      (* IV movement *)
      let acc :=
        match iv_change_pct of_ with
        | Some iv =>
            if Qltb 20 iv then add_part acc "iv_spike" (- (3))
            else if Qltb iv (- (15)) then add_part acc "iv_crush" 2
            else acc
        | None => acc
        end in
      (* gamma regime *)
      let acc :=
        if opt_eqb (gamma_regime of_) "POSITIVE"
        then add_part acc "gamma_positive" (15 # 10)
        else if opt_eqb (gamma_regime of_) "NEGATIVE"
        then add_part acc "gamma_negative" (- (2))
        else acc in
      let score := py_max (- (10)) (py_min 10 (fst acc)) in
      Ret (score, PartsDetails (snd acc) score)
  end.

(** [MicroCompanyScoringComponent._compute_raw_score] *)
Definition micro_compute_raw_score (symbol_state : SymbolInputs)
    (universe_state : UniverseInputs) : outcome (Q * Details) :=
  match micro_company symbol_state with
  | None => Ret (0, Reason "no_micro_company_data")
  | Some mc =>
      let acc : Q * list (string * Q) := (0, []) in
      (* earnings surprise *)
      let acc :=
        match last_earnings_surprise mc with
        | Some x =>
            let s :=
              if Qltb 5 x then 5
              else if Qltb 0 x then 2
              else if Qltb x (- (5)) then - (6)
              else - (2) in
            add_part acc "earnings_surprise" s
        | None => acc
        end in
      (* guidance *)
      let acc :=
        match guidance_delta mc with
        | Some g =>
            let s :=
              if Qltb 0 g then 3
              else if Qltb g 0 then - (4)
              else 0 in
            add_part acc "guidance" s
        | None => acc
        end in
      (* dilution *)
      let acc := if had_dilution mc then add_part acc "dilution" (- (7)) else acc in
      (* buyback *)
      let acc := if had_buyback mc then add_part acc "buyback" 4 else acc in
      (* management *)
      let acc :=
        if opt_eqb (management_event mc) "CEO_RESIGN"
        then add_part acc "management_ceo_resign" (- (5))
        else if opt_eqb (management_event mc) "NEW_RESPECTED_CEO"
        then add_part acc "management_new_ceo" 5
        else acc in
      (* legal/regulatory *)
      let acc :=
        if opt_eqb (legal_risk_level mc) "HIGH"
        then add_part acc "legal_high" (- (8))
        else if opt_eqb (legal_risk_level mc) "MEDIUM"
        then add_part acc "legal_medium" (- (4))
        else acc in
      (* M&A *)
      let acc :=
        if opt_eqb (mna_role mc) "TARGET"
        then add_part acc "mna_target" 7
        else if opt_eqb (mna_role mc) "ACQUIRER_BAD_DEAL"
        then add_part acc "mna_acquirer_bad" (- (4))
        else acc in
      let score := py_max (- (10)) (py_min 10 (fst acc)) in
      Ret (score, PartsDetails (snd acc) score)
  end.


(** [RegimeConsistencyComponent._compute_raw_score] *)
Definition regime_compute_raw_score (symbol_state : SymbolInputs)
    (universe_state : UniverseInputs) : outcome (Q * Details) :=
  Ret (0, Reason "computed_at_master_level").

End ScoringComponents.

(* ================================================================== *)
(** ** rulebooks/sentiment_rulebook.py *)
(* ================================================================== *)

Module SentimentRulebook.

(** A State with the keys the engine reads: [condition] and
    [score_range]. *)
Definition state (cond : string) (low high : Q) : StateRule :=
  {| condition := Some cond; score_range := Some (low, high); group := None |}.

(** [SENTIMENT_RULEBOOK["timeframes"]["MINOR"]["states"]] *)
Definition MINOR_states : dict StateRule :=
  [("INTRADAY_EXTREME_BULLISH",
    state "stock_sentiment is not None and news_sentiment is not None and stock_sentiment >= 0.7 and news_sentiment >= 0.4 and volume_of_mentions is not None and volume_of_mentions >= 2.0 and is_trending is True"
      7 9);
   ("INTRADAY_BULLISH_STRONG_SOCIAL",
    state "social_sentiment is not None and twitter_sentiment is not None and reddit_sentiment is not None and social_sentiment >= 0.6 and twitter_sentiment >= 0.6 and reddit_sentiment >= 0.5 and volume_of_mentions is not None and volume_of_mentions >= 1.5"
      6 8);
   ("INTRADAY_MILD_BULLISH",
    state "stock_sentiment is not None and 0.3 <= stock_sentiment < 0.7 and volume_of_mentions is not None and volume_of_mentions >= 1.0"
      2 4);
   ("INTRADAY_NEUTRAL_LOW_ACTIVITY",
    state "stock_sentiment is not None and -0.2 <= stock_sentiment <= 0.2 and volume_of_mentions is not None and volume_of_mentions < 0.8"
      (- (1)) 1);
   ("INTRADAY_CONFLICTING_SENTIMENT",
    state "news_sentiment is not None and social_sentiment is not None and news_sentiment * social_sentiment < -0.2"
      (- (2)) 2);
   ("INTRADAY_EXTREME_BEARISH",
    state "stock_sentiment is not None and news_sentiment is not None and stock_sentiment <= -0.7 and news_sentiment <= -0.4 and volume_of_mentions is not None and volume_of_mentions >= 2.0 and is_trending is True"
      (- (9)) (- (7)));
   ("INTRADAY_BEARISH_STRONG_SOCIAL",
    state "social_sentiment is not None and twitter_sentiment is not None and reddit_sentiment is not None and social_sentiment <= -0.6 and twitter_sentiment <= -0.6 and reddit_sentiment <= -0.5 and volume_of_mentions is not None and volume_of_mentions >= 1.5"
      (- (8)) (- (6)));
   ("INTRADAY_MILD_BEARISH",
    state "stock_sentiment is not None and -0.7 < stock_sentiment <= -0.3 and volume_of_mentions is not None and volume_of_mentions >= 1.0"
      (- (4)) (- (2)));
   ("INTRADAY_LOW_CONFIDENCE_NOISE",
    state "stock_sentiment is not None and -0.2 <= stock_sentiment <= 0.2 and volume_of_mentions is not None and volume_of_mentions >= 1.2 and is_trending is False"
      (- (2)) 2)].

(** [SENTIMENT_RULEBOOK["timeframes"]["MAJOR"]["states"]] *)
Definition MAJOR_states : dict StateRule :=
  [("DAILY_PERSISTENT_BULLISH",
    state "market_sentiment is not None and stock_sentiment is not None and market_sentiment >= 0.5 and stock_sentiment >= 0.5"
      6 9);
   ("DAILY_STOCK_OUTPERFORMER_SENTIMENT",
    state "market_sentiment is not None and stock_sentiment is not None and market_sentiment >= -0.1 and stock_sentiment >= 0.6 and stock_sentiment - market_sentiment >= 0.3"
      3 5);
   ("DAILY_SENTIMENT_NEUTRAL",
    state "market_sentiment is not None and stock_sentiment is not None and -0.25 <= stock_sentiment <= 0.25 and -0.25 <= market_sentiment <= 0.25"
      (- (1)) 1);
   ("DAILY_PERSISTENT_BEARISH",
    state "market_sentiment is not None and stock_sentiment is not None and market_sentiment <= -0.5 and stock_sentiment <= -0.5"
      (- (9)) (- (6)));
   ("DAILY_STOCK_UNDERPERFORMER_SENTIMENT",
    state "market_sentiment is not None and stock_sentiment is not None and market_sentiment >= -0.1 and stock_sentiment <= -0.6 and market_sentiment - stock_sentiment >= 0.3"
      (- (5)) (- (3)));
   ("DAILY_RISK_ON_ENVIRONMENT",
    state "market_sentiment is not None and market_sentiment >= 0.4"
      2 4);
   ("DAILY_RISK_OFF_ENVIRONMENT",
    state "market_sentiment is not None and market_sentiment <= -0.4"
      (- (4)) (- (2)))].

Definition SENTIMENT_RULEBOOK : Sentiment.Rulebook :=
  {| Sentiment.timeframes :=
       [("MINOR", {| states := MINOR_states |});
        ("MAJOR", {| states := MAJOR_states |})] |}.

(** What [ast.parse(s, mode='eval').body] is for the conditions of the
    rulebook: a negative literal is the node [UnaryOp USub] over the
    literal. *)
Definition parse_table : dict expr :=
  [("stock_sentiment is not None and news_sentiment is not None and stock_sentiment >= 0.7 and news_sentiment >= 0.4 and volume_of_mentions is not None and volume_of_mentions >= 2.0 and is_trending is True",
    BoolOp And
      [Compare (Name "stock_sentiment") [IsNot] [Constant VNone];
       Compare (Name "news_sentiment") [IsNot] [Constant VNone];
       Compare (Name "stock_sentiment") [GtE] [Constant (VFloat (7 # 10))];
       Compare (Name "news_sentiment") [GtE] [Constant (VFloat (2 # 5))];
       Compare (Name "volume_of_mentions") [IsNot] [Constant VNone];
       Compare (Name "volume_of_mentions") [GtE] [Constant (VFloat 2)];
       Compare (Name "is_trending") [Is] [Constant (VBool true)]]);
   ("social_sentiment is not None and twitter_sentiment is not None and reddit_sentiment is not None and social_sentiment >= 0.6 and twitter_sentiment >= 0.6 and reddit_sentiment >= 0.5 and volume_of_mentions is not None and volume_of_mentions >= 1.5",
    BoolOp And
      [Compare (Name "social_sentiment") [IsNot] [Constant VNone];
       Compare (Name "twitter_sentiment") [IsNot] [Constant VNone];
       Compare (Name "reddit_sentiment") [IsNot] [Constant VNone];
       Compare (Name "social_sentiment") [GtE] [Constant (VFloat (3 # 5))];
       Compare (Name "twitter_sentiment") [GtE] [Constant (VFloat (3 # 5))];
       Compare (Name "reddit_sentiment") [GtE] [Constant (VFloat (1 # 2))];
       Compare (Name "volume_of_mentions") [IsNot] [Constant VNone];
       Compare (Name "volume_of_mentions") [GtE] [Constant (VFloat (3 # 2))]]);
   ("stock_sentiment is not None and 0.3 <= stock_sentiment < 0.7 and volume_of_mentions is not None and volume_of_mentions >= 1.0",
    BoolOp And
      [Compare (Name "stock_sentiment") [IsNot] [Constant VNone];
       Compare (Constant (VFloat (3 # 10))) [LtE; Lt] [Name "stock_sentiment"; Constant (VFloat (7 # 10))];
       Compare (Name "volume_of_mentions") [IsNot] [Constant VNone];
       Compare (Name "volume_of_mentions") [GtE] [Constant (VFloat 1)]]);
   ("stock_sentiment is not None and -0.2 <= stock_sentiment <= 0.2 and volume_of_mentions is not None and volume_of_mentions < 0.8",
    BoolOp And
      [Compare (Name "stock_sentiment") [IsNot] [Constant VNone];
       Compare (UnaryOp USub (Constant (VFloat (1 # 5)))) [LtE; LtE] [Name "stock_sentiment"; Constant (VFloat (1 # 5))];
       Compare (Name "volume_of_mentions") [IsNot] [Constant VNone];
       Compare (Name "volume_of_mentions") [Lt] [Constant (VFloat (4 # 5))]]);
   ("news_sentiment is not None and social_sentiment is not None and news_sentiment * social_sentiment < -0.2",
    BoolOp And
      [Compare (Name "news_sentiment") [IsNot] [Constant VNone];
       Compare (Name "social_sentiment") [IsNot] [Constant VNone];
       Compare (BinOp (Name "news_sentiment") Mult (Name "social_sentiment")) [Lt] [UnaryOp USub (Constant (VFloat (1 # 5)))]]);
   ("stock_sentiment is not None and news_sentiment is not None and stock_sentiment <= -0.7 and news_sentiment <= -0.4 and volume_of_mentions is not None and volume_of_mentions >= 2.0 and is_trending is True",
    BoolOp And
      [Compare (Name "stock_sentiment") [IsNot] [Constant VNone];
       Compare (Name "news_sentiment") [IsNot] [Constant VNone];
       Compare (Name "stock_sentiment") [LtE] [UnaryOp USub (Constant (VFloat (7 # 10)))];
       Compare (Name "news_sentiment") [LtE] [UnaryOp USub (Constant (VFloat (2 # 5)))];
       Compare (Name "volume_of_mentions") [IsNot] [Constant VNone];
       Compare (Name "volume_of_mentions") [GtE] [Constant (VFloat 2)];
       Compare (Name "is_trending") [Is] [Constant (VBool true)]]);
   ("social_sentiment is not None and twitter_sentiment is not None and reddit_sentiment is not None and social_sentiment <= -0.6 and twitter_sentiment <= -0.6 and reddit_sentiment <= -0.5 and volume_of_mentions is not None and volume_of_mentions >= 1.5",
    BoolOp And
      [Compare (Name "social_sentiment") [IsNot] [Constant VNone];
       Compare (Name "twitter_sentiment") [IsNot] [Constant VNone];
       Compare (Name "reddit_sentiment") [IsNot] [Constant VNone];
       Compare (Name "social_sentiment") [LtE] [UnaryOp USub (Constant (VFloat (3 # 5)))];
       Compare (Name "twitter_sentiment") [LtE] [UnaryOp USub (Constant (VFloat (3 # 5)))];
       Compare (Name "reddit_sentiment") [LtE] [UnaryOp USub (Constant (VFloat (1 # 2)))];
       Compare (Name "volume_of_mentions") [IsNot] [Constant VNone];
       Compare (Name "volume_of_mentions") [GtE] [Constant (VFloat (3 # 2))]]);
   ("stock_sentiment is not None and -0.7 < stock_sentiment <= -0.3 and volume_of_mentions is not None and volume_of_mentions >= 1.0",
    BoolOp And
      [Compare (Name "stock_sentiment") [IsNot] [Constant VNone];
       Compare (UnaryOp USub (Constant (VFloat (7 # 10)))) [Lt; LtE] [Name "stock_sentiment"; UnaryOp USub (Constant (VFloat (3 # 10)))];
       Compare (Name "volume_of_mentions") [IsNot] [Constant VNone];
       Compare (Name "volume_of_mentions") [GtE] [Constant (VFloat 1)]]);
   ("stock_sentiment is not None and -0.2 <= stock_sentiment <= 0.2 and volume_of_mentions is not None and volume_of_mentions >= 1.2 and is_trending is False",
    BoolOp And
      [Compare (Name "stock_sentiment") [IsNot] [Constant VNone];
       Compare (UnaryOp USub (Constant (VFloat (1 # 5)))) [LtE; LtE] [Name "stock_sentiment"; Constant (VFloat (1 # 5))];
       Compare (Name "volume_of_mentions") [IsNot] [Constant VNone];
       Compare (Name "volume_of_mentions") [GtE] [Constant (VFloat (6 # 5))];
       Compare (Name "is_trending") [Is] [Constant (VBool false)]]);
   ("market_sentiment is not None and stock_sentiment is not None and market_sentiment >= 0.5 and stock_sentiment >= 0.5",
    BoolOp And
      [Compare (Name "market_sentiment") [IsNot] [Constant VNone];
       Compare (Name "stock_sentiment") [IsNot] [Constant VNone];
       Compare (Name "market_sentiment") [GtE] [Constant (VFloat (1 # 2))];
       Compare (Name "stock_sentiment") [GtE] [Constant (VFloat (1 # 2))]]);
   ("market_sentiment is not None and stock_sentiment is not None and market_sentiment >= -0.1 and stock_sentiment >= 0.6 and stock_sentiment - market_sentiment >= 0.3",
    BoolOp And
      [Compare (Name "market_sentiment") [IsNot] [Constant VNone];
       Compare (Name "stock_sentiment") [IsNot] [Constant VNone];
       Compare (Name "market_sentiment") [GtE] [UnaryOp USub (Constant (VFloat (1 # 10)))];
       Compare (Name "stock_sentiment") [GtE] [Constant (VFloat (3 # 5))];
       Compare (BinOp (Name "stock_sentiment") Sub (Name "market_sentiment")) [GtE] [Constant (VFloat (3 # 10))]]);
   ("market_sentiment is not None and stock_sentiment is not None and -0.25 <= stock_sentiment <= 0.25 and -0.25 <= market_sentiment <= 0.25",
    BoolOp And
      [Compare (Name "market_sentiment") [IsNot] [Constant VNone];
       Compare (Name "stock_sentiment") [IsNot] [Constant VNone];
       Compare (UnaryOp USub (Constant (VFloat (1 # 4)))) [LtE; LtE] [Name "stock_sentiment"; Constant (VFloat (1 # 4))];
       Compare (UnaryOp USub (Constant (VFloat (1 # 4)))) [LtE; LtE] [Name "market_sentiment"; Constant (VFloat (1 # 4))]]);
   ("market_sentiment is not None and stock_sentiment is not None and market_sentiment <= -0.5 and stock_sentiment <= -0.5",
    BoolOp And
      [Compare (Name "market_sentiment") [IsNot] [Constant VNone];
       Compare (Name "stock_sentiment") [IsNot] [Constant VNone];
       Compare (Name "market_sentiment") [LtE] [UnaryOp USub (Constant (VFloat (1 # 2)))];
       Compare (Name "stock_sentiment") [LtE] [UnaryOp USub (Constant (VFloat (1 # 2)))]]);
   ("market_sentiment is not None and stock_sentiment is not None and market_sentiment >= -0.1 and stock_sentiment <= -0.6 and market_sentiment - stock_sentiment >= 0.3",
    BoolOp And
      [Compare (Name "market_sentiment") [IsNot] [Constant VNone];
       Compare (Name "stock_sentiment") [IsNot] [Constant VNone];
       Compare (Name "market_sentiment") [GtE] [UnaryOp USub (Constant (VFloat (1 # 10)))];
       Compare (Name "stock_sentiment") [LtE] [UnaryOp USub (Constant (VFloat (3 # 5)))];
       Compare (BinOp (Name "market_sentiment") Sub (Name "stock_sentiment")) [GtE] [Constant (VFloat (3 # 10))]]);
   ("market_sentiment is not None and market_sentiment >= 0.4",
    BoolOp And
      [Compare (Name "market_sentiment") [IsNot] [Constant VNone];
       Compare (Name "market_sentiment") [GtE] [Constant (VFloat (2 # 5))]]);
   ("market_sentiment is not None and market_sentiment <= -0.4",
    BoolOp And
      [Compare (Name "market_sentiment") [IsNot] [Constant VNone];
       Compare (Name "market_sentiment") [LtE] [UnaryOp USub (Constant (VFloat (2 # 5)))]])].

(** A runtime whose parser covers the rulebook. *)
Definition rt : Runtime :=
  {| ast_parse := fun s => dict_get s parse_table;
     builtin_eval := fun _ _ => Raise SyntaxError;
     str_percent := fun _ _ => Raise TypeError;
     same_object := fun _ _ => false |}.

(** The names of the States whose condition holds no negative literal. *)
Definition reachable_states : list string :=
  ["INTRADAY_EXTREME_BULLISH"; "INTRADAY_BULLISH_STRONG_SOCIAL"; "INTRADAY_MILD_BULLISH"; "DAILY_PERSISTENT_BULLISH"; "DAILY_RISK_ON_ENVIRONMENT"].

End SentimentRulebook.

(* ================================================================== *)
(** ** rulebooks/position_risk_rulebook.py *)
(* ================================================================== *)

Module PositionRiskRulebook.

(** A State with the keys the engine reads: [condition] and
    [score_range]. *)
Definition state (cond : string) (low high : Q) : StateRule :=
  {| condition := Some cond; score_range := Some (low, high); group := None |}.

(** A Metric with its [group], its [weight] and its [timeframes]. *)
Definition metric (group_name : string) (w : Q) (tfs : dict TimeframeRule) : MetricRule :=
  {| metric_group := Some group_name; metric_weight := Some w; timeframes := tfs |}.

(** [POSITION_RISK_RULEBOOK["metrics"]["DAILY_DRAWDOWN"]["timeframes"]["MAJOR"]["states"]] *)
Definition DAILY_DRAWDOWN_MAJOR_states : dict StateRule :=
  [("DD_HARD_STOP_BREACH",
    state "daily_pl_pct <= -1.2 * max_daily_dd_pct"
      (- (10)) (- (8)));
   ("DD_AT_OR_BEYOND_LIMIT",
    state "daily_pl_pct <= -1.0 * max_daily_dd_pct and daily_pl_pct > -1.2 * max_daily_dd_pct"
      (- (8)) (- (6)));
   ("DD_WARNING_ZONE",
    state "daily_pl_pct <= -0.7 * max_daily_dd_pct and daily_pl_pct > -1.0 * max_daily_dd_pct"
      (- (5)) (- (3)));
   ("DD_POSITIVE_DAY_STRONG",
    state "daily_pl_pct >= 1.0 * max_daily_dd_pct"
      3 6);
   ("DD_NORMAL_DAY",
    state "daily_pl_pct > -0.3 * max_daily_dd_pct and daily_pl_pct < 1.0 * max_daily_dd_pct"
      (- (1)) 2)].

(** [POSITION_RISK_RULEBOOK["metrics"]["CAPITAL_USAGE"]["timeframes"]["MINOR"]["states"]] *)
Definition CAPITAL_USAGE_MINOR_states : dict StateRule :=
  [("CAPITAL_USAGE_EXTREME_OVER",
    state "capital_usage_pct > 1.3 * max_capital_pct"
      (- (10)) (- (8)));
   ("CAPITAL_USAGE_ABOVE_LIMIT",
    state "capital_usage_pct > 1.05 * max_capital_pct and capital_usage_pct <= 1.3 * max_capital_pct"
      (- (8)) (- (6)));
   ("CAPITAL_USAGE_HIGH_BUT_OK",
    state "capital_usage_pct > 0.7 * max_capital_pct and capital_usage_pct <= 1.05 * max_capital_pct"
      (- (4)) (- (2)));
   ("CAPITAL_USAGE_OPTIMAL",
    state "capital_usage_pct >= 0.3 * max_capital_pct and capital_usage_pct <= 0.7 * max_capital_pct"
      3 5);
   ("CAPITAL_USAGE_LOW",
    state "capital_usage_pct < 0.3 * max_capital_pct"
      0 2)].

(** [POSITION_RISK_RULEBOOK["metrics"]["RISK_PER_TRADE"]["timeframes"]["MINOR"]["states"]] *)
Definition RISK_PER_TRADE_MINOR_states : dict StateRule :=
  [("RISK_PER_TRADE_EXTREME_OVER",
    state "has_open_position and position_risk_pct > 1.5 * max_risk_per_trade_pct"
      (- (10)) (- (8)));
   ("RISK_PER_TRADE_ABOVE_LIMIT",
    state "has_open_position and position_risk_pct > 1.05 * max_risk_per_trade_pct and position_risk_pct <= 1.5 * max_risk_per_trade_pct"
      (- (8)) (- (6)));
   ("RISK_PER_TRADE_HIGH_BUT_OK",
    state "has_open_position and position_risk_pct > 0.7 * max_risk_per_trade_pct and position_risk_pct <= 1.05 * max_risk_per_trade_pct"
      (- (4)) (- (2)));
   ("RISK_PER_TRADE_OPTIMAL",
    state "has_open_position and position_risk_pct >= 0.3 * max_risk_per_trade_pct and position_risk_pct <= 0.7 * max_risk_per_trade_pct"
      3 5);
   ("RISK_PER_TRADE_SMALL",
    state "has_open_position and position_risk_pct < 0.3 * max_risk_per_trade_pct"
      1 3);
   ("NO_OPEN_POSITION",
    state "not has_open_position"
      (- (1)) 1)].

(** [POSITION_RISK_RULEBOOK["metrics"]["POSITION_PERFORMANCE_STRESS"]["timeframes"]["MINOR"]["states"]] *)
Definition POSITION_PERFORMANCE_STRESS_MINOR_states : dict StateRule :=
  [("POSITION_DEEP_UNREALIZED_LOSS",
    state "has_open_position and rr_multiple_live <= -1.2"
      (- (10)) (- (8)));
   ("POSITION_NEAR_STOP",
    state "has_open_position and rr_multiple_live > -1.2 and rr_multiple_live <= -0.8"
      (- (7)) (- (5)));
   ("POSITION_AT_OR_ABOVE_TARGET",
    state "has_open_position and rr_multiple_live >= 1.0"
      3 6);
   ("POSITION_SMALL_MOVE",
    state "has_open_position and rr_multiple_live > -0.5 and rr_multiple_live < 0.5"
      (- (1)) 2)].

(** [POSITION_RISK_RULEBOOK["metrics"]["SYMBOL_EXPOSURE"]["timeframes"]["MINOR"]["states"]] *)
Definition SYMBOL_EXPOSURE_MINOR_states : dict StateRule :=
  [("SYMBOL_EXPOSURE_EXTREME",
    state "symbol_exposure_pct > 1.5 * max_symbol_exposure_pct"
      (- (10)) (- (8)));
   ("SYMBOL_EXPOSURE_ABOVE_LIMIT",
    state "symbol_exposure_pct > 1.05 * max_symbol_exposure_pct and symbol_exposure_pct <= 1.5 * max_symbol_exposure_pct"
      (- (8)) (- (6)));
   ("SYMBOL_EXPOSURE_HIGH_BUT_OK",
    state "symbol_exposure_pct > 0.7 * max_symbol_exposure_pct and symbol_exposure_pct <= 1.05 * max_symbol_exposure_pct"
      (- (4)) (- (2)));
   ("SYMBOL_EXPOSURE_OPTIMAL",
    state "symbol_exposure_pct >= 0.3 * max_symbol_exposure_pct and symbol_exposure_pct <= 0.7 * max_symbol_exposure_pct"
      3 5);
   ("SYMBOL_EXPOSURE_LOW",
    state "symbol_exposure_pct < 0.3 * max_symbol_exposure_pct"
      0 2)].

(** [POSITION_RISK_RULEBOOK["metrics"]["SECTOR_EXPOSURE"]["timeframes"]["MINOR"]["states"]] *)
Definition SECTOR_EXPOSURE_MINOR_states : dict StateRule :=
  [("SECTOR_EXPOSURE_EXTREME",
    state "sector_exposure_pct > 1.5 * max_sector_exposure_pct"
      (- (10)) (- (8)));
   ("SECTOR_EXPOSURE_ABOVE_LIMIT",
    state "sector_exposure_pct > 1.05 * max_sector_exposure_pct and sector_exposure_pct <= 1.5 * max_sector_exposure_pct"
      (- (8)) (- (6)));
   ("SECTOR_EXPOSURE_HIGH_BUT_OK",
    state "sector_exposure_pct > 0.7 * max_sector_exposure_pct and sector_exposure_pct <= 1.05 * max_sector_exposure_pct"
      (- (4)) (- (2)));
   ("SECTOR_EXPOSURE_OPTIMAL",
    state "sector_exposure_pct >= 0.3 * max_sector_exposure_pct and sector_exposure_pct <= 0.7 * max_sector_exposure_pct"
      3 5);
   ("SECTOR_EXPOSURE_LOW",
    state "sector_exposure_pct < 0.3 * max_sector_exposure_pct"
      0 2)].

(** [POSITION_RISK_RULEBOOK["metrics"]["CORRELATED_EXPOSURE"]["timeframes"]["MINOR"]["states"]] *)
Definition CORRELATED_EXPOSURE_MINOR_states : dict StateRule :=
  [("CORRELATED_EXPOSURE_EXTREME",
    state "correlated_exposure_pct > 1.5 * max_correlated_exposure_pct"
      (- (10)) (- (8)));
   ("CORRELATED_EXPOSURE_ABOVE_LIMIT",
    state "correlated_exposure_pct > 1.05 * max_correlated_exposure_pct and correlated_exposure_pct <= 1.5 * max_correlated_exposure_pct"
      (- (8)) (- (6)));
   ("CORRELATED_EXPOSURE_HIGH_BUT_OK",
    state "correlated_exposure_pct > 0.7 * max_correlated_exposure_pct and correlated_exposure_pct <= 1.05 * max_correlated_exposure_pct"
      (- (4)) (- (2)));
   ("CORRELATED_EXPOSURE_OPTIMAL",
    state "correlated_exposure_pct >= 0.3 * max_correlated_exposure_pct and correlated_exposure_pct <= 0.7 * max_correlated_exposure_pct"
      3 5);
   ("CORRELATED_EXPOSURE_LOW",
    state "correlated_exposure_pct < 0.3 * max_correlated_exposure_pct"
      0 2)].

(** [POSITION_RISK_RULEBOOK["metrics"]["OPEN_POSITIONS_COUNT"]["timeframes"]["MINOR"]["states"]] *)
Definition OPEN_POSITIONS_COUNT_MINOR_states : dict StateRule :=
  [("TOO_MANY_OPEN_POSITIONS",
    state "open_positions_count > max_open_positions"
      (- (8)) (- (6)));
   ("NEAR_MAX_OPEN_POSITIONS",
    state "open_positions_count == max_open_positions"
      (- (4)) (- (2)));
   ("COMFORTABLE_NUM_POSITIONS",
    state "open_positions_count > 0 and open_positions_count < max_open_positions"
      1 3);
   ("NO_OPEN_POSITIONS",
    state "open_positions_count == 0"
      (- (1)) 1)].

(** [POSITION_RISK_RULEBOOK["metrics"]] *)
Definition metrics : dict MetricRule :=
  [("DAILY_DRAWDOWN",
    metric "ACCOUNT_RISK" 1
      [("MAJOR", {| states := DAILY_DRAWDOWN_MAJOR_states |});
       ("MINOR", {| states := [] |})]);
   ("CAPITAL_USAGE",
    metric "ACCOUNT_RISK" 1
      [("MINOR", {| states := CAPITAL_USAGE_MINOR_states |});
       ("MAJOR", {| states := [] |})]);
   ("RISK_PER_TRADE",
    metric "POSITION_RISK" (11 # 10)
      [("MINOR", {| states := RISK_PER_TRADE_MINOR_states |});
       ("MAJOR", {| states := [] |})]);
   ("POSITION_PERFORMANCE_STRESS",
    metric "POSITION_RISK" (9 # 10)
      [("MINOR", {| states := POSITION_PERFORMANCE_STRESS_MINOR_states |});
       ("MAJOR", {| states := [] |})]);
   ("SYMBOL_EXPOSURE",
    metric "EXPOSURE_RISK" 1
      [("MINOR", {| states := SYMBOL_EXPOSURE_MINOR_states |});
       ("MAJOR", {| states := [] |})]);
   ("SECTOR_EXPOSURE",
    metric "EXPOSURE_RISK" 1
      [("MINOR", {| states := SECTOR_EXPOSURE_MINOR_states |});
       ("MAJOR", {| states := [] |})]);
   ("CORRELATED_EXPOSURE",
    metric "EXPOSURE_RISK" (11 # 10)
      [("MINOR", {| states := CORRELATED_EXPOSURE_MINOR_states |});
       ("MAJOR", {| states := [] |})]);
   ("OPEN_POSITIONS_COUNT",
    metric "EXPOSURE_RISK" (4 # 5)
      [("MINOR", {| states := OPEN_POSITIONS_COUNT_MINOR_states |});
       ("MAJOR", {| states := [] |})])].

(** [POSITION_RISK_RULEBOOK["meta"]["groups"]] *)
Definition groups : dict GroupInfo :=
  [("ACCOUNT_RISK", {| base_weight := Some (6 # 5) |});
   ("POSITION_RISK", {| base_weight := Some (11 # 10) |});
   ("EXPOSURE_RISK", {| base_weight := Some 1 |})].

Definition POSITION_RISK_RULEBOOK : PositionRisk.Rulebook :=
  {| PositionRisk.metrics := metrics; PositionRisk.groups := groups |}.

(** What [ast.parse(s, mode='eval').body] is for the conditions of the
    rulebook: a negative literal is the node [UnaryOp USub] over the
    literal, [not x] the node [UnaryOp Not]. *)
Definition parse_table : dict expr :=
  [("daily_pl_pct <= -1.2 * max_daily_dd_pct",
    Compare (Name "daily_pl_pct") [LtE] [BinOp (UnaryOp USub (Constant (VFloat (6 # 5)))) Mult (Name "max_daily_dd_pct")]);
   ("daily_pl_pct <= -1.0 * max_daily_dd_pct and daily_pl_pct > -1.2 * max_daily_dd_pct",
    BoolOp And
      [Compare (Name "daily_pl_pct") [LtE] [BinOp (UnaryOp USub (Constant (VFloat 1))) Mult (Name "max_daily_dd_pct")];
       Compare (Name "daily_pl_pct") [Gt] [BinOp (UnaryOp USub (Constant (VFloat (6 # 5)))) Mult (Name "max_daily_dd_pct")]]);
   ("daily_pl_pct <= -0.7 * max_daily_dd_pct and daily_pl_pct > -1.0 * max_daily_dd_pct",
    BoolOp And
      [Compare (Name "daily_pl_pct") [LtE] [BinOp (UnaryOp USub (Constant (VFloat (7 # 10)))) Mult (Name "max_daily_dd_pct")];
       Compare (Name "daily_pl_pct") [Gt] [BinOp (UnaryOp USub (Constant (VFloat 1))) Mult (Name "max_daily_dd_pct")]]);
   ("daily_pl_pct >= 1.0 * max_daily_dd_pct",
    Compare (Name "daily_pl_pct") [GtE] [BinOp (Constant (VFloat 1)) Mult (Name "max_daily_dd_pct")]);
   ("daily_pl_pct > -0.3 * max_daily_dd_pct and daily_pl_pct < 1.0 * max_daily_dd_pct",
    BoolOp And
      [Compare (Name "daily_pl_pct") [Gt] [BinOp (UnaryOp USub (Constant (VFloat (3 # 10)))) Mult (Name "max_daily_dd_pct")];
       Compare (Name "daily_pl_pct") [Lt] [BinOp (Constant (VFloat 1)) Mult (Name "max_daily_dd_pct")]]);
   ("capital_usage_pct > 1.3 * max_capital_pct",
    Compare (Name "capital_usage_pct") [Gt] [BinOp (Constant (VFloat (13 # 10))) Mult (Name "max_capital_pct")]);
   ("capital_usage_pct > 1.05 * max_capital_pct and capital_usage_pct <= 1.3 * max_capital_pct",
    BoolOp And
      [Compare (Name "capital_usage_pct") [Gt] [BinOp (Constant (VFloat (21 # 20))) Mult (Name "max_capital_pct")];
       Compare (Name "capital_usage_pct") [LtE] [BinOp (Constant (VFloat (13 # 10))) Mult (Name "max_capital_pct")]]);
   ("capital_usage_pct > 0.7 * max_capital_pct and capital_usage_pct <= 1.05 * max_capital_pct",
    BoolOp And
      [Compare (Name "capital_usage_pct") [Gt] [BinOp (Constant (VFloat (7 # 10))) Mult (Name "max_capital_pct")];
       Compare (Name "capital_usage_pct") [LtE] [BinOp (Constant (VFloat (21 # 20))) Mult (Name "max_capital_pct")]]);
   ("capital_usage_pct >= 0.3 * max_capital_pct and capital_usage_pct <= 0.7 * max_capital_pct",
    BoolOp And
      [Compare (Name "capital_usage_pct") [GtE] [BinOp (Constant (VFloat (3 # 10))) Mult (Name "max_capital_pct")];
       Compare (Name "capital_usage_pct") [LtE] [BinOp (Constant (VFloat (7 # 10))) Mult (Name "max_capital_pct")]]);
   ("capital_usage_pct < 0.3 * max_capital_pct",
    Compare (Name "capital_usage_pct") [Lt] [BinOp (Constant (VFloat (3 # 10))) Mult (Name "max_capital_pct")]);
   ("has_open_position and position_risk_pct > 1.5 * max_risk_per_trade_pct",
    BoolOp And
      [Name "has_open_position";
       Compare (Name "position_risk_pct") [Gt] [BinOp (Constant (VFloat (3 # 2))) Mult (Name "max_risk_per_trade_pct")]]);
   ("has_open_position and position_risk_pct > 1.05 * max_risk_per_trade_pct and position_risk_pct <= 1.5 * max_risk_per_trade_pct",
    BoolOp And
      [Name "has_open_position";
       Compare (Name "position_risk_pct") [Gt] [BinOp (Constant (VFloat (21 # 20))) Mult (Name "max_risk_per_trade_pct")];
       Compare (Name "position_risk_pct") [LtE] [BinOp (Constant (VFloat (3 # 2))) Mult (Name "max_risk_per_trade_pct")]]);
   ("has_open_position and position_risk_pct > 0.7 * max_risk_per_trade_pct and position_risk_pct <= 1.05 * max_risk_per_trade_pct",
    BoolOp And
      [Name "has_open_position";
       Compare (Name "position_risk_pct") [Gt] [BinOp (Constant (VFloat (7 # 10))) Mult (Name "max_risk_per_trade_pct")];
       Compare (Name "position_risk_pct") [LtE] [BinOp (Constant (VFloat (21 # 20))) Mult (Name "max_risk_per_trade_pct")]]);
   ("has_open_position and position_risk_pct >= 0.3 * max_risk_per_trade_pct and position_risk_pct <= 0.7 * max_risk_per_trade_pct",
    BoolOp And
      [Name "has_open_position";
       Compare (Name "position_risk_pct") [GtE] [BinOp (Constant (VFloat (3 # 10))) Mult (Name "max_risk_per_trade_pct")];
       Compare (Name "position_risk_pct") [LtE] [BinOp (Constant (VFloat (7 # 10))) Mult (Name "max_risk_per_trade_pct")]]);
   ("has_open_position and position_risk_pct < 0.3 * max_risk_per_trade_pct",
    BoolOp And
      [Name "has_open_position";
       Compare (Name "position_risk_pct") [Lt] [BinOp (Constant (VFloat (3 # 10))) Mult (Name "max_risk_per_trade_pct")]]);
   ("not has_open_position",
    UnaryOp Not (Name "has_open_position"));
   ("has_open_position and rr_multiple_live <= -1.2",
    BoolOp And
      [Name "has_open_position";
       Compare (Name "rr_multiple_live") [LtE] [UnaryOp USub (Constant (VFloat (6 # 5)))]]);
   ("has_open_position and rr_multiple_live > -1.2 and rr_multiple_live <= -0.8",
    BoolOp And
      [Name "has_open_position";
       Compare (Name "rr_multiple_live") [Gt] [UnaryOp USub (Constant (VFloat (6 # 5)))];
       Compare (Name "rr_multiple_live") [LtE] [UnaryOp USub (Constant (VFloat (4 # 5)))]]);
   ("has_open_position and rr_multiple_live >= 1.0",
    BoolOp And
      [Name "has_open_position";
       Compare (Name "rr_multiple_live") [GtE] [Constant (VFloat 1)]]);
   ("has_open_position and rr_multiple_live > -0.5 and rr_multiple_live < 0.5",
    BoolOp And
      [Name "has_open_position";
       Compare (Name "rr_multiple_live") [Gt] [UnaryOp USub (Constant (VFloat (1 # 2)))];
       Compare (Name "rr_multiple_live") [Lt] [Constant (VFloat (1 # 2))]]);
   ("symbol_exposure_pct > 1.5 * max_symbol_exposure_pct",
    Compare (Name "symbol_exposure_pct") [Gt] [BinOp (Constant (VFloat (3 # 2))) Mult (Name "max_symbol_exposure_pct")]);
   ("symbol_exposure_pct > 1.05 * max_symbol_exposure_pct and symbol_exposure_pct <= 1.5 * max_symbol_exposure_pct",
    BoolOp And
      [Compare (Name "symbol_exposure_pct") [Gt] [BinOp (Constant (VFloat (21 # 20))) Mult (Name "max_symbol_exposure_pct")];
       Compare (Name "symbol_exposure_pct") [LtE] [BinOp (Constant (VFloat (3 # 2))) Mult (Name "max_symbol_exposure_pct")]]);
   ("symbol_exposure_pct > 0.7 * max_symbol_exposure_pct and symbol_exposure_pct <= 1.05 * max_symbol_exposure_pct",
    BoolOp And
      [Compare (Name "symbol_exposure_pct") [Gt] [BinOp (Constant (VFloat (7 # 10))) Mult (Name "max_symbol_exposure_pct")];
       Compare (Name "symbol_exposure_pct") [LtE] [BinOp (Constant (VFloat (21 # 20))) Mult (Name "max_symbol_exposure_pct")]]);
   ("symbol_exposure_pct >= 0.3 * max_symbol_exposure_pct and symbol_exposure_pct <= 0.7 * max_symbol_exposure_pct",
    BoolOp And
      [Compare (Name "symbol_exposure_pct") [GtE] [BinOp (Constant (VFloat (3 # 10))) Mult (Name "max_symbol_exposure_pct")];
       Compare (Name "symbol_exposure_pct") [LtE] [BinOp (Constant (VFloat (7 # 10))) Mult (Name "max_symbol_exposure_pct")]]);
   ("symbol_exposure_pct < 0.3 * max_symbol_exposure_pct",
    Compare (Name "symbol_exposure_pct") [Lt] [BinOp (Constant (VFloat (3 # 10))) Mult (Name "max_symbol_exposure_pct")]);
   ("sector_exposure_pct > 1.5 * max_sector_exposure_pct",
    Compare (Name "sector_exposure_pct") [Gt] [BinOp (Constant (VFloat (3 # 2))) Mult (Name "max_sector_exposure_pct")]);
   ("sector_exposure_pct > 1.05 * max_sector_exposure_pct and sector_exposure_pct <= 1.5 * max_sector_exposure_pct",
    BoolOp And
      [Compare (Name "sector_exposure_pct") [Gt] [BinOp (Constant (VFloat (21 # 20))) Mult (Name "max_sector_exposure_pct")];
       Compare (Name "sector_exposure_pct") [LtE] [BinOp (Constant (VFloat (3 # 2))) Mult (Name "max_sector_exposure_pct")]]);
   ("sector_exposure_pct > 0.7 * max_sector_exposure_pct and sector_exposure_pct <= 1.05 * max_sector_exposure_pct",
    BoolOp And
      [Compare (Name "sector_exposure_pct") [Gt] [BinOp (Constant (VFloat (7 # 10))) Mult (Name "max_sector_exposure_pct")];
       Compare (Name "sector_exposure_pct") [LtE] [BinOp (Constant (VFloat (21 # 20))) Mult (Name "max_sector_exposure_pct")]]);
   ("sector_exposure_pct >= 0.3 * max_sector_exposure_pct and sector_exposure_pct <= 0.7 * max_sector_exposure_pct",
    BoolOp And
      [Compare (Name "sector_exposure_pct") [GtE] [BinOp (Constant (VFloat (3 # 10))) Mult (Name "max_sector_exposure_pct")];
       Compare (Name "sector_exposure_pct") [LtE] [BinOp (Constant (VFloat (7 # 10))) Mult (Name "max_sector_exposure_pct")]]);
   ("sector_exposure_pct < 0.3 * max_sector_exposure_pct",
    Compare (Name "sector_exposure_pct") [Lt] [BinOp (Constant (VFloat (3 # 10))) Mult (Name "max_sector_exposure_pct")]);
   ("correlated_exposure_pct > 1.5 * max_correlated_exposure_pct",
    Compare (Name "correlated_exposure_pct") [Gt] [BinOp (Constant (VFloat (3 # 2))) Mult (Name "max_correlated_exposure_pct")]);
   ("correlated_exposure_pct > 1.05 * max_correlated_exposure_pct and correlated_exposure_pct <= 1.5 * max_correlated_exposure_pct",
    BoolOp And
      [Compare (Name "correlated_exposure_pct") [Gt] [BinOp (Constant (VFloat (21 # 20))) Mult (Name "max_correlated_exposure_pct")];
       Compare (Name "correlated_exposure_pct") [LtE] [BinOp (Constant (VFloat (3 # 2))) Mult (Name "max_correlated_exposure_pct")]]);
   ("correlated_exposure_pct > 0.7 * max_correlated_exposure_pct and correlated_exposure_pct <= 1.05 * max_correlated_exposure_pct",
    BoolOp And
      [Compare (Name "correlated_exposure_pct") [Gt] [BinOp (Constant (VFloat (7 # 10))) Mult (Name "max_correlated_exposure_pct")];
       Compare (Name "correlated_exposure_pct") [LtE] [BinOp (Constant (VFloat (21 # 20))) Mult (Name "max_correlated_exposure_pct")]]);
   ("correlated_exposure_pct >= 0.3 * max_correlated_exposure_pct and correlated_exposure_pct <= 0.7 * max_correlated_exposure_pct",
    BoolOp And
      [Compare (Name "correlated_exposure_pct") [GtE] [BinOp (Constant (VFloat (3 # 10))) Mult (Name "max_correlated_exposure_pct")];
       Compare (Name "correlated_exposure_pct") [LtE] [BinOp (Constant (VFloat (7 # 10))) Mult (Name "max_correlated_exposure_pct")]]);
   ("correlated_exposure_pct < 0.3 * max_correlated_exposure_pct",
    Compare (Name "correlated_exposure_pct") [Lt] [BinOp (Constant (VFloat (3 # 10))) Mult (Name "max_correlated_exposure_pct")]);
   ("open_positions_count > max_open_positions",
    Compare (Name "open_positions_count") [Gt] [Name "max_open_positions"]);
   ("open_positions_count == max_open_positions",
    Compare (Name "open_positions_count") [Eq] [Name "max_open_positions"]);
   ("open_positions_count > 0 and open_positions_count < max_open_positions",
    BoolOp And
      [Compare (Name "open_positions_count") [Gt] [Constant (VInt 0)];
       Compare (Name "open_positions_count") [Lt] [Name "max_open_positions"]]);
   ("open_positions_count == 0",
    Compare (Name "open_positions_count") [Eq] [Constant (VInt 0)])].

(** A runtime whose parser covers the rulebook. *)
Definition rt : Runtime :=
  {| ast_parse := fun s => dict_get s parse_table;
     builtin_eval := fun _ _ => Raise SyntaxError;
     str_percent := fun _ _ => Raise TypeError;
     same_object := fun _ _ => false |}.

(** The States whose condition holds a negative literal or a [not], as
    [matched_states] would name them. *)
Definition unreachable_states : list string :=
  ["DAILY_DRAWDOWN.DD_HARD_STOP_BREACH";
   "DAILY_DRAWDOWN.DD_AT_OR_BEYOND_LIMIT";
   "DAILY_DRAWDOWN.DD_WARNING_ZONE";
   "DAILY_DRAWDOWN.DD_NORMAL_DAY";
   "RISK_PER_TRADE.NO_OPEN_POSITION";
   "POSITION_PERFORMANCE_STRESS.POSITION_DEEP_UNREALIZED_LOSS";
   "POSITION_PERFORMANCE_STRESS.POSITION_NEAR_STOP";
   "POSITION_PERFORMANCE_STRESS.POSITION_SMALL_MOVE"].

End PositionRiskRulebook.

(* ================================================================== *)
(** ** More concrete inputs *)
(* ================================================================== *)

Module Fixtures.

(** *** A universe of three symbols *)

Definition symbol_in (sym : string) (sec : option string) : ScoringSystem.SymbolState :=
  {| ScoringSystem.symbol := sym;
     ScoringSystem.sector := sec;
     ScoringSystem.symbol_price := None;
     ScoringSystem.indicators_minor := None;
     ScoringSystem.indicators_major := None |}.

Definition sector_of (sec : string) (daily intraday : Q) : ScoringSystem.SectorSnapshot :=
  {| ScoringSystem.sector_name := sec;
     ScoringSystem.sector_score_daily := daily;
     ScoringSystem.sector_score_intraday := intraday |}.

(** [AAA] has no sector, the sector of [BBB] scores 8 and the sector
    of [CCC] scores -9. *)
Definition three_symbols : ScoringSystem.UniverseState :=
  {| ScoringSystem.symbols :=
       [("AAA", symbol_in "AAA" None);
        ("BBB", symbol_in "BBB" (Some "XLK"));
        ("CCC", symbol_in "CCC" (Some "XLE"))];
     ScoringSystem.macro := Examples.macro_of 0;
     ScoringSystem.sectors :=
       [("XLK", sector_of "XLK" 8 8); ("XLE", sector_of "XLE" (- (9)) (- (9)))] |}.

Definition sector_engine : ScoringSystem.MasterScoringEngine :=
  {| ScoringSystem._all_components := [ScoringSystem.SectorScoringComponent 1] |}.

(** A component whose computation raises, and an engine that holds it
    after the sector component. *)
Definition failing_component : ScoringSystem.BaseScoringComponent :=
  {| ScoringSystem.name := "NEWS";
     ScoringSystem.self_weight := 22 # 100;
     ScoringSystem._compute_raw_score := fun _ _ => Raise TypeError |}.

Definition failing_engine : ScoringSystem.MasterScoringEngine :=
  {| ScoringSystem._all_components :=
       [ScoringSystem.SectorScoringComponent 1; failing_component] |}.

(** *** Sentiment snapshots *)


Definition bearish_sentiment : Snapshot :=
  [("stock_sentiment", VFloat (- (8 # 10)));
   ("news_sentiment", VFloat (- (5 # 10)));
   ("market_sentiment", VFloat (- (6 # 10)));
   ("volume_of_mentions", VFloat (25 # 10));
   ("is_trending", VBool true)].

(** *** An account and a position *)

(** The account and the position of the example in the docstring of
    [score_position_risk], and the limit [max_capital_pct] that the
    rulebook's conditions on capital usage read. *)
Definition account_state : Snapshot :=
  [("equity", VInt 100000);
   ("cash", VInt 50000);
   ("open_positions_value", VInt 45000);
   ("realized_pnl_today", VInt (-500));
   ("unrealized_pnl_today", VInt (-200));
   ("max_daily_loss_pct", VFloat (- (2 # 100)));
   ("max_daily_loss_abs", VInt (-2000));
   ("tradable_equity_pct", VFloat (95 # 100));
   ("account_risk_pct_max", VFloat (1 # 100));
   ("max_concurrent_positions", VInt 10);
   ("open_positions_count", VInt 3);
   ("max_capital_pct", VFloat 1)].

Definition position_state : Snapshot :=
  [("symbol", VStr "AAPL");
   ("is_open", VBool true);
   ("direction", VStr "LONG");
   ("entry_price", VFloat 150);
   ("current_price", VFloat 152);
   ("stop_price", VFloat 148);
   ("position_size", VInt 100);
   ("risk_per_share", VFloat 2);
   ("symbol_risk_pct_of_equity", VFloat (2 # 1000));
   ("open_pnl_abs", VInt 200);
   ("open_pnl_pct", VFloat (133 # 10000));
   ("max_favorable_excursion_pct", VFloat (2 # 100));
   ("max_adverse_excursion_pct", VFloat (- (1 # 100)))].


(** An account five percent down on the day, against a drawdown limit
    of two percent, with the limits that the rulebook's conditions read. *)
Definition drawdown_account : Snapshot :=
  [("equity", VInt 100000);
   ("open_positions_value", VInt 45000);
   ("realized_pnl_today", VInt (-4000));
   ("unrealized_pnl_today", VInt (-1000));
   ("max_daily_dd_pct", VFloat (2 # 100));
   ("max_capital_pct", VFloat 1);
   ("open_positions_count", VInt 3);
   ("max_open_positions", VInt 10)].

(** No text is converted to a number in these inputs. *)
Definition no_text : string -> outcome Q := fun _ => Raise TypeError.

(** *** Module results *)

(** Results in the shape the engines return them: the options-flow and
    the price-action engine under the keys of their [score] methods. *)
Definition macro_result : dict value := [("final_macro_score", VFloat 3)].

Definition options_flow_result : dict value :=
  [("minor_score", VFloat 8); ("final_options_flow_score", VFloat (84 # 10))].

Definition price_action_result : dict value :=
  [("minor_score", VFloat 6); ("major_score", VFloat 4);
   ("final_price_action_score", VFloat 6)].

Definition fundamentals_result : dict value :=
  [("minor_score", VFloat 0); ("major_score", VFloat 9);
   ("final_fundamentals_score", VFloat (675 # 100))].

End Fixtures.

(* ================================================================== *)
(** * Properties *)
(* ================================================================== *)

(** ** Rationals *)

Lemma Qltb_iff (a b : Q) : Qltb a b = true <-> a < b.
Proof.
  unfold Qltb. rewrite negb_true_iff. split; intro H.
  - apply Qnot_le_lt. intro L. apply Qle_bool_iff in L. congruence.
  - destruct (Qle_bool b a) eqn:E; [|reflexivity].
    apply Qle_bool_iff in E. exfalso. apply (Qlt_not_le _ _ H E).
Qed.

Lemma Qltb_false_iff (a b : Q) : Qltb a b = false <-> b <= a.
Proof.
  unfold Qltb. rewrite negb_false_iff. apply Qle_bool_iff.
Qed.

Lemma Qle_bool_false_iff (a b : Q) : Qle_bool a b = false <-> b < a.
Proof.
  rewrite <- Qltb_iff. unfold Qltb. rewrite negb_true_iff. reflexivity.
Qed.

Lemma py_min_spec (a b : Q) : py_min a b <= a /\ py_min a b <= b.
Proof.
  unfold py_min. destruct (Qltb b a) eqn:E.
  - apply Qltb_iff in E. split; lra.
  - apply Qltb_false_iff in E. split; lra.
Qed.

Lemma py_max_spec (a b : Q) : a <= py_max a b /\ b <= py_max a b.
Proof.
  unfold py_max. destruct (Qltb a b) eqn:E.
  - apply Qltb_iff in E. split; lra.
  - apply Qltb_false_iff in E. split; lra.
Qed.

Lemma clamp_bounds (v lo hi : Q) :
  lo <= hi -> lo <= clamp v lo hi /\ clamp v lo hi <= hi.
Proof.
  intro H. unfold clamp, py_max, py_min.
  destruct (Qltb v hi) eqn:E1.
  - apply Qltb_iff in E1. destruct (Qltb lo v) eqn:E2.
    + apply Qltb_iff in E2. split; lra.
    + split; lra.
  - apply Qltb_false_iff in E1. destruct (Qltb lo hi) eqn:E2; split; lra.
Qed.

(** ** The expression evaluator *)

Section SafeEvalFacts.

Variable rt : Runtime.
Variable variables : dict value.

Abbreviation eval := (SafeEval._eval rt variables).

Abbreviation boolop_loop := (SafeEval.boolop_loop eval).

Lemma boolop_fix_eq (f : value -> value -> outcome value) (vs : list expr) :
  forall acc,
    (fix loop (vs : list expr) (left_ : value) {struct vs} : outcome value :=
       match vs with
       | [] => Ret left_
       | v :: vs' => r <- eval v ;; left_1 <- f left_ r ;; loop vs' left_1
       end) vs acc = boolop_loop f vs acc.
Proof.
  induction vs as [|v vs IH]; intro acc; cbn [SafeEval.boolop_loop].
  - reflexivity.
  - destruct (eval v) as [r|e]; cbn [bind]; [|reflexivity].
    destruct (f acc r) as [x|e]; cbn [bind]; [apply IH | reflexivity].
Qed.

Lemma eval_BoolOp (op : boolop) (first second : expr) (rest : list expr) :
  eval (BoolOp op (first :: second :: rest)) =
  match SafeEval.OPS rt (BoolT op) with
  | Some f => acc <- eval first ;; boolop_loop f (second :: rest) acc
  | None => Raise (ValueError UnsupportedBoolean)
  end.
Proof.
  destruct op; cbn [SafeEval._eval SafeEval.OPS length Nat.ltb Nat.leb];
    destruct (eval first) as [a|e]; cbn [bind]; try reflexivity;
    cbn [SafeEval.boolop_loop];
    destruct (eval second) as [b|e]; cbn [bind]; try reflexivity.
  - exact (boolop_fix_eq (fun a b => Ret (if truthy a then b else a)) rest _).
  - exact (boolop_fix_eq (fun a b => Ret (if truthy a then a else b)) rest _).
Qed.

(** An operand that raises makes the loop raise, whatever the operands
    before it evaluated to. *)
Lemma boolop_loop_raises (op : boolop) (f : value -> value -> outcome value)
    (vs : list expr) (v : expr) (e : exn) :
  SafeEval.OPS rt (BoolT op) = Some f ->
  List.In v vs -> eval v = Raise e ->
  forall acc, exists e', boolop_loop f vs acc = Raise e'.
Proof.
  intros Hf Hin Hv. induction vs as [|w ws IH]; [contradiction|].
  intro acc. cbn. destruct Hin as [->|Hin].
  - rewrite Hv. cbn. eauto.
  - destruct (eval w) as [r|e1]; cbn; [|eauto].
    assert (Hr : exists x, f acc r = Ret x).
    { destruct op; cbn in Hf; injection Hf as <-; eauto. }
    destruct Hr as [x ->]. cbn. apply IH, Hin.
Qed.

Lemma eval_BoolOp_strict (op : boolop) (values : list expr) (v : expr) (e : exn) :
  List.In v values -> eval v = Raise e ->
  exists e', eval (BoolOp op values) = Raise e'.
Proof.
  intros Hin Hv.
  destruct values as [|first [|second rest]].
  - contradiction.
  - destruct op; cbn; eauto.
  - rewrite eval_BoolOp.
    assert (Hf : exists f, SafeEval.OPS rt (BoolT op) = Some f)
      by (destruct op; cbn; eauto).
    destruct Hf as [f Hf]. rewrite Hf.
    destruct Hin as [->|Hin].
    + rewrite Hv. cbn. eauto.
    + destruct (eval first) as [a|e1]; cbn [bind]; [|eauto].
      apply (boolop_loop_raises op f (second :: rest) v e Hf Hin Hv).
Qed.

End SafeEvalFacts.

(** Induction on expressions, with the operands of [BoolOp] and the
    comparators of [Compare] covered. *)
Lemma expr_induction (P : expr -> Prop) :
  (forall v, P (Constant v)) ->
  (forall id, P (Name id)) ->
  (forall l op r, P l -> P r -> P (BinOp l op r)) ->
  (forall op vs, Forall P vs -> P (BoolOp op vs)) ->
  (forall l ops cs, P l -> Forall P cs -> P (Compare l ops cs)) ->
  (forall e, SafeEval.unsafe_node e = true -> P e) ->
  forall e, P e.
Proof.
  intros Hc Hn Hb Hbo Hcmp Hu.
  fix IH 1. intro e.
  destruct e as [v|id|l op r|op vs|l ops cs| | | | | | | ];
    try (apply Hu; reflexivity).
  - apply Hc.
  - apply Hn.
  - apply Hb; apply IH.
  - apply Hbo. induction vs as [|x xs IHxs]; constructor; [apply IH | apply IHxs].
  - apply Hcmp; [apply IH|].
    induction cs as [|x xs IHxs]; constructor; [apply IH | apply IHxs].
Qed.

Section FailClosed.

Variable rt : Runtime.

(** A node outside the grammar raises [ValueError] as soon as [_eval]
    arrives at it. *)
Lemma eval_unsafe_node (variables : dict value) (e : expr) :
  SafeEval.unsafe_node e = true ->
  SafeEval._eval rt variables e = Raise (ValueError UnsafeNode).
Proof.
  destruct e; cbn; intro H; try reflexivity; discriminate.
Qed.

Lemma eval_unknown_variable (variables : dict value) (id : string) :
  dict_has id variables = false ->
  SafeEval._eval rt variables (Name id) = Raise (ValueError (UnknownVariable id)).
Proof.
  unfold dict_has. cbn. destruct (dict_get id variables); [discriminate | reflexivity].
Qed.

(** Nothing inside [_eval] catches an exception: an unsafe node or an
    unknown variable in a position that is always evaluated makes the
    whole evaluation raise. *)
Lemma eval_reaches_unsafe (variables : dict value) (e : expr) :
  SafeEval.reaches_unsafe variables e = true ->
  exists err, SafeEval._eval rt variables e = Raise err.
Proof.
  induction e as [v|id|l op r IHl IHr|op vs IHvs|l ops cs IHl IHcs|e Hu]
    using expr_induction; intro H.
  - discriminate.
  - cbn in H. apply negb_true_iff in H. rewrite eval_unknown_variable by exact H. eauto.
  - cbn in H. cbn [SafeEval._eval].
    destruct (SafeEval.OPS rt (BinT op)) as [f|]; [|eauto].
    destruct (SafeEval.reaches_unsafe variables l) eqn:El.
    + destruct (IHl eq_refl) as [err ->]. cbn. eauto.
    + cbn in H. destruct (IHr H) as [err Hr].
      destruct (SafeEval._eval rt variables l); cbn; [|eauto].
      rewrite Hr. cbn. eauto.
  - cbn in H. apply existsb_exists in H. destruct H as [v [Hin Hv]].
    rewrite Forall_forall in IHvs. destruct (IHvs v Hin Hv) as [err Herr].
    eapply eval_BoolOp_strict; eauto.
  - cbn in H. cbn [SafeEval._eval].
    destruct (negb (length ops =? length cs)%nat); [eauto|].
    destruct (SafeEval.reaches_unsafe variables l) eqn:El.
    + destruct (IHl eq_refl) as [err ->]. cbn. eauto.
    + cbn in H. destruct (SafeEval._eval rt variables l) as [a|err]; cbn [bind]; [|eauto].
      destruct ops as [|o ops]; [discriminate|].
      destruct cs as [|c cs]; [discriminate|].
      destruct (SafeEval.OPS rt (CmpT o)) as [oper|]; [|eauto].
      inversion IHcs as [|? ? IHc _]; subst.
      destruct (IHc H) as [err ->]. cbn. eauto.
  - rewrite eval_unsafe_node by exact Hu. eauto.
Qed.


(** The wrapper of the engines reports a raising condition as a
    non-match; being a total function, it lets no exception through. *)
Lemma _safe_eval_fail_closed (cond : string) (variables : dict value) (e : exn) :
  SafeEval.safe_eval rt cond variables = Raise e ->
  OptionsFlow._safe_eval rt cond variables = false.
Proof.
  intro H. unfold OptionsFlow._safe_eval. rewrite H.
  destruct (is_empty cond || is_empty (strip cond)); reflexivity.
Qed.

(** A condition whose tree has an unsafe node or an unknown variable in
    an always-evaluated position does not match. *)
Lemma unsafe_condition_does_not_match (cond : string) (variables : dict value)
    (tree : expr) :
  ast_parse rt (strip cond) = Some tree ->
  SafeEval.reaches_unsafe variables tree = true ->
  OptionsFlow._safe_eval rt cond variables = false.
Proof.
  intros Hp Hu. unfold OptionsFlow._safe_eval, SafeEval.safe_eval.
  destruct (is_empty cond || is_empty (strip cond)); [reflexivity|].
  rewrite Hp. destruct (eval_reaches_unsafe variables tree Hu) as [err ->].
  destruct err as [why| | | | |]; reflexivity.
Qed.

(** A condition that does not parse as an expression (an assignment,
    an import) does not match. *)
Lemma syntax_error_does_not_match (cond : string) (variables : dict value) :
  ast_parse rt (strip cond) = None ->
  OptionsFlow._safe_eval rt cond variables = false.
Proof.
  intro Hp. unfold OptionsFlow._safe_eval, SafeEval.safe_eval.
  destruct (is_empty cond || is_empty (strip cond)); [reflexivity|].
  rewrite Hp. reflexivity.
Qed.

End FailClosed.

(** Two scenarios of the specification, run on the model: a chained
    comparison joined by [and] matches, and an ordering test on a
    variable bound to [None] does not match and does not raise. *)
Example chained_comparison_matches :
  SafeEval.safe_eval Examples.rt0 "12 <= pe_ratio <= 18 and pb_ratio < 2.0"
    Examples.pe_snapshot = Ret true.
Proof. reflexivity. Qed.

Example none_variable_does_not_match :
  SafeEval.safe_eval Examples.rt0 "rsi >= 80" [("rsi", VNone)]
  = Raise (ValueError ErrorEvaluating)
  /\ OptionsFlow._safe_eval Examples.rt0 "rsi >= 80" [("rsi", VNone)] = false.
Proof. split; reflexivity. Qed.

(** C10.  [safe_eval] evaluates every operand of [and] / [or] before it
    applies the operator: an operand that raises makes the whole
    operation raise, whatever the operands before it evaluated to.  On
    ["x is not None and x > 0"] with [x] bound to [None], [safe_eval]
    raises [ValueError] and the engine wrapper reports a non-match,
    where Python's short-circuit [and] evaluates to [False]. *)
Theorem safe_eval_does_not_short_circuit (rt : Runtime) :
  ast_parse rt Examples.short_circuit_condition = Some Examples.short_circuit_tree ->
  (forall variables op values v e,
      List.In v values ->
      SafeEval._eval rt variables v = Raise e ->
      exists e', SafeEval._eval rt variables (BoolOp op values) = Raise e')
  /\ SafeEval.safe_eval rt Examples.short_circuit_condition [("x", VNone)]
     = Raise (ValueError ErrorEvaluating)
  /\ OptionsFlow._safe_eval rt Examples.short_circuit_condition [("x", VNone)] = false
  /\ PythonEval.eval rt [("x", VNone)] Examples.short_circuit_tree
     = Some (Ret (VBool false)).
Proof.
  intro Hparse.
  assert (Hstrip : strip Examples.short_circuit_condition
                   = Examples.short_circuit_condition) by reflexivity.
  assert (Hsafe : SafeEval.safe_eval rt Examples.short_circuit_condition [("x", VNone)]
                  = Raise (ValueError ErrorEvaluating)).
  { unfold SafeEval.safe_eval. rewrite Hstrip, Hparse. reflexivity. }
  split; [|split; [|split]].
  - intros variables op values v e. apply eval_BoolOp_strict.
  - exact Hsafe.
  - eapply _safe_eval_fail_closed. exact Hsafe.
  - reflexivity.
Qed.

Lemma safe_eval_does_not_short_circuit_witness :
  ast_parse Examples.rt0 Examples.short_circuit_condition
    = Some Examples.short_circuit_tree
  /\ SafeEval.safe_eval Examples.rt0 Examples.short_circuit_condition [("x", VNone)]
     = Raise (ValueError ErrorEvaluating).
Proof.
  split; [reflexivity|].
  apply (safe_eval_does_not_short_circuit Examples.rt0). reflexivity.
Defined.

(** C4 (the code at the failing input).  The condition of the state
    [NEGATIVE_GAMMA_VOLATILE] of the options flow rulebook calls [abs],
    which the engine places in the evaluation environment; [safe_eval]
    rejects the [Call] node with [ValueError], so the state does not
    match a snapshot with [gamma_exposure = -5] and
    [gamma_critical_threshold = 3], on which Python evaluates the
    condition to [True]. *)
Theorem abs_call_is_rejected :
  let names := OptionsFlow.allowed_names Examples.gamma_snapshot in
  dict_get "abs" names = Some (VObject AbsFunction)
  /\ SafeEval.safe_eval Examples.rt0 Examples.abs_condition names
     = Raise (ValueError UnsafeNode)
  /\ OptionsFlow._safe_eval Examples.rt0 Examples.abs_condition names = false
  /\ PythonEval.eval Examples.rt0 names Examples.abs_tree = Some (Ret (VBool true))
  /\ OptionsFlow.matched_states
       (OptionsFlow.score Examples.rt0 (OptionsFlow.init Examples.gamma_rulebook)
          Examples.gamma_snapshot) = [].
Proof.
  repeat split; vm_compute; reflexivity.
Qed.

(** ** Loops *)

Lemma for_each_app {A S : Type} (body : S -> A -> outcome S) (xs ys : list A) (acc : S) :
  for_each body (xs ++ ys) acc = (acc' <- for_each body xs acc ;; for_each body ys acc').
Proof.
  revert acc. induction xs as [|x xs IH]; intro acc; cbn.
  - reflexivity.
  - destruct (body acc x); cbn; [apply IH | reflexivity].
Qed.

Lemma length_nonzero (n : nat) : Qeq_bool (inject_Z (Z.of_nat (S n))) 0 = false.
Proof.
  unfold Qeq_bool. cbn. reflexivity.
Qed.

Lemma py_div_nonzero (a b : Q) : Qeq_bool b 0 = false -> py_div a b = Ret (a / b).
Proof.
  intro H. unfold py_div. rewrite H. reflexivity.
Qed.

(** ** The fundamentals engine *)

Section FundamentalsFacts.

Variable rt : Runtime.

Import Fundamentals.

Lemma state_fold (metric_name : string) (snapshot : Snapshot) (states_def : dict StateRule) :
  forall acc,
    fst (fold_left (state_step rt metric_name snapshot) states_def acc)
    = (fst acc ++ matched_midpoints rt states_def snapshot)%list.
Proof.
  unfold matched_midpoints.
  induction states_def as [|[state_name st] sts IH]; intro acc; cbn [fold_left filter map].
  - rewrite app_nil_r. reflexivity.
  - rewrite IH. unfold state_step, state_matches. cbn [snd].
    destruct (condition st) as [c|]; [|reflexivity].
    destruct (is_empty c); cbn [negb andb]; [reflexivity|].
    destruct (_match_condition rt snapshot c); cbn [fst map]; [|reflexivity].
    rewrite <- app_assoc. reflexivity.
Qed.

(** [_score_metric_states] returns the mean of the matched midpoints,
    or no score; its division never raises. *)
Lemma _score_metric_states_spec (metric_name : string) (states_def : dict StateRule)
    (snapshot : Snapshot) :
  exists names,
    _score_metric_states rt metric_name states_def snapshot
    = Ret (spec_metric_score rt states_def snapshot, names).
Proof.
  unfold _score_metric_states, spec_metric_score.
  pose proof (state_fold metric_name snapshot states_def ([], [])) as H.
  destruct (fold_left (state_step rt metric_name snapshot) states_def ([], []))
    as [scores names].
  cbn in H. subst scores.
  destruct (matched_midpoints rt states_def snapshot) as [|m ms].
  - eauto.
  - rewrite py_div_nonzero by apply length_nonzero. cbn. eauto.
Qed.

Lemma no_match_no_midpoints (states_def : dict StateRule) (snapshot : Snapshot) :
  (forall item, List.In item states_def -> state_matches rt snapshot (snd item) = false) ->
  matched_midpoints rt states_def snapshot = [].
Proof.
  intro H. unfold matched_midpoints.
  induction states_def as [|item sts IH]; [reflexivity|].
  cbn [filter]. rewrite (H item (or_introl eq_refl)).
  apply IH. intros i Hi. apply H. right. exact Hi.
Qed.

(** A Metric without the timeframe, or without a matching State in it,
    leaves the accumulators of the timeframe loop as they are. *)
Lemma metric_step_skip (gs : dict GroupInfo) (timeframe : string) (snapshot : Snapshot)
    (acc : Acc) (metric_name : string) (m : MetricRule) :
  (forall tf, dict_get timeframe (timeframes m) = Some tf ->
              spec_metric_score rt (states tf) snapshot = None) ->
  metric_step rt gs timeframe snapshot acc (metric_name, m) = Ret acc.
Proof.
  intro H. unfold metric_step.
  destruct (dict_get timeframe (timeframes m)) as [tf|]; [|reflexivity].
  destruct (_score_metric_states_spec metric_name (states tf) snapshot) as [names ->].
  rewrite (H tf eq_refl). reflexivity.
Qed.




End FundamentalsFacts.

(** ** The technical component *)

Section TechnicalFacts.

Variable rt : Runtime.
Variable indicator_defs : dict ScoringSystem.IndicatorCfg.

Import ScoringSystem.

(** [_score_indicator_timeframe] never raises. *)
Lemma _score_indicator_timeframe_total (cfg : IndicatorCfg) (symbol_state : SymbolState)
    (snapshot : option IndicatorSnapshot) (timeframe : string) :
  exists r, _score_indicator_timeframe rt cfg symbol_state snapshot timeframe = Ret r.
Proof.
  unfold _score_indicator_timeframe.
  destruct snapshot as [snap|]; [|eauto].
  destruct (dict_get timeframe (indicator_timeframes cfg)) as [[sts rules]|]; [|eauto].
  destruct sts as [sts|]; [|destruct rules; [|eauto]];
    cbn [tf_states get_default];
    match goal with
    | |- context [fold_left ?f ?l ?a] => destruct (fold_left f l a) as [raw matched]
    end;
    (destruct raw as [|q raw];
     [eauto | rewrite py_div_nonzero by apply length_nonzero; cbn; eauto]).
Qed.

Lemma technical_state_fold_no_match (snap : IndicatorSnapshot) (symbol_state : SymbolState)
    (sts : dict StateCfg) :
  (forall item, List.In item sts ->
     _evaluate_condition rt (get_default (state_condition (snd item)) "")
       snap symbol_state = false) ->
  forall acc, fold_left (state_step rt snap symbol_state) sts acc = acc.
Proof.
  induction sts as [|[state_name st] sts IH]; intros H acc; cbn [fold_left].
  - reflexivity.
  - pose proof (H (state_name, st) (or_introl eq_refl)) as Hs. cbn [snd] in Hs.
    unfold state_step at 2. rewrite Hs.
    apply IH. intros i Hi. apply H. right. exact Hi.
Qed.

(** An indicator whose timeframe is configured and has no matching
    State scores [0.0], not [None], with the reason "no_state_matched". *)
Lemma technical_no_match_scores_zero (cfg : IndicatorCfg) (symbol_state : SymbolState)
    (snap : IndicatorSnapshot) (timeframe : string) (sts : dict StateCfg)
    (rules : option (list string)) :
  dict_get timeframe (indicator_timeframes cfg)
    = Some {| tf_states := Some sts; tf_context_rules := rules |} ->
  (forall item, List.In item sts ->
     _evaluate_condition rt (get_default (state_condition (snd item)) "")
       snap symbol_state = false) ->
  _score_indicator_timeframe rt cfg symbol_state (Some snap) timeframe
  = Ret (Some 0,
         {| detail_matched_states := Some [];
            detail_reason := Some "no_state_matched";
            detail_base_score := None |}).
Proof.
  intros Hcfg Hno. unfold _score_indicator_timeframe. rewrite Hcfg.
  cbn [tf_states get_default].
  rewrite (technical_state_fold_no_match snap symbol_state sts Hno). reflexivity.
Qed.

(** Every indicator adds [abs(base_impact)] to the denominator and
    [combined * base_impact] to the numerator, whether or not it
    produced a score. *)
Lemma indicator_step_spec (symbol_state : SymbolState) (acc : Acc)
    (item : string * IndicatorCfg) :
  exists acc' mi ma,
    indicator_step rt symbol_state acc item = Ret acc'
    /\ _score_indicator_timeframe rt (snd item) symbol_state
         (indicators_minor symbol_state) "MINOR" = Ret mi
    /\ _score_indicator_timeframe rt (snd item) symbol_state
         (indicators_major symbol_state) "MAJOR" = Ret ma
    /\ acc_total_score acc'
       = acc_total_score acc
         + combine_timeframes (fst mi) (fst ma) * get_default (base_impact (snd item)) 5
    /\ acc_total_weight acc'
       = acc_total_weight acc + Qabs (get_default (base_impact (snd item)) 5).
Proof.
  destruct item as [ind_name cfg]. unfold indicator_step. cbn [snd].
  destruct (_score_indicator_timeframe_total cfg symbol_state
              (indicators_minor symbol_state) "MINOR") as [[smi dmi] ->].
  destruct (_score_indicator_timeframe_total cfg symbol_state
              (indicators_major symbol_state) "MAJOR") as [[sma dma] ->].
  cbn. eauto 10.
Qed.



End TechnicalFacts.

(** ** The options flow engine *)

Lemma options_flow_fold (rt : Runtime) (gw : dict Q) (names : dict value)
    (sts : dict StateRule) :
  forall acc,
    OptionsFlow.acc_score (fold_left (OptionsFlow.step rt gw names) sts acc)
    = fold_left Qplus (OptionsFlow.weighted_midpoints rt gw names sts)
        (OptionsFlow.acc_score acc).
Proof.
  unfold OptionsFlow.weighted_midpoints.
  induction sts as [|[state_name st] sts IH]; intro acc; cbn [fold_left filter].
  - reflexivity.
  - rewrite IH. unfold OptionsFlow.step. cbn [snd].
    destruct (OptionsFlow._safe_eval rt (get_default (condition st) "") names);
      reflexivity.
Qed.

(** The timeframe score of the options flow engine is the sum of the
    weighted midpoints of the matching States; the final score is that
    sum times the engine weight. *)
Lemma options_flow_score_is_a_sum (rt : Runtime) (e : OptionsFlow.Engine)
    (snapshot : Snapshot) :
  let r := OptionsFlow.score rt e snapshot in
  OptionsFlow.minor_score r
  = Qsum (OptionsFlow.weighted_midpoints rt
            (OptionsFlow.group_weights (OptionsFlow.rulebook e))
            (OptionsFlow.allowed_names snapshot)
            (OptionsFlow.minor_states (OptionsFlow.rulebook e)))
  /\ OptionsFlow.final_options_flow_score r
     = OptionsFlow.minor_score r * OptionsFlow.weight e.
Proof.
  cbn. split; [|reflexivity]. apply options_flow_fold.
Qed.

(** ** Claims on the rule-table aggregation *)

(** C1 (amended).  In the fundamentals engine a Metric for which no
    State's condition matches is excluded from its Timeframe's weighted
    sum: removing it from the rule table leaves the whole result of
    [_score_timeframe] unchanged.  The technical component instead
    scores an indicator whose configured timeframe has no matching
    State as 0.0, and every indicator adds [abs(base_impact)] to the
    denominator. *)
Theorem non_matching_metric_is_excluded (rt : Runtime) :
  (forall (ms1 ms2 : dict MetricRule) (metric_name : string) (m : MetricRule)
          (gs : dict GroupInfo) (w : Q) (timeframe : string) (snapshot : Snapshot),
      (forall tf, dict_get timeframe (timeframes m) = Some tf ->
                  forall item, List.In item (states tf) ->
                               Fundamentals.state_matches rt snapshot (snd item) = false) ->
      Fundamentals._score_timeframe rt
        {| Fundamentals.rulebook :=
             {| Fundamentals.metrics := (ms1 ++ (metric_name, m) :: ms2)%list;
                Fundamentals.groups := gs |};
           Fundamentals.weight := w |} timeframe snapshot
      = Fundamentals._score_timeframe rt
          {| Fundamentals.rulebook :=
               {| Fundamentals.metrics := (ms1 ++ ms2)%list; Fundamentals.groups := gs |};
             Fundamentals.weight := w |} timeframe snapshot)
  /\ (forall (cfg : ScoringSystem.IndicatorCfg) (symbol_state : ScoringSystem.SymbolState)
             (snap : ScoringSystem.IndicatorSnapshot) (timeframe : string)
             (sts : dict ScoringSystem.StateCfg) (rules : option (list string)),
         dict_get timeframe (ScoringSystem.indicator_timeframes cfg)
           = Some {| ScoringSystem.tf_states := Some sts;
                     ScoringSystem.tf_context_rules := rules |} ->
         (forall item, List.In item sts ->
            ScoringSystem._evaluate_condition rt
              (get_default (ScoringSystem.state_condition (snd item)) "")
              snap symbol_state = false) ->
         exists detail,
           ScoringSystem._score_indicator_timeframe rt cfg symbol_state (Some snap) timeframe
           = Ret (Some 0, detail)
           /\ ScoringSystem.detail_reason detail = Some "no_state_matched")
  /\ (forall (symbol_state : ScoringSystem.SymbolState) (acc : ScoringSystem.Acc)
             (item : string * ScoringSystem.IndicatorCfg),
         exists acc',
           ScoringSystem.indicator_step rt symbol_state acc item = Ret acc'
           /\ ScoringSystem.acc_total_weight acc'
              = ScoringSystem.acc_total_weight acc
                + Qabs (get_default (ScoringSystem.base_impact (snd item)) 5)).
Proof.
  split; [|split].
  - intros ms1 ms2 metric_name m gs w timeframe snapshot Hno.
    unfold Fundamentals._score_timeframe.
    cbn [Fundamentals.rulebook Fundamentals.metrics Fundamentals.groups].
    rewrite !for_each_app. cbn [for_each].
    match goal with
    | |- context [for_each ?body ms1 ?a] => destruct (for_each body ms1 a) as [acc|err]
    end; [|reflexivity].
    cbn [bind]. rewrite metric_step_skip; [reflexivity|].
    intros tf Htf. unfold Fundamentals.spec_metric_score.
    rewrite no_match_no_midpoints; [reflexivity|]. exact (Hno tf Htf).
  - intros cfg symbol_state snap timeframe sts rules Hcfg Hno.
    eexists. split.
    + apply (technical_no_match_scores_zero rt cfg symbol_state snap timeframe sts rules
               Hcfg Hno).
    + reflexivity.
  - intros symbol_state acc item.
    destruct (indicator_step_spec rt symbol_state acc item)
      as [acc' [mi [ma [H [_ [_ [_ Hw]]]]]]].
    exists acc'. split; assumption.
Qed.

Lemma non_matching_metric_is_excluded_witness :
  ((forall tf, dict_get "MAJOR" (timeframes Examples.pe_expensive) = Some tf ->
               forall item, List.In item (states tf) ->
                 Fundamentals.state_matches Examples.rt0 Examples.pe_snapshot (snd item)
                 = false)
   /\ Fundamentals._score_timeframe Examples.rt0
        {| Fundamentals.rulebook :=
             {| Fundamentals.metrics :=
                  ([("PE", Examples.pe_cheap)] ++ ("PE_HIGH", Examples.pe_expensive) :: [])%list;
                Fundamentals.groups := [] |};
           Fundamentals.weight := 75 # 100 |} "MAJOR" Examples.pe_snapshot
      = Fundamentals._score_timeframe Examples.rt0
          {| Fundamentals.rulebook :=
               {| Fundamentals.metrics := ([("PE", Examples.pe_cheap)] ++ [])%list;
                  Fundamentals.groups := [] |};
             Fundamentals.weight := 75 # 100 |} "MAJOR" Examples.pe_snapshot)
  /\ (forall item,
         List.In item
           [("LOW", {| ScoringSystem.state_condition := Some "rsi <= 30";
                       ScoringSystem.state_score_range :=
                         Some (ScoringSystem.RangePair (- (6)) (- (4))) |})] ->
         ScoringSystem._evaluate_condition Examples.rt0
           (get_default (ScoringSystem.state_condition (snd item)) "")
           (Examples.rsi_snapshot "MINOR" 75) Examples.minor_only = false)
  /\ exists detail,
       ScoringSystem._score_indicator_timeframe Examples.rt0 Examples.rsi_low
         Examples.minor_only (Some (Examples.rsi_snapshot "MINOR" 75)) "MINOR"
       = Ret (Some 0, detail)
       /\ ScoringSystem.detail_reason detail = Some "no_state_matched".
Proof.
  assert (H : forall tf, dict_get "MAJOR" (timeframes Examples.pe_expensive) = Some tf ->
              forall item, List.In item (states tf) ->
                Fundamentals.state_matches Examples.rt0 Examples.pe_snapshot (snd item)
                = false).
  { intros tf Htf. cbn in Htf. injection Htf as <-.
    intros item [<-|[]]. vm_compute. reflexivity. }
  assert (Ht : forall item,
             List.In item
               [("LOW", {| ScoringSystem.state_condition := Some "rsi <= 30";
                           ScoringSystem.state_score_range :=
                             Some (ScoringSystem.RangePair (- (6)) (- (4))) |})] ->
             ScoringSystem._evaluate_condition Examples.rt0
               (get_default (ScoringSystem.state_condition (snd item)) "")
               (Examples.rsi_snapshot "MINOR" 75) Examples.minor_only = false).
  { intros item [<-|[]]. vm_compute. reflexivity. }
  split; [split; [exact H|]|split; [exact Ht|]].
  - apply (proj1 (non_matching_metric_is_excluded Examples.rt0)). exact H.
  - apply (proj1 (proj2 (non_matching_metric_is_excluded Examples.rt0))
             Examples.rsi_low Examples.minor_only (Examples.rsi_snapshot "MINOR" 75)
             "MINOR" _ None eq_refl Ht).
Defined.

(** C1 (counterexample).  In the technical component the indicator
    [RSI_LOW] has no matching State for [rsi = 75]; with it the raw
    score is 1.5, without it 3. *)
Lemma technical_non_match_counts_as_zero :
  exists v_with d_with v_without d_without detail,
    ScoringSystem._score_indicator_timeframe Examples.rt0 Examples.rsi_low
      Examples.minor_only (ScoringSystem.indicators_minor Examples.minor_only) "MINOR"
    = Ret (Some 0, detail)
    /\ ScoringSystem.detail_reason detail = Some "no_state_matched"
    /\ ScoringSystem.technical_compute_raw_score Examples.rt0
         [("RSI_HIGH", Examples.rsi_high); ("RSI_LOW", Examples.rsi_low)]
         Examples.minor_only (Examples.universe_of 0) = Ret (v_with, d_with)
    /\ ScoringSystem.technical_compute_raw_score Examples.rt0
         [("RSI_HIGH", Examples.rsi_high)]
         Examples.minor_only (Examples.universe_of 0) = Ret (v_without, d_without)
    /\ v_with == 3 # 2
    /\ v_without == 3
    /\ ~ v_with == v_without.
Proof.
  do 5 eexists.
  split; [vm_compute; reflexivity|].
  split; [reflexivity|].
  split; [vm_compute; reflexivity|].
  split; [vm_compute; reflexivity|].
  split; [reflexivity|].
  split; [reflexivity|].
  intro H. vm_compute in H. discriminate H.
Qed.

(** C5 (amended).  In the fundamentals engine every State whose
    condition is present, non-empty and true contributes the midpoint
    [(low + high) / 2] of its score range, and the Metric's score is the
    arithmetic mean of the matched midpoints (no score when none
    matches): two matched midpoints [a] and [b] give [(a + b) / 2], so 4
    and 6 give 5.  The options flow engine has no Metric level: each
    matching State contributes its midpoint times the base weight of its
    group, and the contributions are summed. *)
Theorem metric_score_is_mean_of_midpoints (rt : Runtime) :
  (forall (metric_name : string) (states_def : dict StateRule) (snapshot : Snapshot),
      exists names,
        Fundamentals._score_metric_states rt metric_name states_def snapshot
        = Ret (Fundamentals.spec_metric_score rt states_def snapshot, names))
  /\ (forall (states_def : dict StateRule) (snapshot : Snapshot) (a b : Q),
         Fundamentals.matched_midpoints rt states_def snapshot = [a; b] ->
         exists sc,
           Fundamentals.spec_metric_score rt states_def snapshot = Some sc
           /\ sc == (a + b) / 2)
  /\ (forall (e : OptionsFlow.Engine) (snapshot : Snapshot),
         OptionsFlow.minor_score (OptionsFlow.score rt e snapshot)
         = Qsum (OptionsFlow.weighted_midpoints rt
                   (OptionsFlow.group_weights (OptionsFlow.rulebook e))
                   (OptionsFlow.allowed_names snapshot)
                   (OptionsFlow.minor_states (OptionsFlow.rulebook e)))).
Proof.
  split; [|split].
  - intros. apply _score_metric_states_spec.
  - intros states_def snapshot a b H. unfold Fundamentals.spec_metric_score.
    rewrite H. eexists. split; [reflexivity|].
    unfold Qsum. cbn [fold_left length]. 
    change (inject_Z (Z.of_nat 2)) with 2. field.
  - intros e snapshot. apply (options_flow_score_is_a_sum rt e snapshot).
Qed.

Lemma metric_score_is_mean_of_midpoints_witness :
  Fundamentals.matched_midpoints Examples.rt0 Examples.overlapping_states
    Examples.pe_snapshot = [(3 + 5) / 2; (5 + 7) / 2]
  /\ exists sc,
       Fundamentals.spec_metric_score Examples.rt0 Examples.overlapping_states
         Examples.pe_snapshot = Some sc
       /\ sc == ((3 + 5) / 2 + (5 + 7) / 2) / 2.
Proof.
  assert (H : Fundamentals.matched_midpoints Examples.rt0 Examples.overlapping_states
                Examples.pe_snapshot = [(3 + 5) / 2; (5 + 7) / 2]).
  { vm_compute. reflexivity. }
  split; [exact H|].
  apply (proj1 (proj2 (metric_score_is_mean_of_midpoints Examples.rt0))). exact H.
Defined.

(** C5 (counterexample).  In the options flow engine two matching States
    with midpoints 4 and 6 give the score 10, their sum, not 5. *)
Lemma options_flow_sums_midpoints :
  let r := OptionsFlow.score Examples.rt0
             (OptionsFlow.init (Examples.options_rulebook Examples.overlapping_states))
             Examples.pe_snapshot in
  OptionsFlow.matched_states r = ["CHEAP"; "FAIR_VALUE"]
  /\ OptionsFlow.minor_score r == 4 + 6
  /\ ~ OptionsFlow.minor_score r == (4 + 6) / 2.
Proof.
  cbv zeta. split; [vm_compute; reflexivity|].
  split; [vm_compute; reflexivity|].
  intro H. vm_compute in H. discriminate H.
Qed.



(** ** The matcher of the price action engine *)

Lemma length_lower (s : string) : String.length (lower s) = String.length s.
Proof.
  induction s as [|c s IH]; cbn; [reflexivity | rewrite IH; reflexivity].
Qed.

Lemma length_string_rev_onto (s acc : string) :
  String.length (string_rev_onto s acc) = (String.length s + String.length acc)%nat.
Proof.
  revert acc. induction s as [|c s IH]; intro acc; cbn; [reflexivity|].
  rewrite IH. cbn. lia.
Qed.

Lemma length_string_rev (s : string) : String.length (string_rev s) = String.length s.
Proof.
  unfold string_rev. rewrite length_string_rev_onto. cbn. lia.
Qed.

Lemma length_lstrip (s : string) : (String.length (lstrip s) <= String.length s)%nat.
Proof.
  induction s as [|c s IH]; cbn; [lia|].
  destruct (is_space c); cbn; lia.
Qed.

Lemma length_strip (s : string) : (String.length (strip s) <= String.length s)%nat.
Proof.
  unfold strip. rewrite length_string_rev.
  pose proof (length_lstrip (string_rev (lstrip s))) as H1.
  rewrite length_string_rev in H1. pose proof (length_lstrip s). lia.
Qed.

Lemma prefix_length (a b : string) :
  String.prefix a b = true -> (String.length a <= String.length b)%nat.
Proof.
  revert b. induction a as [|c a IH]; intros b H; cbn; [lia|].
  destruct b as [|d b]; simpl in H; [discriminate H|].
  destruct (ascii_dec c d) as [_|_]; [|discriminate H]. apply IH in H. cbn. lia.
Qed.

Lemma forallb_ext_In {A : Type} (f g : A -> bool) (l : list A) :
  (forall x, List.In x l -> f x = g x) -> forallb f l = forallb g l.
Proof.
  induction l as [|x l IH]; intro H; cbn; [reflexivity|].
  rewrite (H x (or_introl eq_refl)), IH; [reflexivity|].
  intros y Hy. apply H. right. exact Hy.
Qed.

Lemma existsb_ext_In {A : Type} (f g : A -> bool) (l : list A) :
  (forall x, List.In x l -> f x = g x) -> existsb f l = existsb g l.
Proof.
  induction l as [|x l IH]; intro H; cbn; [reflexivity|].
  rewrite (H x (or_introl eq_refl)), IH; [reflexivity|].
  intros y Hy. apply H. right. exact Hy.
Qed.

(** No part of a split is longer than what was left to scan. *)
Lemma split_go_length (sep s : string) :
  forall skip cur part,
    (skip <= String.length s)%nat ->
    List.In part (split_go sep s skip cur) ->
    (String.length part + skip <= String.length cur + String.length s)%nat.
Proof.
  induction s as [|c s IH]; intros skip cur part Hskip Hin.
  - cbn in *. destruct Hin as [<-|[]]. rewrite length_string_rev. lia.
  - cbn [split_go] in Hin. cbn [String.length] in *. destruct skip as [|k].
    + destruct (String.prefix sep (String c s)) eqn:E.
      * apply prefix_length in E. cbn [String.length] in E.
        destruct Hin as [<-|Hin]; [rewrite length_string_rev; lia|].
        apply IH in Hin; cbn [String.length] in *; lia.
      * apply IH in Hin; cbn [String.length] in *; lia.
    + apply IH in Hin; lia.
Qed.

(** When the separator occurs, every part is shorter than the string by
    at least the length of the separator. *)
Lemma split_go_shorter (sep s : string) :
  forall cur part,
    contains sep s = true ->
    List.In part (split_go sep s 0 cur) ->
    (String.length part + String.length sep <= String.length cur + String.length s)%nat.
Proof.
  induction s as [|c s IH]; intros cur part Hc Hin.
  - cbn [contains] in Hc. destruct (String.prefix sep EmptyString) eqn:E; [|discriminate].
    apply prefix_length in E. cbn in *. destruct Hin as [<-|[]].
    rewrite length_string_rev. lia.
  - cbn [split_go] in Hin. cbn [contains] in Hc. cbn [String.length].
    destruct (String.prefix sep (String c s)) eqn:E.
    + apply prefix_length in E. cbn [String.length] in E.
      destruct Hin as [<-|Hin]; [rewrite length_string_rev; lia|].
      apply split_go_length in Hin; cbn [String.length] in *; lia.
    + apply (IH _ _ Hc) in Hin. cbn [String.length] in Hin. lia.
Qed.

Lemma split_part_shorter (sep s part : string) :
  contains sep s = true -> String.length sep <> O ->
  List.In part (split sep s) ->
  (String.length (strip part) < String.length s)%nat.
Proof.
  intros Hc Hsep Hin. unfold split in Hin.
  apply (split_go_shorter sep s EmptyString part Hc) in Hin. cbn in Hin.
  pose proof (length_strip part). lia.
Qed.

(** The fuel that [_match_state] starts with is enough: more fuel gives
    the same answer. *)
Lemma match_state_fuel_enough (pattern_data : Snapshot) (fuel : nat) :
  forall condition fuel',
    (String.length condition <= fuel)%nat ->
    (String.length condition <= fuel')%nat ->
    PriceAction.match_state_fuel fuel pattern_data condition
    = PriceAction.match_state_fuel fuel' pattern_data condition.
Proof.
  induction fuel as [|fuel IH]; intros condition fuel' H H'.
  - destruct condition; [|cbn in H; lia]. destruct fuel'; reflexivity.
  - destruct fuel' as [|fuel'].
    + destruct condition; [reflexivity | cbn in H'; lia].
    + cbn [PriceAction.match_state_fuel].
      destruct (PriceAction.match_keywords pattern_data (lower condition)); [reflexivity|].
      destruct (contains " and " (lower condition)) eqn:Eand.
      * f_equal. apply forallb_ext_In. intros part Hin. f_equal.
        pose proof (split_part_shorter " and " (lower condition) part Eand
                      ltac:(discriminate) Hin) as Hlt.
        rewrite length_lower in Hlt. apply IH; lia.
      * destruct (contains " or " (lower condition)) eqn:Eor; [|reflexivity].
        f_equal. apply existsb_ext_In. intros part Hin. f_equal.
        pose proof (split_part_shorter " or " (lower condition) part Eor
                      ltac:(discriminate) Hin) as Hlt.
        rewrite length_lower in Hlt. apply IH; lia.
Qed.

(** ** Claims on the blend of the two timeframes *)

Lemma price_action_score_blend (e : PriceAction.Engine) (pattern_data : Snapshot)
    (r : PriceAction.Result) :
  PriceAction.score e pattern_data = Ret r ->
  PriceAction.final_price_action_score r
  = (PriceAction.minor_score r + PriceAction.major_score r) / 2 * PriceAction.weight e.
Proof.
  unfold PriceAction.score.
  destruct (PriceAction._score_timeframe e "MINOR" pattern_data) as [[mi smi]|];
    [|discriminate].
  destruct (PriceAction._score_timeframe e "MAJOR" pattern_data) as [[ma sma]|];
    [|discriminate].
  cbn. intro H. injection H as <-. reflexivity.
Qed.

(** C6 (amended).  [_combine_minor_major] of the fundamentals engine
    returns [0.7 * major + 0.3 * minor] when both scores exceed 1e-6 in
    absolute value, the one score that does when only one does, and 0
    when neither does.  The technical component blends each indicator as
    [0.6 * minor + 0.4 * major], where a timeframe without a score adds
    nothing, so a single available score is multiplied by its blend
    weight.  The price action engine takes [(minor + major) / 2] in
    every case. *)
Theorem timeframe_blend (minor major : Q) :
  (1 # 1000000 < Qabs minor -> 1 # 1000000 < Qabs major ->
     Fundamentals._combine_minor_major minor major
     = major * (7 # 10) + minor * (3 # 10))
  /\ (Qabs minor <= 1 # 1000000 -> 1 # 1000000 < Qabs major ->
        Fundamentals._combine_minor_major minor major = major)
  /\ (1 # 1000000 < Qabs minor -> Qabs major <= 1 # 1000000 ->
        Fundamentals._combine_minor_major minor major = minor)
  /\ (Qabs minor <= 1 # 1000000 -> Qabs major <= 1 # 1000000 ->
        Fundamentals._combine_minor_major minor major = 0)
  /\ ScoringSystem.combine_timeframes (Some minor) (Some major)
     == (6 # 10) * minor + (4 # 10) * major
  /\ ScoringSystem.combine_timeframes (Some minor) None == (6 # 10) * minor
  /\ ScoringSystem.combine_timeframes None (Some major) == (4 # 10) * major
  /\ ScoringSystem.combine_timeframes None None == 0
  /\ (forall e pattern_data r,
        PriceAction.score e pattern_data = Ret r ->
        PriceAction.final_price_action_score r
        = (PriceAction.minor_score r + PriceAction.major_score r) / 2
          * PriceAction.weight e).
Proof.
  unfold Fundamentals._combine_minor_major, ScoringSystem.combine_timeframes.
  repeat split.
  - intros H1 H2. apply Qltb_iff in H1, H2. rewrite H1, H2. reflexivity.
  - intros H1 H2. apply Qltb_false_iff in H1. apply Qltb_iff in H2.
    rewrite H1, H2. reflexivity.
  - intros H1 H2. apply Qltb_iff in H1. apply Qltb_false_iff in H2.
    rewrite H1, H2. reflexivity.
  - intros H1 H2. apply Qltb_false_iff in H1, H2. rewrite H1, H2. reflexivity.
  - ring.
  - ring.
  - ring.
  - intros e pattern_data r. apply price_action_score_blend.
Qed.

Lemma timeframe_blend_witness :
  (1 # 1000000 < Qabs 2 /\ 1 # 1000000 < Qabs 6
   /\ Fundamentals._combine_minor_major 2 6 = 6 * (7 # 10) + 2 * (3 # 10))
  /\ (Qabs 0 <= 1 # 1000000
      /\ Fundamentals._combine_minor_major 0 6 = 6
      /\ Fundamentals._combine_minor_major 2 0 = 2
      /\ Fundamentals._combine_minor_major 0 0 = 0)
  /\ exists r,
       PriceAction.score (PriceAction.init Examples.structure_rulebook) Examples.uptrend
       = Ret r
       /\ PriceAction.final_price_action_score r
          = (PriceAction.minor_score r + PriceAction.major_score r) / 2
            * PriceAction.weight (PriceAction.init Examples.structure_rulebook).
Proof.
  assert (H2 : 1 # 1000000 < Qabs 2) by reflexivity.
  assert (H6 : 1 # 1000000 < Qabs 6) by reflexivity.
  assert (H0 : Qabs 0 <= 1 # 1000000) by discriminate.
  split; [|split].
  - split; [exact H2|]. split; [exact H6|].
    apply (proj1 (timeframe_blend 2 6)); assumption.
  - split; [exact H0|]. split; [|split].
    + apply (proj1 (proj2 (timeframe_blend 0 6))); assumption.
    + apply (proj1 (proj2 (proj2 (timeframe_blend 2 0)))); assumption.
    + apply (proj1 (proj2 (proj2 (proj2 (timeframe_blend 0 0))))); assumption.
  - eexists.
    assert (Hr : PriceAction.score (PriceAction.init Examples.structure_rulebook)
                   Examples.uptrend
                 = Ret {| PriceAction.minor_score := _;
                          PriceAction.major_score := _;
                          PriceAction.final_price_action_score := _;
                          PriceAction.matched_states := _ |})
      by (vm_compute; reflexivity).
    split; [exact Hr|].
    exact (proj2 (proj2 (proj2 (proj2 (proj2 (proj2 (proj2 (proj2
             (timeframe_blend 0 0)))))))) _ _ _ Hr).
Defined.

(** C6 (counterexample).  In the technical component, with a
    short-horizon snapshot only, the indicator's one available score 5
    is combined to 3: it is multiplied by its blend weight 0.6, not used
    directly.  In the price action engine, with a short-horizon score 5
    and a long-horizon score 0, the final score is 2.5 times the weight
    1.2: the one non-zero score is averaged with zero. *)
Lemma single_timeframe_score_is_not_used_directly :
  (exists v breakdown minor_score,
      ScoringSystem.technical_compute_raw_score Examples.rt0
        [("RSI_HIGH", Examples.rsi_high)] Examples.minor_only (Examples.universe_of 0)
      = Ret (v, ScoringSystem.TechnicalDetails [breakdown] v)
      /\ ScoringSystem.breakdown_minor_score breakdown = Some minor_score
      /\ minor_score == 5
      /\ ScoringSystem.breakdown_major_score breakdown = None
      /\ ScoringSystem.combined breakdown == 3
      /\ ~ ScoringSystem.combined breakdown == minor_score)
  /\ exists r,
       PriceAction.score (PriceAction.init Examples.structure_rulebook) Examples.uptrend
       = Ret r
       /\ PriceAction.minor_score r == 5
       /\ PriceAction.major_score r == 0
       /\ PriceAction.final_price_action_score r == 5 / 2 * (12 # 10)
       /\ ~ PriceAction.final_price_action_score r == 5 * (12 # 10).
Proof.
  split.
  - do 3 eexists.
    split; [vm_compute; reflexivity|].
    split; [reflexivity|].
    split; [reflexivity|].
    split; [reflexivity|].
    split; [reflexivity|].
    intro H. vm_compute in H. discriminate H.
  - eexists. split; [vm_compute; reflexivity|].
    split; [reflexivity|]. split; [reflexivity|]. split; [reflexivity|].
    intro H. vm_compute in H. discriminate H.
Qed.

(** ** Bounds on means *)

Lemma dict_get_In {V : Type} (k : string) (d : dict V) (v : V) :
  dict_get k d = Some v -> exists k', List.In (k', v) d.
Proof.
  induction d as [|[k' v'] d IH]; cbn; [discriminate|].
  destruct (String.eqb k k').
  - intro H. injection H as ->. exists k'. left. reflexivity.
  - intro H. destruct (IH H) as [k'' Hin]. exists k''. right. exact Hin.
Qed.

Lemma count_succ (n : nat) : inject_Z (Z.of_nat (S n)) == inject_Z (Z.of_nat n) + 1.
Proof.
  rewrite Nat2Z.inj_succ. unfold Z.succ. rewrite inject_Z_plus. reflexivity.
Qed.

Lemma count_pos (n : nat) : 0 < inject_Z (Z.of_nat (S n)).
Proof.
  rewrite count_succ.
  assert (0 <= inject_Z (Z.of_nat n)).
  { change 0 with (inject_Z 0). rewrite <- Zle_Qle. apply Nat2Z.is_nonneg. }
  lra.
Qed.

Lemma sum_bounds (lo hi : Q) (l : list Q) :
  Forall (fun x => lo <= x <= hi) l ->
  forall a,
    a + lo * inject_Z (Z.of_nat (length l)) <= fold_left Qplus l a
    /\ fold_left Qplus l a <= a + hi * inject_Z (Z.of_nat (length l)).
Proof.
  induction 1 as [|x l Hx _ IH]; intro a; cbn [fold_left length].
  - change (inject_Z (Z.of_nat 0)) with 0. split; lra.
  - destruct (IH (a + x)) as [H1 H2]. rewrite count_succ.
    set (n := inject_Z (Z.of_nat (length l))) in *.
    setoid_replace (lo * (n + 1)) with (lo * n + lo) by ring.
    setoid_replace (hi * (n + 1)) with (hi * n + hi) by ring.
    set (p := lo * n) in *. set (q := hi * n) in *. split; lra.
Qed.

(** The mean of a non-empty list lies between its bounds. *)
Lemma mean_bounds (lo hi : Q) (x : Q) (l : list Q) :
  Forall (fun y => lo <= y <= hi) (x :: l) ->
  lo <= Qsum (x :: l) / inject_Z (Z.of_nat (length (x :: l))) <= hi.
Proof.
  intro H. destruct (sum_bounds lo hi (x :: l) H 0) as [H1 H2].
  pose proof (count_pos (length l)) as Hn. cbn [length] in *.
  unfold Qsum. split.
  - apply Qle_shift_div_l; [exact Hn|]. lra.
  - apply Qle_shift_div_r; [exact Hn|]. lra.
Qed.

Lemma weighted_sum_bounds (lo hi : Q) (cs : list (Q * Q)) :
  Forall (fun c => lo <= fst c <= hi /\ 0 < snd c) cs ->
  forall s w,
    lo * w <= s <= hi * w -> 0 <= w ->
    let s' := fold_left Qplus (map (fun c => fst c * snd c) cs) s in
    let w' := fold_left Qplus (map snd cs) w in
    lo * w' <= s' <= hi * w' /\ 0 <= w'.
Proof.
  induction 1 as [|[sc wt] cs [Hsc Hwt] _ IH]; intros s w Hs Hw; cbn [map fold_left].
  - split; assumption.
  - cbn [fst snd] in *. apply IH.
    + assert (lo * wt <= sc * wt) by (apply Qmult_le_compat_r; lra).
      assert (sc * wt <= hi * wt) by (apply Qmult_le_compat_r; lra).
      split; lra.
    + lra.
Qed.

(** The weighted mean of the specification lies inside a scale that
    contains 0 when the scores do and the weights are positive. *)
Lemma spec_timeframe_score_bounds (lo hi : Q) (cs : list (Q * Q)) :
  lo <= 0 <= hi ->
  Forall (fun c => lo <= fst c <= hi /\ 0 < snd c) cs ->
  lo <= Fundamentals.spec_timeframe_score cs <= hi.
Proof.
  intros H0 Hcs. unfold Fundamentals.spec_timeframe_score, Qsum.
  destruct (weighted_sum_bounds lo hi cs Hcs 0 0) as [[H1 H2] H3]; [lra | lra |].
  cbv zeta in *.
  destruct (Qeq_bool (fold_left Qplus (map snd cs) 0) 0) eqn:E; [exact H0|].
  assert (Hpos : 0 < fold_left Qplus (map snd cs) 0).
  { apply Qle_lteq in H3. destruct H3 as [H3|H3]; [exact H3|].
    symmetry in H3. apply Qeq_bool_iff in H3. congruence. }
  split.
  - apply Qle_shift_div_l; [exact Hpos|]. exact H1.
  - apply Qle_shift_div_r; [exact Hpos|]. exact H2.
Qed.

Section FundamentalsBounds.

Variable rt : Runtime.
Variables lo hi : Q.

Import Fundamentals.

Lemma midpoint_in_scale (r : Q * Q) :
  range_in_scale lo hi r -> lo <= midpoint r <= hi.
Proof.
  unfold range_in_scale, midpoint. intros [[H1 H2] [H3 H4]]. split.
  - apply Qle_shift_div_l; lra.
  - apply Qle_shift_div_r; lra.
Qed.






End FundamentalsBounds.

(** ** Claims on the department scores *)







(** ** The master engines *)

(** A loop that appends one result per element collects the results of
    all elements, in order. *)
Lemma for_each_collect {A B : Type} (f : A -> outcome B) (xs : list A) :
  forall acc res,
    for_each (fun acc x => y <- f x ;; Ret (acc ++ [y])%list) xs acc = Ret res ->
    exists ys, res = (acc ++ ys)%list /\ Forall2 (fun x y => f x = Ret y) xs ys.
Proof.
  induction xs as [|x xs IH]; intros acc res; cbn [for_each].
  - intro H. injection H as <-. exists []. rewrite app_nil_r. split; constructor.
  - destruct (f x) as [y|err] eqn:E; cbn [bind]; [|discriminate].
    intro H. destruct (IH _ _ H) as [ys [-> HF]].
    exists (y :: ys). rewrite <- app_assoc. split; [reflexivity|].
    constructor; assumption.
Qed.

Lemma insert_desc_In {A : Type} (key : A -> Q) (x y : A) (l : list A) :
  List.In y (ScoringSystem.insert_desc key x l) <-> y = x \/ List.In y l.
Proof.
  induction l as [|z l IH]; cbn.
  - intuition.
  - destruct (Qltb (key z) (key x)); cbn; [intuition|]. rewrite IH. intuition.
Qed.

(** Sorting keeps the elements. *)
Lemma sort_desc_In {A : Type} (key : A -> Q) (y : A) (l : list A) :
  List.In y (ScoringSystem.sort_desc key l) <-> List.In y l.
Proof.
  unfold ScoringSystem.sort_desc.
  assert (H : forall sorted,
             List.In y (fold_left (fun s x => ScoringSystem.insert_desc key x s) l sorted)
             <-> List.In y sorted \/ List.In y l).
  { induction l as [|x l IH]; intro sorted; cbn [fold_left].
    - cbn. intuition.
    - rewrite IH, insert_desc_In. cbn. intuition. }
  rewrite H. cbn. intuition.
Qed.

(** The result of one symbol: every component of the engine is scored
    on the current state, in order, and the total is the sum of the
    weighted scores. *)
Lemma score_one_spec (self : ScoringSystem.MasterScoringEngine)
    (universe : ScoringSystem.UniverseState) (item : string * ScoringSystem.SymbolState)
    (r : ScoringSystem.SymbolScoreResult) :
  ScoringSystem.score_one self universe item = Ret r ->
  Forall2 (fun c cs => ScoringSystem.score_symbol c (snd item) universe = Ret cs)
    (ScoringSystem._all_components self) (ScoringSystem.components r)
  /\ ScoringSystem.total_score r
     = Qsum (map ScoringSystem.weighted_score (ScoringSystem.components r))
  /\ ScoringSystem.result_direction r
     = ScoringSystem.direction_of_total (ScoringSystem.total_score r).
Proof.
  destruct item as [sym state]. unfold ScoringSystem.score_one.
  match goal with
  | |- context [for_each ?body ?l ?a] => destruct (for_each body l a) as [css|err] eqn:E
  end; [|discriminate].
  cbn [bind]. intro H. injection H as <-. cbn.
  apply for_each_collect in E. destruct E as [ys [-> HF]]. cbn [app].
  repeat split. exact HF.
Qed.

Lemma score_universe_spec (self : ScoringSystem.MasterScoringEngine)
    (universe : ScoringSystem.UniverseState) (results : list ScoringSystem.SymbolScoreResult)
    (r : ScoringSystem.SymbolScoreResult) :
  ScoringSystem.score_universe self universe = Ret results ->
  List.In r results ->
  exists item,
    List.In item (ScoringSystem.symbols universe)
    /\ ScoringSystem.score_one self universe item = Ret r.
Proof.
  unfold ScoringSystem.score_universe.
  match goal with
  | |- context [for_each ?body ?l ?a] => destruct (for_each body l a) as [rs|err] eqn:E
  end; [|discriminate].
  cbn [bind]. intro H. injection H as <-. rewrite sort_desc_In.
  apply for_each_collect in E. destruct E as [ys [-> HF]]. cbn [app].
  intro Hin. clear -HF Hin.
  induction HF as [|item y items ys Hy _ IH]; [contradiction|].
  destruct Hin as [<-|Hin].
  - exists item. split; [left; reflexivity | exact Hy].
  - destruct (IH Hin) as [item' [Hin' Hr]]. exists item'. split; [right|]; assumption.
Qed.

Lemma module_loop (config : MasterScoring.Config) (module_results : dict (dict value))
    (names : list string) :
  forall acc acc',
    for_each (MasterScoring.module_step config module_results) names acc = Ret acc' ->
    MasterScoring.total acc'
    = fold_left Qplus (MasterScoring.clamped_scores config module_results names)
        (MasterScoring.total acc)
    /\ MasterScoring.count acc'
       = (MasterScoring.count acc
          + length (MasterScoring.clamped_scores config module_results names))%nat.
Proof.
  induction names as [|n ns IH]; intros acc acc'; cbn [for_each MasterScoring.clamped_scores].
  - intro H. injection H as <-. cbn. split; [reflexivity | lia].
  - unfold MasterScoring.module_step at 1.
    destruct (MasterScoring.module_contribution config module_results n) as [[c|]|err];
      cbn [bind]; [| |discriminate].
    + intro H. apply IH in H. cbn in H. destruct H as [H1 H2].
      cbn [fold_left length]. split; [exact H1 | lia].
    + apply IH.
Qed.

(** [score_symbol] of scoring/master_scoring.py returns the mean of the
    clamped module scores, clamped again. *)
Lemma master_score_symbol_spec (config : MasterScoring.Config) (sym : string)
    (module_results : dict (dict value)) (r : MasterScoring.MasterScoreResult) :
  MasterScoring.score_symbol config sym module_results = Ret r ->
  MasterScoring.final_master_score r
  = clamp (MasterScoring.mean_or_zero
             (MasterScoring.clamped_scores config module_results
                MasterScoring.module_order)) (- (10)) 10
  /\ - (10) <= MasterScoring.final_master_score r <= 10.
Proof.
  unfold MasterScoring.score_symbol.
  match goal with
  | |- context [for_each ?body ?l ?a] => destruct (for_each body l a) as [acc|err] eqn:E
  end; [|discriminate].
  apply module_loop in E. cbn [MasterScoring.total MasterScoring.count] in E.
  destruct E as [Ht Hc]. cbn [bind].
  assert (Hbound : forall v, - (10) <= clamp v (- (10)) 10 <= 10)
    by (intro v; apply clamp_bounds; lra).
  destruct (MasterScoring.clamped_scores config module_results MasterScoring.module_order)
    as [|c cs] eqn:Ecs.
  - cbn [length Nat.add] in Hc. rewrite Hc. cbn [Nat.eqb bind].
    intro H. injection H as <-. cbn [MasterScoring.final_master_score].
    unfold MasterScoring._clamp, MasterScoring.mean_or_zero.
    split; [reflexivity | apply Hbound].
  - cbn [length] in Hc. rewrite Hc. cbn [Nat.add Nat.eqb].
    rewrite py_div_nonzero by apply length_nonzero. cbn [bind].
    intro H. injection H as <-. cbn [MasterScoring.final_master_score].
    unfold MasterScoring._clamp, MasterScoring.mean_or_zero, Qsum.
    rewrite Ht. split; [reflexivity | apply Hbound].
Qed.

(** ** Claims on the master score *)

(** C2 (amended).  [score_universe] of rulebooks/scoring_system.py
    returns, for every symbol, the plain sum of the weighted scores of
    the engine's components, each computed by [score_symbol] on that
    symbol; the sum is not clamped.  [score_symbol] of
    scoring/master_scoring.py instead clamps every module score to
    [[-10, 10]], returns their arithmetic mean (0 when no module takes
    part), and clamps it to [[-10, 10]] again. *)
Theorem master_score_aggregation :
  (forall (self : ScoringSystem.MasterScoringEngine)
          (universe : ScoringSystem.UniverseState)
          (results : list ScoringSystem.SymbolScoreResult)
          (r : ScoringSystem.SymbolScoreResult),
      ScoringSystem.score_universe self universe = Ret results ->
      List.In r results ->
      ScoringSystem.total_score r
      = Qsum (map ScoringSystem.weighted_score (ScoringSystem.components r))
      /\ exists item,
           List.In item (ScoringSystem.symbols universe)
           /\ Forall2
                (fun c cs => ScoringSystem.score_symbol c (snd item) universe = Ret cs)
                (ScoringSystem._all_components self) (ScoringSystem.components r))
  /\ (forall (config : MasterScoring.Config) (sym : string)
             (module_results : dict (dict value)) (r : MasterScoring.MasterScoreResult),
         MasterScoring.score_symbol config sym module_results = Ret r ->
         MasterScoring.final_master_score r
         = clamp (MasterScoring.mean_or_zero
                    (MasterScoring.clamped_scores config module_results
                       MasterScoring.module_order)) (- (10)) 10
         /\ - (10) <= MasterScoring.final_master_score r <= 10).
Proof.
  split.
  - intros self universe results r Hres Hin.
    destruct (score_universe_spec self universe results r Hres Hin) as [item [Hitem Hone]].
    destruct (score_one_spec self universe item r Hone) as [HF [Ht _]].
    split; [exact Ht|]. exists item. split; assumption.
  - intros config sym module_results r. apply master_score_symbol_spec.
Qed.

Lemma master_score_aggregation_witness :
  (exists results r,
      ScoringSystem.score_universe Examples.two_component_engine Examples.bullish_universe
      = Ret results
      /\ List.In r results
      /\ ScoringSystem.total_score r
         = Qsum (map ScoringSystem.weighted_score (ScoringSystem.components r))
      /\ ScoringSystem.total_score r == 20)
  /\ exists r,
       MasterScoring.score_symbol MasterScoring.DEFAULT_CONFIG "AAPL" Examples.two_modules
       = Ret r
       /\ - (10) <= MasterScoring.final_master_score r <= 10.
Proof.
  split.
  - eexists. eexists.
    assert (Hres : ScoringSystem.score_universe Examples.two_component_engine
                     Examples.bullish_universe
                   = Ret [{| ScoringSystem.result_symbol := "MSFT";
                             ScoringSystem.total_score := _;
                             ScoringSystem.result_direction := _;
                             ScoringSystem.components := _ |}])
      by (vm_compute; reflexivity).
    split; [exact Hres|].
    split; [left; reflexivity|].
    split; [|reflexivity].
    apply (proj1 master_score_aggregation _ _ _ _ Hres). left. reflexivity.
  - eexists.
    assert (Hr : MasterScoring.score_symbol MasterScoring.DEFAULT_CONFIG "AAPL"
                   Examples.two_modules
                 = Ret {| MasterScoring.symbol := "AAPL";
                          MasterScoring.module_scores := _;
                          MasterScoring.final_master_score := _;
                          MasterScoring.result_direction := _;
                          MasterScoring.abs_strength := _;
                          MasterScoring.used_modules := _ |})
      by (vm_compute; reflexivity).
    split; [exact Hr|].
    exact (proj2 (proj2 master_score_aggregation _ _ _ _ Hr)).
Defined.

(** C2 (counterexample).  On two module results, 8 and 6,
    [score_symbol] of scoring/master_scoring.py returns 7, their mean,
    not their sum 14. *)
Lemma master_score_symbol_is_a_mean :
  exists r,
    MasterScoring.score_symbol MasterScoring.DEFAULT_CONFIG "AAPL" Examples.two_modules
    = Ret r
    /\ MasterScoring.used_modules r = ["macro"; "news"]
    /\ MasterScoring.final_master_score r == 7
    /\ ~ MasterScoring.final_master_score r == 8 + 6.
Proof.
  eexists. split; [vm_compute; reflexivity|].
  split; [reflexivity|].
  split; [reflexivity|].
  intro H. vm_compute in H. discriminate H.
Qed.

(** C3 (amended).  [_direction_from_score] with a configured threshold
    [t > 0] labels a score [s] LONG exactly when [s >= t], SHORT
    exactly when [s <= -t] and NEUTRAL exactly when [-t < s < t].
    [score_universe] uses the fixed threshold 0.5 with strict
    comparisons: LONG exactly when [s > 0.5], SHORT exactly when
    [s < -0.5], NEUTRAL exactly when [-0.5 <= s <= 0.5]. *)
Theorem direction_thresholds (config : MasterScoring.Config) (s : Q) :
  0 < MasterScoring.direction_threshold config ->
  (MasterScoring._direction_from_score config s = LONG
   <-> MasterScoring.direction_threshold config <= s)
  /\ (MasterScoring._direction_from_score config s = SHORT
      <-> s <= - MasterScoring.direction_threshold config)
  /\ (MasterScoring._direction_from_score config s = NEUTRAL
      <-> - MasterScoring.direction_threshold config < s
          /\ s < MasterScoring.direction_threshold config)
  /\ (ScoringSystem.direction_of_total s = LONG <-> 5 # 10 < s)
  /\ (ScoringSystem.direction_of_total s = SHORT <-> s < - (5 # 10))
  /\ (ScoringSystem.direction_of_total s = NEUTRAL <-> - (5 # 10) <= s /\ s <= 5 # 10).
Proof.
  intro Ht. unfold MasterScoring._direction_from_score, ScoringSystem.direction_of_total.
  set (t := MasterScoring.direction_threshold config) in *.
  destruct (Qle_bool t s) eqn:E1; destruct (Qle_bool s (- t)) eqn:E2;
    destruct (Qltb (5 # 10) s) eqn:E3; destruct (Qltb s (- (5 # 10))) eqn:E4;
    try apply Qle_bool_iff in E1; try apply Qle_bool_false_iff in E1;
    try apply Qle_bool_iff in E2; try apply Qle_bool_false_iff in E2;
    try apply Qltb_iff in E3; try apply Qltb_false_iff in E3;
    try apply Qltb_iff in E4; try apply Qltb_false_iff in E4;
    repeat split; intros; try discriminate; try reflexivity; try lra;
    repeat match goal with H : _ /\ _ |- _ => destruct H end; lra.
Qed.

Lemma direction_thresholds_witness :
  0 < MasterScoring.direction_threshold MasterScoring.DEFAULT_CONFIG
  /\ MasterScoring._direction_from_score MasterScoring.DEFAULT_CONFIG 2 = LONG
  /\ MasterScoring._direction_from_score MasterScoring.DEFAULT_CONFIG (- (2)) = SHORT.
Proof.
  assert (H : 0 < MasterScoring.direction_threshold MasterScoring.DEFAULT_CONFIG)
    by reflexivity.
  split; [exact H|]. split.
  - apply (proj1 (direction_thresholds MasterScoring.DEFAULT_CONFIG 2 H)). discriminate.
  - apply (proj1 (proj2 (direction_thresholds MasterScoring.DEFAULT_CONFIG (- (2)) H))).
    discriminate.
Defined.

(** C3 (counterexample).  A master score of exactly 0.5, the threshold
    of [score_universe], is labelled NEUTRAL, not LONG. *)
Lemma score_universe_boundary_is_neutral :
  exists r,
    ScoringSystem.score_universe (Examples.macro_engine 1) (Examples.universe_of (25 # 10))
    = Ret [r]
    /\ ScoringSystem.total_score r == 5 # 10
    /\ ScoringSystem.result_direction r = NEUTRAL
    /\ ScoringSystem.result_direction r <> LONG.
Proof.
  eexists. split; [vm_compute; reflexivity|].
  split; [reflexivity|]. split; [reflexivity|]. discriminate.
Qed.




(* ================================================================== *)
(** * Further properties of the engines *)
(* ================================================================== *)

(** ** Dictionaries *)

Lemma dict_get_app {V : Type} (k : string) (d e : dict V) :
  dict_get k (d ++ e)%list
  = match dict_get k d with Some v => Some v | None => dict_get k e end.
Proof.
  induction d as [|[k' v'] d IH]; cbn; [reflexivity|].
  destruct (String.eqb k k'); [reflexivity | exact IH].
Qed.

Lemma dict_get_set_same {V : Type} (k : string) (v : V) (d : dict V) :
  dict_get k (dict_set k v d) = Some v.
Proof.
  induction d as [|[k' v'] d IH]; cbn.
  - rewrite String.eqb_refl. reflexivity.
  - destruct (String.eqb k k') eqn:E; cbn.
    + rewrite String.eqb_refl. reflexivity.
    + rewrite E. exact IH.
Qed.

Lemma dict_get_set_other {V : Type} (k k' : string) (v : V) (d : dict V) :
  String.eqb k k' = false -> dict_get k (dict_set k' v d) = dict_get k d.
Proof.
  intro Hne. induction d as [|[k2 v2] d IH]; cbn.
  - rewrite Hne. reflexivity.
  - destruct (String.eqb k' k2) eqn:E; cbn.
    + apply String.eqb_eq in E. subst k2. rewrite Hne. reflexivity.
    + destruct (String.eqb k k2); [reflexivity | exact IH].
Qed.

Lemma dict_get_set {V : Type} (k k' : string) (v : V) (d : dict V) :
  dict_get k (dict_set k' v d) = if String.eqb k k' then Some v else dict_get k d.
Proof.
  destruct (String.eqb k k') eqn:E.
  - apply String.eqb_eq in E. subst. apply dict_get_set_same.
  - apply dict_get_set_other, E.
Qed.

(** [d.update(e)]: for every key, the last binding of [e] wins, and a
    key that [e] does not bind keeps its value. *)
Lemma dict_get_update {V : Type} (k : string) (e : dict V) :
  forall d,
    dict_get k (dict_update d e)
    = match dict_get k (rev e) with Some v => Some v | None => dict_get k d end.
Proof.
  unfold dict_update.
  induction e as [|[k' v'] e IH]; intro d; cbn [fold_left rev fst snd].
  - reflexivity.
  - rewrite IH, dict_get_app, dict_get_set. cbn [dict_get].
    destruct (dict_get k (rev e)); [reflexivity|].
    destruct (String.eqb k k'); reflexivity.
Qed.

Lemma dict_get_not_key {V : Type} (k : string) (d : dict V) :
  ~ List.In k (dict_keys d) -> dict_get k d = None.
Proof.
  induction d as [|[k' v'] d IH]; cbn; intro H; [reflexivity|].
  destruct (String.eqb k k') eqn:E.
  - apply String.eqb_eq in E. subst. exfalso. apply H. left. reflexivity.
  - apply IH. intro Hin. apply H. right. exact Hin.
Qed.

Lemma dict_get_key {V : Type} (k : string) (d : dict V) (v : V) :
  dict_get k d = Some v -> List.In k (dict_keys d).
Proof.
  induction d as [|[k' v'] d IH]; cbn; [discriminate|].
  destruct (String.eqb k k') eqn:E.
  - apply String.eqb_eq in E. subst. intros _. left. reflexivity.
  - intro H. right. apply IH, H.
Qed.

(** In a dictionary without repeated keys the first and the last
    binding of a key are the same. *)
Lemma dict_get_rev {V : Type} (k : string) (d : dict V) :
  NoDup (dict_keys d) -> dict_get k (rev d) = dict_get k d.
Proof.
  induction d as [|[k' v'] d IH]; cbn [rev dict_keys map fst]; intro Hnd.
  - reflexivity.
  - inversion Hnd as [|? ? Hnot Hnd']; subst.
    rewrite dict_get_app, (IH Hnd'). cbn [dict_get].
    destruct (String.eqb k k') eqn:E.
    + apply String.eqb_eq in E. subst k'.
      rewrite (dict_get_not_key k d Hnot). reflexivity.
    + destruct (dict_get k d); reflexivity.
Qed.

(** ** Stable sorting in decreasing order *)

Section SortDesc.

Context {A : Type}.
Variable key : A -> Q.

Lemma insert_desc_Forall (P : A -> Prop) (x : A) (l : list A) :
  P x -> Forall P l -> Forall P (ScoringSystem.insert_desc key x l).
Proof.
  intros Hx Hl. induction Hl as [|y l Hy Hl IH]; cbn.
  - constructor; [exact Hx | constructor].
  - destruct (Qltb (key y) (key x)).
    + constructor; [exact Hx|]. constructor; assumption.
    + constructor; assumption.
Qed.

Lemma insert_desc_sorted (x : A) (l : list A) :
  sorted_desc key l -> sorted_desc key (ScoringSystem.insert_desc key x l).
Proof.
  unfold sorted_desc. intro Hs. induction Hs as [|y l Hs IH Hy]; cbn.
  - constructor; constructor.
  - destruct (Qltb (key y) (key x)) eqn:E.
    + apply Qltb_iff in E. constructor.
      * constructor; assumption.
      * constructor; [lra|].
        eapply Forall_impl; [|exact Hy]. cbn. intros z Hz. lra.
    + apply Qltb_false_iff in E. constructor; [exact IH|].
      apply insert_desc_Forall; assumption.
Qed.

Lemma sort_desc_fold_sorted (l : list A) :
  forall acc, sorted_desc key acc ->
    sorted_desc key (fold_left (fun sorted x => ScoringSystem.insert_desc key x sorted) l acc).
Proof.
  induction l as [|x l IH]; intros acc Hacc; cbn; [exact Hacc|].
  apply IH, insert_desc_sorted, Hacc.
Qed.

Lemma sort_desc_sorted (l : list A) : sorted_desc key (ScoringSystem.sort_desc key l).
Proof.
  apply sort_desc_fold_sorted. constructor.
Qed.

Lemma insert_desc_perm (x : A) (l : list A) :
  Permutation (ScoringSystem.insert_desc key x l) (x :: l).
Proof.
  induction l as [|y l IH]; cbn; [reflexivity|].
  destruct (Qltb (key y) (key x)); [reflexivity|].
  rewrite IH. apply perm_swap.
Qed.

Lemma sort_desc_fold_perm (l : list A) :
  forall acc,
    Permutation
      (fold_left (fun sorted x => ScoringSystem.insert_desc key x sorted) l acc)
      (acc ++ l)%list.
Proof.
  induction l as [|x l IH]; intro acc; cbn.
  - rewrite app_nil_r. reflexivity.
  - rewrite IH, insert_desc_perm. apply Permutation_middle.
Qed.

Lemma sort_desc_perm (l : list A) : Permutation (ScoringSystem.sort_desc key l) l.
Proof.
  apply (sort_desc_fold_perm l []).
Qed.

(** Stability: the elements of one key keep their order (a later
    element of the same key is placed after the earlier ones). *)
Lemma insert_desc_stable (k : Q) (x : A) (l : list A) :
  sorted_desc key l ->
  filter (fun y => Qeq_bool (key y) k) (ScoringSystem.insert_desc key x l)
  = (filter (fun y => Qeq_bool (key y) k) l
     ++ filter (fun y => Qeq_bool (key y) k) [x])%list.
Proof.
  unfold sorted_desc. intro Hs. induction Hs as [|y l Hs IH Hy]; cbn [ScoringSystem.insert_desc].
  - reflexivity.
  - destruct (Qltb (key y) (key x)) eqn:E.
    + apply Qltb_iff in E. cbn [filter].
      destruct (Qeq_bool (key x) k) eqn:Ex; [|rewrite app_nil_r; reflexivity].
      apply Qeq_bool_iff in Ex.
      assert (Hy' : Qeq_bool (key y) k = false).
      { destruct (Qeq_bool (key y) k) eqn:Ey; [|reflexivity].
        apply Qeq_bool_iff in Ey. lra. }
      rewrite Hy'.
      assert (Hl : filter (fun z => Qeq_bool (key z) k) l = []).
      { clear IH Hs. induction Hy as [|z l Hz Hy IHy]; cbn; [reflexivity|].
        destruct (Qeq_bool (key z) k) eqn:Ez; [|exact IHy].
        apply Qeq_bool_iff in Ez. lra. }
      rewrite Hl. reflexivity.
    + cbn [filter]. rewrite IH.
      destruct (Qeq_bool (key y) k); reflexivity.
Qed.

Lemma sort_desc_fold_stable (k : Q) (l : list A) :
  forall acc, sorted_desc key acc ->
    filter (fun y => Qeq_bool (key y) k)
      (fold_left (fun sorted x => ScoringSystem.insert_desc key x sorted) l acc)
    = (filter (fun y => Qeq_bool (key y) k) acc
       ++ filter (fun y => Qeq_bool (key y) k) l)%list.
Proof.
  induction l as [|x l IH]; intros acc Hacc; cbn [fold_left].
  - cbn. rewrite app_nil_r. reflexivity.
  - rewrite IH by (apply insert_desc_sorted, Hacc).
    rewrite insert_desc_stable by exact Hacc.
    rewrite <- app_assoc. f_equal. cbn [filter].
    destruct (Qeq_bool (key x) k); reflexivity.
Qed.

Lemma sort_desc_stable (k : Q) (l : list A) :
  filter (fun y => Qeq_bool (key y) k) (ScoringSystem.sort_desc key l)
  = filter (fun y => Qeq_bool (key y) k) l.
Proof.
  unfold ScoringSystem.sort_desc.
  rewrite sort_desc_fold_stable by constructor. reflexivity.
Qed.

End SortDesc.

(** The loop [for x in xs: if p(x): out.append(x)] is [filter p]. *)
Lemma append_loop_filter {A : Type} (p : A -> bool) (xs : list A) :
  forall acc,
    fold_left (fun out x => if p x then (out ++ [x])%list else out) xs acc
    = (acc ++ filter p xs)%list.
Proof.
  induction xs as [|x xs IH]; intro acc; cbn.
  - rewrite app_nil_r. reflexivity.
  - rewrite IH. destruct (p x); [|reflexivity].
    rewrite <- app_assoc. reflexivity.
Qed.

(** X1.  [rank_symbols] returns exactly the symbols whose absolute
    strength is at least [min_abs_score], each once, in non-increasing
    order of absolute strength; symbols of equal strength keep the order
    they have in [symbol_results]. *)
Theorem rank_symbols_filters_and_sorts
    (symbol_results : dict MasterScoring.MasterScoreResult) (min_abs_score : Q) :
  let strength := fun x : string * MasterScoring.MasterScoreResult =>
                    MasterScoring.abs_strength (snd x) in
  let kept := filter (fun x => Qle_bool min_abs_score (strength x)) symbol_results in
  let ranked := MasterRanking.rank_symbols symbol_results min_abs_score in
  sorted_desc strength ranked
  /\ Permutation ranked kept
  /\ (forall x, List.In x ranked
                <-> List.In x symbol_results /\ min_abs_score <= strength x)
  /\ (forall k, filter (fun x => Qeq_bool (strength x) k) ranked
                = filter (fun x => Qeq_bool (strength x) k) kept).
Proof.
  intros strength kept ranked.
  assert (Hr : ranked = ScoringSystem.sort_desc strength kept).
  { unfold ranked, MasterRanking.rank_symbols.
    rewrite (append_loop_filter
               (fun x => Qle_bool min_abs_score (MasterScoring.abs_strength (snd x)))).
    reflexivity. }
  rewrite Hr. split; [|split; [|split]].
  - apply sort_desc_sorted.
  - apply sort_desc_perm.
  - intro x. rewrite sort_desc_In. unfold kept. rewrite filter_In.
    rewrite Qle_bool_iff. reflexivity.
  - intro k. apply sort_desc_stable.
Qed.

(** ** The universe engine of [rulebooks/scoring_system.py] *)

(** X2.  When [score_universe] returns, its result holds
    one score per symbol of the universe, the scores are in
    non-increasing order of [abs(total_score)], and symbols of equal
    absolute score keep the order of [universe.symbols]. *)
Theorem score_universe_ranks_by_absolute_score
    (self : ScoringSystem.MasterScoringEngine) (universe : ScoringSystem.UniverseState)
    (results : list ScoringSystem.SymbolScoreResult) :
  ScoringSystem.score_universe self universe = Ret results ->
  let conviction := fun r => Qabs (ScoringSystem.total_score r) in
  sorted_desc conviction results
  /\ length results = length (ScoringSystem.symbols universe)
  /\ exists scored,
       Forall2 (fun item r => ScoringSystem.score_one self universe item = Ret r)
         (ScoringSystem.symbols universe) scored
       /\ Permutation results scored
       /\ forall k, filter (fun r => Qeq_bool (conviction r) k) results
                    = filter (fun r => Qeq_bool (conviction r) k) scored.
Proof.
  intros H conviction. unfold ScoringSystem.score_universe in H.
  destruct (for_each _ (ScoringSystem.symbols universe) []) as [scored|e] eqn:E;
    cbn [bind] in H; [|discriminate].
  injection H as <-.
  apply for_each_collect in E. destruct E as [ys [-> HF]]. cbn [app] in *.
  split; [apply sort_desc_sorted|]. split.
  - rewrite (Permutation_length (sort_desc_perm _ ys)).
    symmetry. exact (Forall2_length HF).
  - exists ys. split; [exact HF|]. split; [apply sort_desc_perm|].
    intro k. apply sort_desc_stable.
Qed.

Lemma score_universe_ranks_by_absolute_score_witness :
  exists results,
    ScoringSystem.score_universe Fixtures.sector_engine Fixtures.three_symbols
    = Ret results
    /\ map ScoringSystem.result_symbol results = ["CCC"; "BBB"; "AAA"]
    /\ sorted_desc (fun r => Qabs (ScoringSystem.total_score r)) results.
Proof.
  eexists.
  assert (H : ScoringSystem.score_universe Fixtures.sector_engine Fixtures.three_symbols
              = Ret [{| ScoringSystem.result_symbol := "CCC";
                        ScoringSystem.total_score := _;
                        ScoringSystem.result_direction := _;
                        ScoringSystem.components := _ |};
                     {| ScoringSystem.result_symbol := "BBB";
                        ScoringSystem.total_score := _;
                        ScoringSystem.result_direction := _;
                        ScoringSystem.components := _ |};
                     {| ScoringSystem.result_symbol := "AAA";
                        ScoringSystem.total_score := _;
                        ScoringSystem.result_direction := _;
                        ScoringSystem.components := _ |}])
    by (vm_compute; reflexivity).
  split; [exact H|]. split; [reflexivity|].
  exact (proj1 (score_universe_ranks_by_absolute_score _ _ _ H)).
Defined.






Lemma for_each_raises {A S : Type} (body : S -> A -> outcome S) (x : A) (xs : list A) :
  List.In x xs ->
  (forall acc, exists e, body acc x = Raise e) ->
  forall acc, exists e, for_each body xs acc = Raise e.
Proof.
  intros Hin Hx. induction xs as [|y ys IH]; [contradiction|].
  intro acc. cbn [for_each]. destruct Hin as [->|Hin].
  - destruct (Hx acc) as [e ->]. cbn. eauto.
  - destruct (body acc y) as [acc'|e]; cbn [bind]; [apply IH, Hin | eauto].
Qed.

(** X4.  Nothing in [score_universe] catches an
    exception: when the computation of one component raises for one
    symbol, [score_universe] raises and returns no score for any
    symbol. *)
Theorem score_universe_fails_as_a_whole
    (self : ScoringSystem.MasterScoringEngine) (universe : ScoringSystem.UniverseState)
    (sym : string) (state : ScoringSystem.SymbolState)
    (component : ScoringSystem.BaseScoringComponent) (e : exn) :
  List.In (sym, state) (ScoringSystem.symbols universe) ->
  List.In component (ScoringSystem._all_components self) ->
  ScoringSystem._compute_raw_score component state universe = Raise e ->
  exists e', ScoringSystem.score_universe self universe = Raise e'.
Proof.
  intros Hsym Hc Hraise.
  assert (Hone : exists e1, ScoringSystem.score_one self universe (sym, state) = Raise e1).
  { unfold ScoringSystem.score_one.
    destruct (for_each_raises
                (fun acc c => cs <- ScoringSystem.score_symbol c state universe ;;
                              Ret (acc ++ [cs])%list)
                component (ScoringSystem._all_components self) Hc) with (acc := @nil ScoringSystem.ComponentScore)
      as [e1 He1].
    - intro acc. unfold ScoringSystem.score_symbol. rewrite Hraise. cbn. eauto.
    - rewrite He1. cbn. eauto. }
  unfold ScoringSystem.score_universe.
  destruct (for_each_raises
              (fun acc item => r <- ScoringSystem.score_one self universe item ;;
                               Ret (acc ++ [r])%list)
              (sym, state) (ScoringSystem.symbols universe) Hsym) with (acc := @nil ScoringSystem.SymbolScoreResult)
    as [e2 He2].
  - intro acc. destruct Hone as [e1 ->]. cbn. eauto.
  - rewrite He2. cbn. eauto.
Qed.

Lemma score_universe_fails_as_a_whole_witness :
  List.In ("CCC", Fixtures.symbol_in "CCC" (Some "XLE"))
    (ScoringSystem.symbols Fixtures.three_symbols)
  /\ exists e, ScoringSystem.score_universe Fixtures.failing_engine Fixtures.three_symbols
               = Raise e.
Proof.
  assert (Hin : List.In ("CCC", Fixtures.symbol_in "CCC" (Some "XLE"))
                  (ScoringSystem.symbols Fixtures.three_symbols))
    by (right; right; left; reflexivity).
  split; [exact Hin|].
  apply (score_universe_fails_as_a_whole Fixtures.failing_engine Fixtures.three_symbols
           "CCC" (Fixtures.symbol_in "CCC" (Some "XLE")) Fixtures.failing_component
           TypeError Hin).
  - right. left. reflexivity.
  - reflexivity.
Defined.

Section EvaluatorLoops.

Variable rt : Runtime.
Variable variables : dict value.

Lemma compare_fix_eq (cs : list expr) :
  forall ops acc,
    (fix loop (cs : list expr) (ops : list cmpop) (left_ : value) {struct cs}
       : outcome value :=
       match ops, cs with
       | op :: ops', c :: cs' =>
           match SafeEval.OPS rt (CmpT op) with
           | None => Raise (ValueError UnsupportedCompare)
           | Some oper =>
               right_ <- SafeEval._eval rt variables c ;;
               t <- oper left_ right_ ;;
               if negb (truthy t) then Ret (VBool false)
               else loop cs' ops' right_
           end
       | _, _ => Ret (VBool true)
       end) cs ops acc
    = compare_loop rt (SafeEval._eval rt variables) cs ops acc.
Proof.
  induction cs as [|c cs IH]; intros ops acc; destruct ops as [|op ops];
    cbn [compare_loop]; try reflexivity.
  destruct (SafeEval.OPS rt (CmpT op)) as [oper|]; [|reflexivity].
  destruct (SafeEval._eval rt variables c) as [r|e]; cbn [bind]; [|reflexivity].
  destruct (oper acc r) as [t|e]; cbn [bind]; [|reflexivity].
  destruct (negb (truthy t)); [reflexivity | apply IH].
Qed.

Lemma eval_Compare (l : expr) (ops : list cmpop) (cs : list expr) :
  SafeEval._eval rt variables (Compare l ops cs)
  = if negb (length ops =? length cs)%nat then Raise (ValueError MismatchedCompare)
    else x <- SafeEval._eval rt variables l ;;
         compare_loop rt (SafeEval._eval rt variables) cs ops x.
Proof.
  cbn [SafeEval._eval].
  destruct (negb (length ops =? length cs)%nat); [reflexivity|].
  destruct (SafeEval._eval rt variables l) as [x|e]; cbn [bind]; [|reflexivity].
  apply compare_fix_eq.
Qed.

End EvaluatorLoops.

Section PythonLoops.

Variable rt : Runtime.
Variable env : dict value.





End PythonLoops.

(** ** [safe_eval] against the language's own evaluation *)

Section Soundness.

Variable rt : Runtime.
Variable variables : dict value.

Abbreviation sev := (SafeEval._eval rt variables).
Abbreviation pev := (PythonEval.eval rt variables).







End Soundness.

(** ** [safe_eval] reads the variables the expression names *)

Section Frame.

Variable rt : Runtime.
Variables vars1 vars2 : dict value.

Lemma boolop_loop_ext (f : value -> value -> outcome value) (vs : list expr) :
  Forall (fun e => SafeEval._eval rt vars1 e = SafeEval._eval rt vars2 e) vs ->
  forall acc,
    SafeEval.boolop_loop (SafeEval._eval rt vars1) f vs acc
    = SafeEval.boolop_loop (SafeEval._eval rt vars2) f vs acc.
Proof.
  induction 1 as [|v vs Hv _ IH]; intro acc; cbn [SafeEval.boolop_loop]; [reflexivity|].
  rewrite Hv. destruct (SafeEval._eval rt vars2 v) as [r|e]; cbn [bind]; [|reflexivity].
  destruct (f acc r) as [x|e]; cbn [bind]; [apply IH | reflexivity].
Qed.

Lemma compare_loop_ext (cs : list expr) :
  Forall (fun e => SafeEval._eval rt vars1 e = SafeEval._eval rt vars2 e) cs ->
  forall ops acc,
    compare_loop rt (SafeEval._eval rt vars1) cs ops acc
    = compare_loop rt (SafeEval._eval rt vars2) cs ops acc.
Proof.
  induction 1 as [|c cs Hc _ IH]; intros ops acc; destruct ops as [|op ops];
    cbn [compare_loop]; try reflexivity.
  destruct (SafeEval.OPS rt (CmpT op)) as [oper|]; [|reflexivity].
  rewrite Hc. destruct (SafeEval._eval rt vars2 c) as [r|e]; cbn [bind]; [|reflexivity].
  destruct (oper acc r) as [t|e]; cbn [bind]; [|reflexivity].
  destruct (negb (truthy t)); [reflexivity | apply IH].
Qed.

Lemma Forall_flat_map_names (vs : list expr) :
  (forall id, List.In id (flat_map names_of vs) -> dict_get id vars1 = dict_get id vars2) ->
  Forall (fun e => (forall id, List.In id (names_of e) ->
                               dict_get id vars1 = dict_get id vars2) ->
                   SafeEval._eval rt vars1 e = SafeEval._eval rt vars2 e) vs ->
  Forall (fun e => SafeEval._eval rt vars1 e = SafeEval._eval rt vars2 e) vs.
Proof.
  intros Hn HF. induction HF as [|v vs Hv _ IH]; constructor.
  - apply Hv. intros id Hid. apply Hn. cbn. apply in_or_app. left. exact Hid.
  - apply IH. intros id Hid. apply Hn. cbn. apply in_or_app. right. exact Hid.
Qed.

Lemma _eval_frame (e : expr) :
  (forall id, List.In id (names_of e) -> dict_get id vars1 = dict_get id vars2) ->
  SafeEval._eval rt vars1 e = SafeEval._eval rt vars2 e.
Proof.
  induction e as [c|id|l op r IHl IHr|op vs IHvs|l ops cs IHl IHcs|e Hu]
    using expr_induction; intro Hn.
  - reflexivity.
  - cbn. rewrite (Hn id) by (left; reflexivity). reflexivity.
  - cbn [SafeEval._eval]. cbn [names_of] in Hn.
    rewrite IHl by (intros id Hid; apply Hn, in_or_app; left; exact Hid).
    rewrite IHr by (intros id Hid; apply Hn, in_or_app; right; exact Hid).
    reflexivity.
  - cbn [names_of] in Hn.
    pose proof (Forall_flat_map_names vs Hn IHvs) as HF.
    destruct vs as [|first [|second rest]].
    + destruct op; reflexivity.
    + destruct op; reflexivity.
    + rewrite !eval_BoolOp.
      destruct (SafeEval.OPS rt (BoolT op)) as [f|]; [|reflexivity].
      inversion HF as [|? ? Hfirst Hrest]; subst. rewrite Hfirst.
      destruct (SafeEval._eval rt vars2 first); cbn [bind]; [|reflexivity].
      apply boolop_loop_ext, Hrest.
  - cbn [names_of] in Hn. rewrite !eval_Compare.
    destruct (negb (length ops =? length cs)%nat); [reflexivity|].
    rewrite IHl by (intros id Hid; apply Hn, in_or_app; left; exact Hid).
    destruct (SafeEval._eval rt vars2 l); cbn [bind]; [|reflexivity].
    apply compare_loop_ext, Forall_flat_map_names; [|exact IHcs].
    intros id Hid. apply Hn, in_or_app. right. exact Hid.
  - rewrite !(eval_unsafe_node rt _ e Hu). reflexivity.
Qed.

End Frame.




(** X6.  [safe_eval] reads the variables that the expression
    names and nothing else: two environments that agree on those
    variables give the same result, the same value or the same
    exception. *)
Theorem safe_eval_reads_only_named_variables (rt : Runtime) (cond : string)
    (tree : expr) (vars1 vars2 : dict value) :
  ast_parse rt (strip cond) = Some tree ->
  (forall id, List.In id (names_of tree) -> dict_get id vars1 = dict_get id vars2) ->
  SafeEval.safe_eval rt cond vars1 = SafeEval.safe_eval rt cond vars2.
Proof.
  intros Hp Hn. unfold SafeEval.safe_eval. rewrite Hp.
  rewrite (_eval_frame rt vars1 vars2 tree Hn). reflexivity.
Qed.

Lemma safe_eval_reads_only_named_variables_witness :
  SafeEval.safe_eval Examples.rt0 "rsi >= 70" [("rsi", VFloat 75); ("macd", VNone)]
  = SafeEval.safe_eval Examples.rt0 "rsi >= 70" [("volume", VInt 3); ("rsi", VFloat 75)].
Proof.
  apply (safe_eval_reads_only_named_variables Examples.rt0 "rsi >= 70"
           (Compare (Name "rsi") [GtE] [Constant (VInt 70)])).
  - reflexivity.
  - intros id [<-|[]]. reflexivity.
Defined.



(** ** Conditions outside the grammar *)

Lemma always_unsafe_reaches (variables : dict value) (e : expr) :
  always_unsafe e = true -> SafeEval.reaches_unsafe variables e = true.
Proof.
  induction e as [c|id|l op r IHl IHr|op vs IHvs|l ops cs IHl IHcs|e Hu]
    using expr_induction; intro H.
  - discriminate.
  - discriminate.
  - cbn in *. apply orb_true_iff in H. apply orb_true_iff.
    destruct H as [H|H]; [left; apply IHl, H | right; apply IHr, H].
  - cbn in *. apply existsb_exists in H. destruct H as [v [Hin Hv]].
    apply existsb_exists. exists v. split; [exact Hin|].
    rewrite Forall_forall in IHvs. apply (IHvs v Hin Hv).
  - cbn in *. apply orb_true_iff in H. apply orb_true_iff.
    destruct H as [H|H]; [left; apply IHl, H|]. right.
    destruct ops as [|o ops]; [discriminate|].
    destruct cs as [|c cs]; [discriminate|].
    inversion IHcs as [|? ? IHc _]; subst. apply IHc, H.
  - destruct e; try discriminate; reflexivity.
Qed.

(** A tree with a node outside the grammar in an always-evaluated
    position: [safe_eval] returns [False] (blank condition) or raises. *)
Lemma always_unsafe_fails (rt : Runtime) (cond : string) (tree : expr)
    (variables : dict value) :
  ast_parse rt (strip cond) = Some tree ->
  always_unsafe tree = true ->
  SafeEval.safe_eval rt cond variables = Ret false
  \/ exists why, SafeEval.safe_eval rt cond variables = Raise (ValueError why).
Proof.
  intros Hp Hu.
  pose proof (always_unsafe_reaches variables tree Hu) as Hr.
  destruct (eval_reaches_unsafe rt variables tree Hr) as [err Herr].
  unfold SafeEval.safe_eval.
  destruct (is_empty cond || is_empty (strip cond)); [left; reflexivity|].
  rewrite Hp, Herr. right. destruct err; eauto.
Qed.

(** X8.  [safe_eval] has no case for unary operators: a negative
    literal such as [-0.4] and a [not] are [UnaryOp] nodes and raise
    [ValueError].  A condition in which such a node (or any node
    outside the grammar) stands in a position that is always
    evaluated matches in no engine, whatever the snapshot holds. *)
Theorem condition_with_unary_operator_never_matches (rt : Runtime) (cond : string)
    (tree : expr) :
  ast_parse rt (strip cond) = Some tree ->
  always_unsafe tree = true ->
  forall variables : dict value,
    (forall op operand,
        SafeEval._eval rt variables (UnaryOp op operand) = Raise (ValueError UnsafeNode))
    /\ SafeEval.safe_eval rt cond variables <> Ret true
    /\ OptionsFlow._safe_eval rt cond variables = false
    /\ Sentiment._safe_eval rt cond variables = false
    /\ PositionRisk._match_condition rt variables cond = false.
Proof.
  intros Hp Hu variables.
  pose proof (always_unsafe_fails rt cond tree variables Hp Hu) as Hs.
  split; [reflexivity|]. split; [|split; [|split]].
  - destruct Hs as [Hs|[why Hs]]; rewrite Hs; discriminate.
  - unfold OptionsFlow._safe_eval.
    destruct (is_empty cond || is_empty (strip cond)); [reflexivity|].
    destruct Hs as [Hs|[why Hs]]; rewrite Hs; reflexivity.
  - unfold Sentiment._safe_eval.
    destruct (is_empty cond || is_empty (strip cond)); [reflexivity|].
    destruct Hs as [Hs|[why Hs]]; rewrite Hs; reflexivity.
  - unfold PositionRisk._match_condition.
    destruct Hs as [Hs|[why Hs]]; rewrite Hs; reflexivity.
Qed.

Lemma condition_with_unary_operator_never_matches_witness :
  ast_parse SentimentRulebook.rt
    (strip "market_sentiment is not None and market_sentiment <= -0.4")
  = Some (BoolOp And
            [Compare (Name "market_sentiment") [IsNot] [Constant VNone];
             Compare (Name "market_sentiment") [LtE]
               [UnaryOp USub (Constant (VFloat (2 # 5)))]])
  /\ Sentiment._safe_eval SentimentRulebook.rt
       "market_sentiment is not None and market_sentiment <= -0.4"
       [("market_sentiment", VFloat (- (9 # 10)))] = false.
Proof.
  split; [reflexivity|].
  apply (condition_with_unary_operator_never_matches SentimentRulebook.rt
           "market_sentiment is not None and market_sentiment <= -0.4"
           (BoolOp And
              [Compare (Name "market_sentiment") [IsNot] [Constant VNone];
               Compare (Name "market_sentiment") [LtE]
                 [UnaryOp USub (Constant (VFloat (2 # 5)))]]));
    reflexivity.
Defined.

(** ** The sentiment engine *)

Section SentimentFacts.

Variable rt : Runtime.

Lemma sentiment_fold (timeframe : string) (env : dict value) (sts : dict StateRule) :
  forall acc,
    let acc' := fold_left (Sentiment.state_step rt timeframe env) sts acc in
    let m := Sentiment.matching rt env sts in
    Sentiment.acc_states acc' = (Sentiment.acc_states acc ++ map fst m)%list
    /\ Sentiment.acc_scores acc' = (Sentiment.acc_scores acc ++ map Sentiment.state_midpoint m)%list
    /\ map Sentiment.state_name (Sentiment.acc_details acc')
       = (map Sentiment.state_name (Sentiment.acc_details acc) ++ map fst m)%list
    /\ map Sentiment.raw_score (Sentiment.acc_details acc')
       = (map Sentiment.raw_score (Sentiment.acc_details acc) ++ map Sentiment.state_midpoint m)%list
    /\ (Forall (fun d => Sentiment.detail_timeframe d = timeframe)
          (Sentiment.acc_details acc) ->
        Forall (fun d => Sentiment.detail_timeframe d = timeframe)
          (Sentiment.acc_details acc')).
Proof.
  induction sts as [|[name st] sts IH]; intro acc; cbn zeta.
  - cbn. rewrite !app_nil_r. repeat split; auto.
  - cbn [fold_left Sentiment.matching filter snd].
    specialize (IH (Sentiment.state_step rt timeframe env acc (name, st))).
    cbn zeta in IH. destruct IH as [H1 [H2 [H3 [H4 H5]]]].
    unfold Sentiment.matching in *.
    unfold Sentiment.state_step in *.
    destruct (is_empty (get_default (condition st) "")); cbn [negb andb].
    + repeat split; assumption.
    + destruct (Sentiment._safe_eval rt (get_default (condition st) "") env);
        cbn [Sentiment.acc_states Sentiment.acc_scores Sentiment.acc_details] in *.
      * cbn [map fst snd]. rewrite H1, H2, H3, H4, !map_app, <- !app_assoc.
        cbn [map app Sentiment.state_name Sentiment.raw_score].
        repeat split; try reflexivity.
        intro HF. apply H5. apply Forall_app. split; [exact HF|].
        constructor; [reflexivity | constructor].
      * repeat split; assumption.
Qed.

Lemma sentiment_timeframe_spec (e : Sentiment.Engine) (timeframe : string)
    (snapshot : Snapshot) :
  let m := Sentiment.matching_in rt e snapshot timeframe in
  exists details,
    Sentiment._score_timeframe rt e timeframe snapshot
    = Ret (MasterScoring.mean_or_zero (map Sentiment.state_midpoint m), map fst m, details)
    /\ map Sentiment.state_name details = map fst m
    /\ map Sentiment.raw_score details = map Sentiment.state_midpoint m
    /\ Forall (fun d => Sentiment.detail_timeframe d = timeframe) details.
Proof.
  cbn zeta. unfold Sentiment._score_timeframe, Sentiment.matching_in.
  destruct (dict_get timeframe (Sentiment.timeframes (Sentiment.rulebook e))) as [tf|].
  - destruct (sentiment_fold timeframe (Sentiment.eval_env snapshot) (states tf)
                {| Sentiment.acc_states := []; Sentiment.acc_scores := [];
                   Sentiment.acc_details := [] |}) as [H1 [H2 [H3 [H4 H5]]]].
    cbn [Sentiment.acc_states Sentiment.acc_scores Sentiment.acc_details map app] in *.
    set (acc := fold_left _ _ _) in *.
    set (m := Sentiment.matching rt (Sentiment.eval_env snapshot) (states tf)) in *.
    rewrite H2.
    destruct m as [|x m'] eqn:Em.
    + exists []. cbn. repeat split; constructor.
    + cbn [map]. rewrite py_div_nonzero by apply length_nonzero. cbn [bind].
      exists (Sentiment.acc_details acc). rewrite H1, H3, H4. cbn [map].
      repeat split. apply H5. constructor.
  - exists []. cbn. repeat split; constructor.
Qed.

End SentimentFacts.

Lemma mean_or_zero_bounds (lo hi : Q) (l : list Q) :
  lo <= 0 <= hi ->
  Forall (fun y => lo <= y <= hi) l ->
  lo <= MasterScoring.mean_or_zero l <= hi.
Proof.
  intros H0 HF. destruct l as [|x l]; cbn [MasterScoring.mean_or_zero]; [exact H0|].
  apply mean_bounds, HF.
Qed.

Lemma sentiment_combine_bounds (lo hi minor major : Q) :
  lo <= 0 <= hi -> lo <= minor <= hi -> lo <= major <= hi ->
  lo <= Sentiment._combine_minor_major minor major <= hi.
Proof.
  intros H0 Hm HM. unfold Sentiment._combine_minor_major.
  destruct (Qltb (1 # 1000000) (Qabs minor)), (Qltb (1 # 1000000) (Qabs major));
    cbn [andb]; lra.
Qed.

Section SentimentScore.

Variable rt : Runtime.

Lemma sentiment_score_spec (e : Sentiment.Engine) (snapshot : Snapshot) :
  exists r,
    Sentiment.score rt e snapshot = Ret r
    /\ Sentiment.minor_score r
       = MasterScoring.mean_or_zero (map Sentiment.state_midpoint (Sentiment.matching_in rt e snapshot "MINOR"))
    /\ Sentiment.major_score r
       = MasterScoring.mean_or_zero (map Sentiment.state_midpoint (Sentiment.matching_in rt e snapshot "MAJOR"))
    /\ Sentiment.final_sentiment_score r
       = Sentiment._combine_minor_major (Sentiment.minor_score r) (Sentiment.major_score r)
         * Sentiment.weight e
    /\ Sentiment.matched_states r
       = (map fst (Sentiment.matching_in rt e snapshot "MINOR")
          ++ map fst (Sentiment.matching_in rt e snapshot "MAJOR"))%list
    /\ map Sentiment.state_name (Sentiment.state_details r) = Sentiment.matched_states r
    /\ map Sentiment.raw_score (Sentiment.state_details r)
       = (map Sentiment.state_midpoint (Sentiment.matching_in rt e snapshot "MINOR")
          ++ map Sentiment.state_midpoint (Sentiment.matching_in rt e snapshot "MAJOR"))%list.
Proof.
  unfold Sentiment.score.
  destruct (sentiment_timeframe_spec rt e "MINOR" snapshot) as [d1 [E1 [N1 [R1 _]]]].
  destruct (sentiment_timeframe_spec rt e "MAJOR" snapshot) as [d2 [E2 [N2 [R2 _]]]].
  cbn zeta in E1, E2, N1, N2, R1, R2.
  rewrite E1. cbn [bind]. rewrite E2. cbn [bind].
  eexists. split; [reflexivity|].
  cbn [Sentiment.minor_score Sentiment.major_score Sentiment.final_sentiment_score
       Sentiment.matched_states Sentiment.state_details].
  rewrite !map_app, N1, N2, R1, R2. repeat split; reflexivity.
Qed.

(** The matched midpoints lie in the scale when the ranges of the
    States that match do. *)
Lemma sentiment_means_bounded (e : Sentiment.Engine) (snapshot : Snapshot) (lo hi : Q)
    (timeframe : string) :
  lo <= 0 <= hi ->
  (forall tf item,
      dict_get timeframe (Sentiment.timeframes (Sentiment.rulebook e)) = Some tf ->
      List.In item (Sentiment.matching rt (Sentiment.eval_env snapshot) (states tf)) ->
      Fundamentals.range_in_scale lo hi (get_default (score_range (snd item)) (0, 0))) ->
  lo <= MasterScoring.mean_or_zero (map Sentiment.state_midpoint (Sentiment.matching_in rt e snapshot timeframe)) <= hi.
Proof.
  intros H0 Hr. apply mean_or_zero_bounds; [exact H0|].
  unfold Sentiment.matching_in.
  destruct (dict_get timeframe (Sentiment.timeframes (Sentiment.rulebook e))) as [tf|];
    [|constructor].
  apply Forall_forall. intros y Hy. apply in_map_iff in Hy.
  destruct Hy as [item [<- Hin]].
  apply midpoint_in_scale. apply (Hr tf item eq_refl Hin).
Qed.

End SentimentScore.

Section SentimentLive.

Variable rt : Runtime.
Variable table : dict expr.
Hypothesis Hparses : parses rt table.

Lemma never_matches_sound (st : StateRule) (env : dict value) :
  never_matches table st = true ->
  let cond := get_default (condition st) "" in
  negb (is_empty cond) && Sentiment._safe_eval rt cond env = false.
Proof.
  unfold never_matches. cbn zeta.
  destruct (condition st) as [c|]; cbn [get_default]; [|intros _; reflexivity].
  unfold Sentiment._safe_eval.
  destruct (is_empty c); cbn [orb negb andb]; [reflexivity|].
  destruct (is_empty (strip c)); cbn [orb]; [reflexivity|].
  destruct (dict_get (strip c) table) as [tree|] eqn:Et; [|discriminate].
  intro Hu.
  destruct (always_unsafe_fails rt c tree env (Hparses _ _ Et) Hu) as [Hs|[why Hs]];
    rewrite Hs; reflexivity.
Qed.

Lemma matching_is_live (env : dict value) (sts : dict StateRule)
    (item : string * StateRule) :
  List.In item (Sentiment.matching rt env sts) ->
  List.In item sts /\ never_matches table (snd item) = false.
Proof.
  unfold Sentiment.matching. rewrite filter_In. intros [Hin Hm].
  split; [exact Hin|].
  destruct (never_matches table (snd item)) eqn:E; [|reflexivity].
  rewrite (never_matches_sound (snd item) env E) in Hm. discriminate.
Qed.

Lemma sentiment_live_bounds (e : Sentiment.Engine) (snapshot : Snapshot) (lo hi : Q) :
  lo <= 0 <= hi ->
  Sentiment.live_ranges_in_scale table lo hi (Sentiment.rulebook e) = true ->
  exists r,
    Sentiment.score rt e snapshot = Ret r
    /\ lo <= Sentiment.minor_score r <= hi
    /\ lo <= Sentiment.major_score r <= hi
    /\ lo <= Sentiment._combine_minor_major
               (Sentiment.minor_score r) (Sentiment.major_score r) <= hi
    /\ Sentiment.final_sentiment_score r
       = Sentiment._combine_minor_major (Sentiment.minor_score r) (Sentiment.major_score r)
         * Sentiment.weight e
    /\ incl (Sentiment.matched_states r)
         (Sentiment.live_states table (Sentiment.rulebook e)).
Proof.
  intros H0 Hlive.
  destruct (sentiment_score_spec rt e snapshot) as [r [Hr [Hmi [Hma [Hf [Hms _]]]]]].
  exists r. split; [exact Hr|].
  assert (Hitem : forall timeframe tf item,
             dict_get timeframe (Sentiment.timeframes (Sentiment.rulebook e)) = Some tf ->
             List.In item (Sentiment.matching rt (Sentiment.eval_env snapshot) (states tf)) ->
             Fundamentals.range_in_scale lo hi
               (get_default (score_range (snd item)) (0, 0))
             /\ List.In (fst item) (Sentiment.live_states table (Sentiment.rulebook e))).
  { intros timeframe tf item Htf Hin.
    destruct (dict_get_In _ _ _ Htf) as [k Hk].
    destruct (matching_is_live _ _ _ Hin) as [Hst Hnm].
    split.
    - unfold Sentiment.live_ranges_in_scale in Hlive.
      rewrite forallb_forall in Hlive. specialize (Hlive _ Hk). cbn [snd] in Hlive.
      rewrite forallb_forall in Hlive. specialize (Hlive _ Hst).
      rewrite Hnm in Hlive. cbn [orb] in Hlive.
      repeat (apply andb_true_iff in Hlive; destruct Hlive as [Hlive ?]).
      unfold Fundamentals.range_in_scale. rewrite <- !Qle_bool_iff. auto.
    - unfold Sentiment.live_states. apply in_flat_map. exists (k, tf).
      split; [exact Hk|]. cbn [snd]. apply in_map. apply filter_In.
      split; [exact Hst|]. rewrite Hnm. reflexivity. }
  assert (Hb : forall timeframe,
             lo <= MasterScoring.mean_or_zero
                     (map Sentiment.state_midpoint
                        (Sentiment.matching_in rt e snapshot timeframe)) <= hi).
  { intro timeframe. apply sentiment_means_bounded; [exact H0|].
    intros tf item Htf Hin. apply (Hitem timeframe tf item Htf Hin). }
  rewrite Hmi, Hma.
  split; [apply Hb|]. split; [apply Hb|].
  split; [apply sentiment_combine_bounds; [exact H0 | apply Hb | apply Hb]|].
  split; [rewrite <- Hmi, <- Hma; exact Hf|].
  rewrite Hms. intros n Hn. apply in_app_or in Hn.
  assert (Hone : forall timeframe,
             List.In n (map fst (Sentiment.matching_in rt e snapshot timeframe)) ->
             List.In n (Sentiment.live_states table (Sentiment.rulebook e))).
  { intros timeframe Hin. apply in_map_iff in Hin. destruct Hin as [item [<- Hin]].
    unfold Sentiment.matching_in in Hin.
    destruct (dict_get timeframe (Sentiment.timeframes (Sentiment.rulebook e)))
      as [tf|] eqn:Etf; [|contradiction].
    apply (Hitem timeframe tf item Etf Hin). }
  destruct Hn as [Hn|Hn]; eapply Hone; exact Hn.
Qed.

End SentimentLive.



(** X9.  The sentiment engine never raises.  The score of a
    timeframe is the arithmetic mean of the midpoints of the States
    whose condition is non-empty and true, and 0.0 when none matches or
    the rulebook lacks the timeframe; the final score is the blend of
    the two timeframe scores times the module weight;
    [matched_states] lists the matching States of [MINOR], then of
    [MAJOR], in rulebook order, and [state_details] holds one entry per
    matched State, in the same order, with its midpoint. *)
Theorem sentiment_score_is_mean_of_matching_states (rt : Runtime)
    (e : Sentiment.Engine) (snapshot : Snapshot) :
  (forall timeframe,
      exists details,
        Sentiment._score_timeframe rt e timeframe snapshot
        = Ret (MasterScoring.mean_or_zero
                 (map Sentiment.state_midpoint
                    (Sentiment.matching_in rt e snapshot timeframe)),
               map fst (Sentiment.matching_in rt e snapshot timeframe), details)
        /\ Forall (fun d => Sentiment.detail_timeframe d = timeframe) details)
  /\ exists r,
       Sentiment.score rt e snapshot = Ret r
       /\ Sentiment.minor_score r
          = MasterScoring.mean_or_zero
              (map Sentiment.state_midpoint (Sentiment.matching_in rt e snapshot "MINOR"))
       /\ Sentiment.major_score r
          = MasterScoring.mean_or_zero
              (map Sentiment.state_midpoint (Sentiment.matching_in rt e snapshot "MAJOR"))
       /\ Sentiment.final_sentiment_score r
          = Sentiment._combine_minor_major
              (Sentiment.minor_score r) (Sentiment.major_score r)
            * Sentiment.weight e
       /\ Sentiment.matched_states r
          = (map fst (Sentiment.matching_in rt e snapshot "MINOR")
             ++ map fst (Sentiment.matching_in rt e snapshot "MAJOR"))%list
       /\ map Sentiment.state_name (Sentiment.state_details r)
          = Sentiment.matched_states r
       /\ map Sentiment.raw_score (Sentiment.state_details r)
          = (map Sentiment.state_midpoint (Sentiment.matching_in rt e snapshot "MINOR")
             ++ map Sentiment.state_midpoint
                  (Sentiment.matching_in rt e snapshot "MAJOR"))%list.
Proof.
  split.
  - intro timeframe.
    destruct (sentiment_timeframe_spec rt e timeframe snapshot) as [d [E [_ [_ F]]]].
    exists d. split; [exact E | exact F].
  - apply sentiment_score_spec.
Qed.




(** X11.  With the rulebook that the repository ships, the
    sentiment engine never scores below zero: every State of
    [SENTIMENT_RULEBOOK] with a neutral or bearish score range has a
    negative literal in its condition, which [safe_eval] rejects, so
    only five bullish States can match, whatever the snapshot holds.
    Both timeframe scores lie in [[0, 9]] and the final score in
    [[0, 7.2]]. *)
Theorem shipped_sentiment_rulebook_never_scores_below_zero (rt : Runtime)
    (snapshot : Snapshot) :
  parses rt SentimentRulebook.parse_table ->
  exists r,
    Sentiment.score rt (Sentiment.init SentimentRulebook.SENTIMENT_RULEBOOK) snapshot
    = Ret r
    /\ 0 <= Sentiment.minor_score r <= 9
    /\ 0 <= Sentiment.major_score r <= 9
    /\ 0 <= Sentiment.final_sentiment_score r <= 72 # 10
    /\ incl (Sentiment.matched_states r) SentimentRulebook.reachable_states.
Proof.
  intro Hp.
  destruct (sentiment_live_bounds rt SentimentRulebook.parse_table Hp
              (Sentiment.init SentimentRulebook.SENTIMENT_RULEBOOK) snapshot 0 9)
    as [r [Hr [H1 [H2 [H3 [H4 H5]]]]]].
  - lra.
  - vm_compute. reflexivity.
  - exists r. split; [exact Hr|]. split; [exact H1|]. split; [exact H2|].
    split; [|exact H5].
    rewrite H4. cbn [Sentiment.weight Sentiment.init].
    unfold Sentiment.SENTIMENT_MODULE_WEIGHT.
    set (c := Sentiment._combine_minor_major _ _) in *. lra.
Qed.

Lemma shipped_sentiment_rulebook_never_scores_below_zero_witness :
  parses SentimentRulebook.rt SentimentRulebook.parse_table
  /\ exists r,
       Sentiment.score SentimentRulebook.rt
         (Sentiment.init SentimentRulebook.SENTIMENT_RULEBOOK) Fixtures.bearish_sentiment
       = Ret r
       /\ Sentiment.matched_states r = []
       /\ Sentiment.final_sentiment_score r == 0
       /\ 0 <= Sentiment.final_sentiment_score r <= 72 # 10.
Proof.
  assert (Hp : parses SentimentRulebook.rt SentimentRulebook.parse_table)
    by (intros cond tree H; exact H).
  split; [exact Hp|].
  destruct (shipped_sentiment_rulebook_never_scores_below_zero SentimentRulebook.rt
              Fixtures.bearish_sentiment Hp) as [r [Hr [_ [_ [Hf _]]]]].
  exists r. split; [exact Hr|].
  assert (Hc : Sentiment.score SentimentRulebook.rt
                 (Sentiment.init SentimentRulebook.SENTIMENT_RULEBOOK)
                 Fixtures.bearish_sentiment
               = Ret {| Sentiment.minor_score := _; Sentiment.major_score := _;
                        Sentiment.final_sentiment_score := _;
                        Sentiment.matched_states := _;
                        Sentiment.state_details := _ |})
    by (vm_compute; reflexivity).
  rewrite Hc in Hr. injection Hr as <-.
  repeat split; try reflexivity; cbn; lra.
Defined.

(** ** The position and risk engine *)

Lemma dict_get_setdefaults {V : Type} (k : string) (defs : dict V) :
  forall d,
    dict_get k (fold_left (fun s kv => dict_setdefault (fst kv) (snd kv) s) defs d)
    = match dict_get k d with Some v => Some v | None => dict_get k defs end.
Proof.
  induction defs as [|[k0 v0] defs IH]; intro d; cbn [fold_left fst snd dict_get].
  - destruct (dict_get k d); reflexivity.
  - rewrite IH. unfold dict_setdefault, dict_has.
    destruct (dict_get k0 d) as [v|] eqn:E0.
    + destruct (dict_get k d) eqn:Ek; [reflexivity|].
      destruct (String.eqb k k0) eqn:E; [|reflexivity].
      apply String.eqb_eq in E. subst. congruence.
    + rewrite dict_get_set.
      destruct (String.eqb k k0) eqn:E.
      * apply String.eqb_eq in E. subst. rewrite E0. reflexivity.
      * reflexivity.
Qed.

Section PositionRiskEnv.

Variable str_to_float : string -> outcome Q.

Abbreviation float_field := (PositionRisk.float_field str_to_float).
Abbreviation _build_snapshot_env := (PositionRisk._build_snapshot_env str_to_float).



Lemma build_snapshot_env_spec (account_state position_state : Snapshot)
    (equity realized unrealized open_val tradable : Q) :
  float_field account_state "equity" 0 = Ret equity ->
  float_field account_state "realized_pnl_today" 0 = Ret realized ->
  float_field account_state "unrealized_pnl_today" 0 = Ret unrealized ->
  float_field account_state "open_positions_value" 0 = Ret open_val ->
  float_field account_state "tradable_equity_pct" 1 = Ret tradable ->
  let daily_pl_pct :=
    if Qeq_bool equity 0 then 0 else (realized + unrealized) / equity in
  let capital_usage_pct :=
    if Qeq_bool equity 0 || Qeq_bool (equity * tradable) 0 then 0
    else open_val / (equity * tradable) in
  _build_snapshot_env account_state position_state
  = Ret (fold_left (fun s kv => dict_setdefault (fst kv) (snd kv) s)
           PositionRisk.defaults
           (dict_set "capital_usage_pct" (VFloat capital_usage_pct)
              (dict_set "daily_pl_pct" (VFloat daily_pl_pct)
                 (dict_set "daily_pl_abs" (VFloat (realized + unrealized))
                    (dict_update (dict_update [] account_state) position_state))))).
Proof.
  intros H1 H2 H3 H4 H5. cbn zeta. unfold PositionRisk._build_snapshot_env.
  rewrite H1, H2, H3, H4, H5. cbn [bind].
  destruct (Qeq_bool equity 0) eqn:Ee; cbn [negb orb bind].
  - reflexivity.
  - unfold py_div. rewrite Ee. cbn [bind].
    destruct (Qeq_bool (equity * tradable) 0) eqn:Ed; cbn [negb bind]; reflexivity.
Qed.

End PositionRiskEnv.



(** X13.  In the snapshot that [_build_snapshot_env] returns,
    the three derived fields apart, a key holds the value of the
    position state if the position state has the key, else the value
    of the account state, else its default ([is_open = False],
    [direction = None], 0.0 for the five position measures); any other
    key is absent. *)
Theorem build_snapshot_env_prefers_the_position (str_to_float : string -> outcome Q)
    (account_state position_state snapshot : Snapshot) :
  NoDup (dict_keys account_state) ->
  NoDup (dict_keys position_state) ->
  PositionRisk._build_snapshot_env str_to_float account_state position_state
  = Ret snapshot ->
  forall key,
    ~ List.In key ["daily_pl_abs"; "daily_pl_pct"; "capital_usage_pct"] ->
    dict_get key snapshot
    = match dict_get key position_state with
      | Some v => Some v
      | None =>
          match dict_get key account_state with
          | Some v => Some v
          | None => dict_get key PositionRisk.defaults
          end
      end.
Proof.
  intros Ha Hp Hs key Hk.
  assert (Hform : exists a b c,
             snapshot
             = fold_left (fun s kv => dict_setdefault (fst kv) (snd kv) s)
                 PositionRisk.defaults
                 (dict_set "capital_usage_pct" c
                    (dict_set "daily_pl_pct" b
                       (dict_set "daily_pl_abs" a
                          (dict_update (dict_update [] account_state) position_state))))).
  { destruct (PositionRisk.float_field str_to_float account_state "equity" 0)
      as [equity|] eqn:H1;
      [|unfold PositionRisk._build_snapshot_env in Hs; rewrite H1 in Hs; discriminate].
    destruct (PositionRisk.float_field str_to_float account_state "realized_pnl_today" 0)
      as [realized|] eqn:H2;
      [|unfold PositionRisk._build_snapshot_env in Hs; rewrite H1, H2 in Hs; discriminate].
    destruct (PositionRisk.float_field str_to_float account_state "unrealized_pnl_today" 0)
      as [unrealized|] eqn:H3;
      [|unfold PositionRisk._build_snapshot_env in Hs; rewrite H1, H2, H3 in Hs;
        discriminate].
    destruct (PositionRisk.float_field str_to_float account_state "open_positions_value" 0)
      as [open_val|] eqn:H4;
      [|unfold PositionRisk._build_snapshot_env in Hs; rewrite H1, H2, H3, H4 in Hs;
        discriminate].
    destruct (PositionRisk.float_field str_to_float account_state "tradable_equity_pct" 1)
      as [tradable|] eqn:H5;
      [|unfold PositionRisk._build_snapshot_env in Hs; rewrite H1, H2, H3, H4, H5 in Hs;
        discriminate].
    pose proof (build_snapshot_env_spec str_to_float account_state position_state
                  equity realized unrealized open_val tradable H1 H2 H3 H4 H5) as Hspec.
    cbn zeta in Hspec. rewrite Hspec in Hs. injection Hs as Hs. subst snapshot.
    do 3 eexists. reflexivity. }
  destruct Hform as [a [b [c ->]]].
  assert (Hne : forall k', List.In k' ["daily_pl_abs"; "daily_pl_pct"; "capital_usage_pct"] ->
                           String.eqb key k' = false).
  { intros k' Hin. destruct (String.eqb key k') eqn:E; [|reflexivity].
    apply String.eqb_eq in E. subst. contradiction. }
  rewrite dict_get_setdefaults, !dict_get_set.
  rewrite (Hne "capital_usage_pct"), (Hne "daily_pl_pct"), (Hne "daily_pl_abs")
    by (cbn; tauto).
  rewrite !dict_get_update, !dict_get_rev by assumption. cbn [dict_get].
  destruct (dict_get key position_state); [reflexivity|].
  destruct (dict_get key account_state); reflexivity.
Qed.

Lemma build_snapshot_env_prefers_the_position_witness :
  exists snapshot,
    PositionRisk._build_snapshot_env Fixtures.no_text
      (("is_open", VBool false) :: Fixtures.account_state) Fixtures.position_state
    = Ret snapshot
    /\ dict_get "is_open" snapshot = Some (VBool true)
    /\ dict_get "equity" snapshot = Some (VInt 100000)
    /\ dict_get "sector" snapshot = None.
Proof.
  assert (Hs : exists snapshot,
             PositionRisk._build_snapshot_env Fixtures.no_text
               (("is_open", VBool false) :: Fixtures.account_state) Fixtures.position_state
             = Ret snapshot) by (eexists; vm_compute; reflexivity).
  destruct Hs as [snapshot Hs]. exists snapshot. split; [exact Hs|].
  assert (Ha : NoDup (dict_keys (("is_open", VBool false) :: Fixtures.account_state))).
  { cbn. repeat (constructor; [cbn; intuition discriminate|]). constructor. }
  assert (Hp : NoDup (dict_keys Fixtures.position_state)).
  { cbn. repeat (constructor; [cbn; intuition discriminate|]). constructor. }
  pose proof (build_snapshot_env_prefers_the_position Fixtures.no_text _ _ _ Ha Hp Hs)
    as H.
  split; [|split]; rewrite H by (cbn; intuition discriminate); reflexivity.
Defined.

Section PositionRiskFacts.

Variable rt : Runtime.

Import PositionRisk.

Lemma risk_state_fold (metric_name : string) (snapshot : Snapshot)
    (states_def : dict StateRule) :
  forall acc,
    fold_left (state_step rt metric_name snapshot) states_def acc
    = ((fst acc ++ matched_midpoints rt states_def snapshot)%list,
       (snd acc ++ matched_names rt metric_name states_def snapshot)%list).
Proof.
  unfold matched_midpoints, matched_names.
  induction states_def as [|[state_name st] sts IH]; intro acc; cbn [fold_left filter map].
  - rewrite !app_nil_r. destruct acc; reflexivity.
  - rewrite IH. unfold state_step, state_matches. cbn [snd].
    destruct (condition st) as [c|]; [|reflexivity].
    destruct (is_empty c); cbn [negb andb]; [reflexivity|].
    destruct (_match_condition rt snapshot c); cbn [fst snd map]; [|reflexivity].
    rewrite <- !app_assoc. reflexivity.
Qed.

(** [_score_metric_states] returns the mean of the matched midpoints,
    or no score, with the names of the matching States; its division
    never raises. *)
Lemma risk_score_metric_states_spec (metric_name : string) (states_def : dict StateRule)
    (snapshot : Snapshot) :
  _score_metric_states rt metric_name states_def snapshot
  = Ret (spec_metric_score rt states_def snapshot,
         matched_names rt metric_name states_def snapshot).
Proof.
  unfold _score_metric_states, spec_metric_score.
  rewrite risk_state_fold. cbn [fst snd app].
  destruct (matched_midpoints rt states_def snapshot) as [|m ms].
  - reflexivity.
  - rewrite py_div_nonzero by apply length_nonzero. reflexivity.
Qed.

(** A Metric without a matching State has no name to report. *)
Lemma risk_no_score_no_names (metric_name : string) (states_def : dict StateRule)
    (snapshot : Snapshot) :
  spec_metric_score rt states_def snapshot = None ->
  matched_names rt metric_name states_def snapshot = [].
Proof.
  unfold spec_metric_score, matched_midpoints, matched_names.
  destruct (filter (fun item => state_matches rt snapshot (snd item)) states_def);
    [reflexivity | discriminate].
Qed.

Lemma risk_metric_loop (gs : dict GroupInfo) (timeframe : string) (snapshot : Snapshot)
    (ms : dict MetricRule) :
  forall acc, exists acc',
    for_each (metric_step rt gs timeframe snapshot) ms acc = Ret acc'
    /\ weighted_sum acc'
       = fold_left Qplus
           (map (fun c => fst c * snd c) (contributions rt gs timeframe snapshot ms))
           (weighted_sum acc)
    /\ total_weight acc'
       = fold_left Qplus (map snd (contributions rt gs timeframe snapshot ms))
           (total_weight acc)
    /\ acc_states acc' = (acc_states acc ++ timeframe_names rt timeframe snapshot ms)%list.
Proof.
  induction ms as [|[metric_name m] ms IH]; intro acc; cbn [for_each].
  - exists acc. cbn. rewrite app_nil_r. repeat split.
  - unfold metric_step at 1. unfold contributions, timeframe_names.
    cbn [flat_map fst snd]. fold (contributions rt gs timeframe snapshot ms).
    fold (timeframe_names rt timeframe snapshot ms).
    destruct (dict_get timeframe (timeframes m)) as [tf|].
    + rewrite risk_score_metric_states_spec. cbn [bind].
      destruct (spec_metric_score rt (states tf) snapshot) as [sc|] eqn:Esc.
      * cbn [bind].
        destruct (IH {| weighted_sum := weighted_sum acc
                                        + sc * effective_weight gs m;
                        total_weight := total_weight acc + effective_weight gs m;
                        acc_scores := dict_set metric_name sc (acc_scores acc);
                        acc_states := (acc_states acc
                                       ++ matched_names rt metric_name (states tf)
                                            snapshot)%list |})
          as [acc2 [-> [Hs [Hw Hn]]]].
        exists acc2. split; [reflexivity|].
        cbn [weighted_sum total_weight acc_states] in Hs, Hw, Hn.
        cbn [app map fold_left fst snd]. rewrite Hs, Hw, Hn, <- app_assoc.
        repeat split.
      * cbn [bind]. rewrite (risk_no_score_no_names metric_name _ _ Esc).
        cbn [app]. apply IH.
    + cbn [bind app]. apply IH.
Qed.

(** [_score_timeframe] never raises: it returns the weighted mean over
    the Metrics that produced a score and the names of the matching
    States. *)
Lemma risk_score_timeframe_spec (e : Engine) (timeframe : string) (snapshot : Snapshot) :
  exists scores,
    _score_timeframe rt e timeframe snapshot
    = Ret (Fundamentals.spec_timeframe_score
             (contributions rt (groups (rulebook e)) timeframe snapshot
                (metrics (rulebook e))),
           scores,
           timeframe_names rt timeframe snapshot (metrics (rulebook e))).
Proof.
  unfold _score_timeframe.
  cbv zeta.
  destruct (risk_metric_loop (groups (rulebook e)) timeframe snapshot
              (metrics (rulebook e))
              {| weighted_sum := 0; total_weight := 0; acc_scores := []; acc_states := [] |})
    as [acc [-> [Hs [Hw Hn]]]].
  cbn [bind weighted_sum total_weight acc_states app] in *.
  unfold Fundamentals.spec_timeframe_score, Qsum.
  rewrite <- Hs, <- Hw, <- Hn.
  destruct (Qeq_bool (total_weight acc) 0) eqn:E.
  - eauto.
  - rewrite py_div_nonzero by exact E. cbn. eauto.
Qed.

Lemma risk_matched_midpoints_in_scale (lo hi : Q) (states_def : dict StateRule)
    (snapshot : Snapshot) :
  (forall state_name st, List.In (state_name, st) states_def ->
     Fundamentals.range_in_scale lo hi (get_default (score_range st) (- (1), 1))) ->
  Forall (fun y => lo <= y <= hi) (matched_midpoints rt states_def snapshot).
Proof.
  intro H. unfold matched_midpoints. apply Forall_forall. intros y Hy.
  apply in_map_iff in Hy. destruct Hy as [[state_name st] [<- Hin]].
  apply filter_In in Hin. destruct Hin as [Hin _].
  apply midpoint_in_scale. exact (H state_name st Hin).
Qed.

Lemma risk_contributions_in_scale (lo hi : Q) (rb : Rulebook) (timeframe : string)
    (snapshot : Snapshot) :
  ranges_in_scale lo hi rb -> positive_weights rb ->
  Forall (fun c => lo <= fst c <= hi /\ 0 < snd c)
    (contributions rt (groups rb) timeframe snapshot (metrics rb)).
Proof.
  intros Hr Hw. unfold contributions. apply Forall_forall. intros c Hc.
  apply in_flat_map in Hc. destruct Hc as [[metric_name m] [Hin Hc]]. cbn [snd] in Hc.
  destruct (dict_get timeframe (timeframes m)) as [tf|] eqn:Etf; [|contradiction].
  destruct (spec_metric_score rt (states tf) snapshot) as [sc|] eqn:Esc; [|contradiction].
  destruct Hc as [<-|[]]. cbn [fst snd]. split.
  - apply dict_get_In in Etf. destruct Etf as [tf_name Htf].
    unfold spec_metric_score in Esc.
    pose proof (risk_matched_midpoints_in_scale lo hi (states tf) snapshot
                  (fun state_name st Hst =>
                     Hr metric_name m tf_name tf state_name st Hin Htf Hst)) as HF.
    destruct (matched_midpoints rt (states tf) snapshot) as [|x l]; [discriminate|].
    injection Esc as <-. apply mean_bounds. exact HF.
  - exact (Hw metric_name m Hin).
Qed.

Lemma risk_combine_bounds (lo hi minor major : Q) :
  lo <= 0 <= hi -> lo <= minor <= hi -> lo <= major <= hi ->
  lo <= _combine_minor_major minor major <= hi.
Proof.
  intros H0 H1 H2. unfold _combine_minor_major.
  destruct (Qltb (1 # 1000000) (Qabs minor)), (Qltb (1 # 1000000) (Qabs major));
    cbn [andb]; try assumption. split; lra.
Qed.

End PositionRiskFacts.


Section PositionRiskLive.

Variable rt : Runtime.
Variable table : dict expr.
Hypothesis Hparses : parses rt table.

Import PositionRisk.

Lemma risk_never_matches_sound (st : StateRule) (snapshot : Snapshot) :
  never_matches table st = true -> state_matches rt snapshot st = false.
Proof.
  unfold never_matches, state_matches.
  destruct (condition st) as [c|]; [|reflexivity].
  destruct (is_empty c) eqn:Ec; cbn [orb negb andb]; [reflexivity|].
  unfold _match_condition, SafeEval.safe_eval. rewrite Ec. cbn [orb].
  destruct (is_empty (strip c)); cbn [orb]; [reflexivity|].
  destruct (dict_get (strip c) table) as [tree|] eqn:Et; [|discriminate].
  intro Hu. rewrite (Hparses _ _ Et).
  destruct (eval_reaches_unsafe rt snapshot tree (always_unsafe_reaches snapshot tree Hu))
    as [err ->].
  destruct err; reflexivity.
Qed.

(** The States that the table rules out can be left out of a rulebook
    without changing which States match. *)
Lemma risk_matching_prune (states_def : dict StateRule) (snapshot : Snapshot) :
  filter (fun item => state_matches rt snapshot (snd item)) states_def
  = filter (fun item => state_matches rt snapshot (snd item))
      (filter (fun item => negb (never_matches table (snd item))) states_def).
Proof.
  induction states_def as [|item sts IH]; [reflexivity|]. cbn [filter].
  destruct (never_matches table (snd item)) eqn:E; cbn [negb filter].
  - rewrite (risk_never_matches_sound _ snapshot E). exact IH.
  - destruct (state_matches rt snapshot (snd item)); rewrite IH; reflexivity.
Qed.

Lemma risk_names_are_live (timeframe : string) (snapshot : Snapshot)
    (ms : dict MetricRule) :
  incl (timeframe_names rt timeframe snapshot ms) (live_names table timeframe ms).
Proof.
  intros name Hn. unfold timeframe_names in Hn. apply in_flat_map in Hn.
  destruct Hn as [item [Hitem Hn]].
  unfold live_names. apply in_flat_map. exists item. split; [exact Hitem|].
  destruct (dict_get timeframe (timeframes (snd item))) as [tf|]; [|contradiction].
  unfold matched_names in Hn. rewrite risk_matching_prune in Hn.
  apply in_map_iff in Hn. destruct Hn as [s [<- Hs]].
  apply filter_In in Hs. destruct Hs as [Hs _].
  apply (in_map (fun s0 : string * StateRule => (fst item ++ "." ++ fst s0)%string)).
  exact Hs.
Qed.

End PositionRiskLive.

Lemma shipped_risk_ranges :
  PositionRisk.ranges_in_scale (- (10)) 10 PositionRiskRulebook.POSITION_RISK_RULEBOOK.
Proof.
  intros metric_name m tf_name tf name st Hm Htf Hst.
  cbn in Hm.
  repeat (destruct Hm as [H|Hm];
          [injection H as <- <-; cbn in Htf;
           destruct Htf as [H|[H|[]]]; injection H as <- <-; cbn in Hst;
           repeat (destruct Hst as [H|Hst];
                   [injection H as <- <-; cbn; unfold Fundamentals.range_in_scale;
                    cbn; lra|]);
           contradiction|]).
  contradiction.
Qed.

Lemma shipped_risk_weights :
  PositionRisk.positive_weights PositionRiskRulebook.POSITION_RISK_RULEBOOK.
Proof.
  intros metric_name m Hm. cbn in Hm.
  repeat (destruct Hm as [H|Hm]; [injection H as <- <-; reflexivity|]).
  contradiction.
Qed.

(** In the shipped rulebook only [DAILY_DRAWDOWN] has States in the
    MAJOR timeframe, and only one of them can match. *)
Lemma shipped_risk_major (rt : Runtime) (snapshot : Snapshot) :
  parses rt PositionRiskRulebook.parse_table ->
  let cs := PositionRisk.contributions rt PositionRiskRulebook.groups "MAJOR" snapshot
              PositionRiskRulebook.metrics in
  cs = [] \/ cs = [(midpoint (3, 6) / 1, 1 * (6 # 5))].
Proof.
  intros Hp. cbn zeta. unfold PositionRisk.contributions, PositionRiskRulebook.metrics,
    PositionRiskRulebook.metric.
  cbn [flat_map snd timeframes dict_get String.eqb Ascii.eqb Bool.eqb states].
  unfold PositionRisk.spec_metric_score, PositionRisk.matched_midpoints.
  rewrite (risk_matching_prune rt _ Hp PositionRiskRulebook.DAILY_DRAWDOWN_MAJOR_states).
  replace (filter
             (fun item : string * StateRule =>
                negb (never_matches PositionRiskRulebook.parse_table (snd item)))
             PositionRiskRulebook.DAILY_DRAWDOWN_MAJOR_states)
    with [("DD_POSITIVE_DAY_STRONG",
           PositionRiskRulebook.state "daily_pl_pct >= 1.0 * max_daily_dd_pct" 3 6)]
    by (vm_compute; reflexivity).
  cbn [filter snd map app].
  destruct (PositionRisk.state_matches rt snapshot
              (PositionRiskRulebook.state "daily_pl_pct >= 1.0 * max_daily_dd_pct" 3 6)).
  - right. reflexivity.
  - left. reflexivity.
Qed.

(** X15.  With the rulebook that the repository ships, the
    position and risk engine never reports a drawdown: the States of
    [DAILY_DRAWDOWN] that stand for a breach, a warning or a normal day
    compare against a negative literal, which [safe_eval] rejects, and
    no other Metric has States in the MAJOR timeframe.  So the MAJOR
    score is 0 or 4.5 whatever the account holds, eight States are
    never listed in [matched_states], the MINOR score lies in
    [[-10, 10]] and the final score in [[-7, 7]]. *)
Theorem shipped_position_risk_rulebook_never_reports_a_drawdown
    (str_to_float : string -> outcome Q) (rt : Runtime)
    (account_state : Snapshot) (position_state : option Snapshot)
    (r : PositionRisk.Result) :
  parses rt PositionRiskRulebook.parse_table ->
  PositionRisk.score str_to_float rt
    (PositionRisk.init PositionRiskRulebook.POSITION_RISK_RULEBOOK)
    account_state position_state = Ret r ->
  (PositionRisk.major_score r == 0 \/ PositionRisk.major_score r == 9 # 2)
  /\ - (10) <= PositionRisk.minor_score r <= 10
  /\ - (7) <= PositionRisk.final_position_risk_score r <= 7
  /\ forall name,
       List.In name PositionRiskRulebook.unreachable_states ->
       ~ List.In name (PositionRisk.matched_states r).
Proof.
  intros Hp Hs. unfold PositionRisk.score in Hs.
  destruct (PositionRisk._build_snapshot_env str_to_float account_state
              (get_default position_state [])) as [snapshot|x]; [|discriminate].
  cbn [bind] in Hs.
  destruct (risk_score_timeframe_spec rt
              (PositionRisk.init PositionRiskRulebook.POSITION_RISK_RULEBOOK)
              "MINOR" snapshot) as [s1 H1].
  destruct (risk_score_timeframe_spec rt
              (PositionRisk.init PositionRiskRulebook.POSITION_RISK_RULEBOOK)
              "MAJOR" snapshot) as [s2 H2].
  rewrite H1 in Hs. cbn [bind] in Hs. rewrite H2 in Hs. cbn [bind] in Hs.
  injection Hs as <-.
  cbn [PositionRisk.minor_score PositionRisk.major_score
       PositionRisk.final_position_risk_score PositionRisk.matched_states
       PositionRisk.init PositionRisk.rulebook PositionRisk.weight
       PositionRiskRulebook.POSITION_RISK_RULEBOOK PositionRisk.metrics
       PositionRisk.groups].
  assert (Hmajor :
            let s := Fundamentals.spec_timeframe_score
                       (PositionRisk.contributions rt PositionRiskRulebook.groups "MAJOR"
                          snapshot PositionRiskRulebook.metrics) in
            s == 0 \/ s == 9 # 2).
  { cbn zeta. destruct (shipped_risk_major rt snapshot Hp) as [-> | ->].
    - left. reflexivity.
    - right. reflexivity. }
  assert (Hminor :
            - (10) <= Fundamentals.spec_timeframe_score
                        (PositionRisk.contributions rt PositionRiskRulebook.groups "MINOR"
                           snapshot PositionRiskRulebook.metrics) <= 10).
  { apply spec_timeframe_score_bounds; [lra|].
    apply (risk_contributions_in_scale rt (- (10)) 10
             PositionRiskRulebook.POSITION_RISK_RULEBOOK "MINOR" snapshot
             shipped_risk_ranges shipped_risk_weights). }
  cbn zeta in Hmajor.
  split; [exact Hmajor|]. split; [exact Hminor|]. split.
  - assert (Hc : - (10) <= PositionRisk._combine_minor_major
                             (Fundamentals.spec_timeframe_score
                                (PositionRisk.contributions rt PositionRiskRulebook.groups
                                   "MINOR" snapshot PositionRiskRulebook.metrics))
                             (Fundamentals.spec_timeframe_score
                                (PositionRisk.contributions rt PositionRiskRulebook.groups
                                   "MAJOR" snapshot PositionRiskRulebook.metrics)) <= 10).
    { apply risk_combine_bounds; [lra | exact Hminor |].
      destruct Hmajor as [-> | ->]; lra. }
    set (c := PositionRisk._combine_minor_major _ _) in *. lra.
  - intros name Hun Hin.
    apply (in_app_or
             (PositionRisk.timeframe_names rt "MINOR" snapshot PositionRiskRulebook.metrics)
             (PositionRisk.timeframe_names rt "MAJOR" snapshot PositionRiskRulebook.metrics))
      in Hin.
    assert (Hlive : List.In name
                      (PositionRisk.live_names PositionRiskRulebook.parse_table "MINOR"
                         PositionRiskRulebook.metrics
                       ++ PositionRisk.live_names PositionRiskRulebook.parse_table "MAJOR"
                            PositionRiskRulebook.metrics)).
    { apply in_or_app.
      destruct Hin as [Hin|Hin]; [left|right].
      - exact (risk_names_are_live rt _ Hp "MINOR" snapshot PositionRiskRulebook.metrics
                 name Hin).
      - exact (risk_names_are_live rt _ Hp "MAJOR" snapshot PositionRiskRulebook.metrics
                 name Hin). }
    assert (Hno : existsb (String.eqb name)
                    (PositionRisk.live_names PositionRiskRulebook.parse_table "MINOR"
                       PositionRiskRulebook.metrics
                     ++ PositionRisk.live_names PositionRiskRulebook.parse_table "MAJOR"
                          PositionRiskRulebook.metrics) = false).
    { cbn in Hun.
      repeat (destruct Hun as [<-|Hun]; [vm_compute; reflexivity|]). contradiction. }
    assert (Hyes : existsb (String.eqb name)
                     (PositionRisk.live_names PositionRiskRulebook.parse_table "MINOR"
                        PositionRiskRulebook.metrics
                      ++ PositionRisk.live_names PositionRiskRulebook.parse_table "MAJOR"
                           PositionRiskRulebook.metrics) = true).
    { apply existsb_exists. exists name. split; [exact Hlive | apply String.eqb_refl]. }
    congruence.
Qed.

Lemma shipped_position_risk_rulebook_never_reports_a_drawdown_witness :
  exists r,
    PositionRisk.score Fixtures.no_text PositionRiskRulebook.rt
      (PositionRisk.init PositionRiskRulebook.POSITION_RISK_RULEBOOK)
      Fixtures.drawdown_account None = Ret r
    /\ PositionRisk.major_score r == 0
    /\ PositionRisk.minor_score r == 16 # 5
    /\ PositionRisk.matched_states r
       = ["CAPITAL_USAGE.CAPITAL_USAGE_OPTIMAL";
          "OPEN_POSITIONS_COUNT.COMFORTABLE_NUM_POSITIONS"]
    /\ - (7) <= PositionRisk.final_position_risk_score r <= 7.
Proof.
  assert (Hc : exists r,
             PositionRisk.score Fixtures.no_text PositionRiskRulebook.rt
               (PositionRisk.init PositionRiskRulebook.POSITION_RISK_RULEBOOK)
               Fixtures.drawdown_account None = Ret r
             /\ PositionRisk.major_score r == 0
             /\ PositionRisk.minor_score r == 16 # 5
             /\ PositionRisk.matched_states r
                = ["CAPITAL_USAGE.CAPITAL_USAGE_OPTIMAL";
                   "OPEN_POSITIONS_COUNT.COMFORTABLE_NUM_POSITIONS"]).
  { eexists. split; [vm_compute; reflexivity|].
    split; [vm_compute; reflexivity|]. split; vm_compute; reflexivity. }
  destruct Hc as [r [Hr [H1 [H2 H3]]]]. exists r.
  split; [exact Hr|]. split; [exact H1|]. split; [exact H2|]. split; [exact H3|].
  exact (proj1 (proj2 (proj2
           (shipped_position_risk_rulebook_never_reports_a_drawdown Fixtures.no_text
              PositionRiskRulebook.rt Fixtures.drawdown_account None r
              (fun cond tree H => H) Hr)))).
Defined.


(** ** What the master engine reads *)

Lemma for_each_ext_In {A S : Type} (f g : S -> A -> outcome S) (xs : list A) :
  (forall x acc, List.In x xs -> f acc x = g acc x) ->
  forall acc, for_each f xs acc = for_each g xs acc.
Proof.
  induction xs as [|x xs IH]; intros H acc; cbn [for_each]; [reflexivity|].
  rewrite (H x acc (or_introl eq_refl)).
  destruct (g acc x) as [acc'|err]; cbn [bind]; [|reflexivity].
  apply IH. intros y a Hy. apply H. right. exact Hy.
Qed.

(** For a module of [module_order] the loop body depends on
    [module_results] through the value under the module's score key. *)
Lemma module_contribution_reads (config : MasterScoring.Config)
    (module_results : dict (dict value)) (module_name : string) :
  List.In module_name MasterScoring.module_order ->
  MasterScoring.module_contribution config module_results module_name
  = if negb (MasterScoring._is_module_enabled config module_name) then Ret None
    else
      match MasterRanking.score_value module_results module_name with
      | None | Some VNone => Ret None
      | Some raw_score =>
          match as_number raw_score with
          | None => Raise TypeError
          | Some n => Ret (Some (MasterScoring._clamp (number_Q n) (- (10)) 10))
          end
      end.
Proof.
  intro Hin. unfold MasterScoring.module_contribution, MasterRanking.score_value.
  destruct (negb (MasterScoring._is_module_enabled config module_name)); [reflexivity|].
  cbn in Hin.
  repeat (destruct Hin as [<-|Hin];
          [cbn [dict_get MasterScoring.module_score_keys String.eqb Ascii.eqb Bool.eqb
                is_empty];
           match goal with
           | |- context [dict_get ?n module_results] =>
               destruct (dict_get n module_results) as [[|kv rd]|]; reflexivity
           end|]).
  contradiction.
Qed.

Lemma score_symbol_ext (config : MasterScoring.Config) (sym : string)
    (mr mr' : dict (dict value)) :
  (forall name, List.In name MasterScoring.module_order ->
     MasterScoring.module_contribution config mr name
     = MasterScoring.module_contribution config mr' name) ->
  MasterScoring.score_symbol config sym mr = MasterScoring.score_symbol config sym mr'.
Proof.
  intro H. unfold MasterScoring.score_symbol.
  rewrite (for_each_ext_In (MasterScoring.module_step config mr)
             (MasterScoring.module_step config mr') MasterScoring.module_order).
  - reflexivity.
  - intros name acc Hin. unfold MasterScoring.module_step. rewrite (H name Hin).
    reflexivity.
Qed.

Lemma module_loop_used (config : MasterScoring.Config) (module_results : dict (dict value))
    (names : list string) :
  forall acc acc',
    for_each (MasterScoring.module_step config module_results) names acc = Ret acc' ->
    MasterScoring.acc_used acc'
    = (MasterScoring.acc_used acc
       ++ filter (MasterRanking.takes_part config module_results) names)%list.
Proof.
  induction names as [|n ns IH]; intros acc acc'; cbn [for_each filter].
  - intro H. injection H as <-. rewrite app_nil_r. reflexivity.
  - unfold MasterScoring.module_step at 1. unfold MasterRanking.takes_part at 1.
    destruct (MasterScoring.module_contribution config module_results n) as [[c|]|err];
      cbn [bind]; [| |discriminate].
    + intro H. apply IH in H. cbn [MasterScoring.acc_used] in H.
      rewrite H, <- app_assoc. reflexivity.
    + apply IH.
Qed.

(** X16.  [MasterScoringEngine.score_symbol] reads one value
    per module of [module_results]: the value under the module's score
    key, for the eight names of [module_order].  Two [module_results]
    that agree on these values give the same result or the same
    exception, so entries under other names (the fundamentals and the
    sentiment engine have no module) and other keys of a result never
    influence the master score. *)
Theorem master_score_reads_one_key_per_module (config : MasterScoring.Config)
    (sym : string) (mr mr' : dict (dict value)) :
  (forall name, List.In name MasterScoring.module_order ->
     MasterRanking.score_value mr name = MasterRanking.score_value mr' name) ->
  MasterScoring.score_symbol config sym mr = MasterScoring.score_symbol config sym mr'.
Proof.
  intro H. apply score_symbol_ext. intros name Hin.
  rewrite !module_contribution_reads by exact Hin.
  rewrite (H name Hin). reflexivity.
Qed.

Lemma master_score_reads_one_key_per_module_witness :
  MasterScoring.score_symbol MasterScoring.DEFAULT_CONFIG "AAPL"
    [("macro", Fixtures.macro_result);
     ("fundamentals", Fixtures.fundamentals_result);
     ("sentiment", [("final_sentiment_score", VFloat (- (7)))])]
  = MasterScoring.score_symbol MasterScoring.DEFAULT_CONFIG "AAPL"
      [("macro", ("minor_score", VFloat (- (9))) :: Fixtures.macro_result)]
  /\ exists r,
       MasterScoring.score_symbol MasterScoring.DEFAULT_CONFIG "AAPL"
         [("macro", Fixtures.macro_result);
          ("fundamentals", Fixtures.fundamentals_result);
          ("sentiment", [("final_sentiment_score", VFloat (- (7)))])] = Ret r
       /\ MasterScoring.final_master_score r == 3
       /\ MasterScoring.used_modules r = ["macro"].
Proof.
  split.
  - apply master_score_reads_one_key_per_module. intros name Hin. cbn in Hin.
    repeat (destruct Hin as [<-|Hin]; [reflexivity|]). contradiction.
  - eexists. split; [vm_compute; reflexivity|]. split; reflexivity.
Defined.

(** X17.  The master engine looks for the options and the
    pattern score under [final_options_score] and
    [final_pattern_price_score], while the options-flow and the
    price-action engine return theirs under [final_options_flow_score]
    and [final_price_action_score].  Results with the keys those
    engines return, passed as [options] and [pattern], are skipped:
    the outcome is the one for empty results, and neither module is
    listed in [used_modules]. *)
Theorem engine_results_under_other_keys_are_skipped (config : MasterScoring.Config)
    (sym : string) (module_results : dict (dict value))
    (options_result pattern_result : dict value) :
  incl (dict_keys options_result) MasterRanking.options_flow_result_keys ->
  incl (dict_keys pattern_result) MasterRanking.price_action_result_keys ->
  let passed :=
    dict_set "pattern" pattern_result (dict_set "options" options_result module_results) in
  MasterScoring.score_symbol config sym passed
  = MasterScoring.score_symbol config sym
      (dict_set "pattern" [] (dict_set "options" [] module_results))
  /\ forall r,
       MasterScoring.score_symbol config sym passed = Ret r ->
       ~ List.In "options" (MasterScoring.used_modules r)
       /\ ~ List.In "pattern" (MasterScoring.used_modules r).
Proof.
  intros Ho Hp passed.
  assert (Hko : dict_get "final_options_score" options_result = None).
  { apply dict_get_not_key. intro Hin. apply Ho in Hin. cbn in Hin.
    intuition discriminate. }
  assert (Hkp : dict_get "final_pattern_price_score" pattern_result = None).
  { apply dict_get_not_key. intro Hin. apply Hp in Hin. cbn in Hin.
    intuition discriminate. }
  assert (Hvo : MasterRanking.score_value passed "options" = None).
  { unfold MasterRanking.score_value, passed.
    rewrite dict_get_set_other by reflexivity. rewrite dict_get_set_same.
    cbn [dict_get MasterScoring.module_score_keys String.eqb Ascii.eqb Bool.eqb].
    exact Hko. }
  assert (Hvp : MasterRanking.score_value passed "pattern" = None).
  { unfold MasterRanking.score_value, passed. rewrite dict_get_set_same.
    cbn [dict_get MasterScoring.module_score_keys String.eqb Ascii.eqb Bool.eqb].
    exact Hkp. }
  split.
  - apply score_symbol_ext. intros name Hin.
    rewrite !module_contribution_reads by exact Hin.
    replace (MasterRanking.score_value
               (dict_set "pattern" [] (dict_set "options" [] module_results)) name)
      with (MasterRanking.score_value passed name); [reflexivity|].
    unfold MasterRanking.score_value, passed. rewrite !dict_get_set.
    destruct (String.eqb name "pattern") eqn:E1.
    + apply String.eqb_eq in E1. subst name.
      cbn [dict_get MasterScoring.module_score_keys String.eqb Ascii.eqb Bool.eqb].
      exact Hkp.
    + destruct (String.eqb name "options") eqn:E2; [|reflexivity].
      apply String.eqb_eq in E2. subst name.
      cbn [dict_get MasterScoring.module_score_keys String.eqb Ascii.eqb Bool.eqb].
      exact Hko.
  - intros r Hr. unfold MasterScoring.score_symbol in Hr.
    match type of Hr with
    | context [for_each ?body ?l ?a] => destruct (for_each body l a) as [acc|err] eqn:E
    end; [|discriminate].
    apply module_loop_used in E. cbn [MasterScoring.acc_used app] in E.
    cbn [bind] in Hr.
    destruct (if (MasterScoring.count acc =? 0)%nat then Ret 0
              else py_div (MasterScoring.total acc)
                     (inject_Z (Z.of_nat (MasterScoring.count acc)))) as [f|];
      [|discriminate].
    cbn [bind] in Hr. injection Hr as <-. cbn [MasterScoring.used_modules].
    rewrite E.
    assert (Hno : forall name,
               List.In name ["options"; "pattern"] ->
               MasterRanking.score_value passed name = None ->
               ~ List.In name
                   (filter (MasterRanking.takes_part config passed)
                      MasterScoring.module_order)).
    { intros name Hname Hv Hin. apply filter_In in Hin. destruct Hin as [Hin Ht].
      unfold MasterRanking.takes_part in Ht.
      rewrite module_contribution_reads in Ht by exact Hin. rewrite Hv in Ht.
      destruct (negb (MasterScoring._is_module_enabled config name)); discriminate. }
    split; apply Hno; try assumption; cbn; tauto.
Qed.

Lemma engine_results_under_other_keys_are_skipped_witness :
  exists r,
    MasterScoring.score_symbol MasterScoring.DEFAULT_CONFIG "AAPL"
      (dict_set "pattern" Fixtures.price_action_result
         (dict_set "options" Fixtures.options_flow_result
            [("macro", Fixtures.macro_result)])) = Ret r
    /\ MasterScoring.final_master_score r == 3
    /\ MasterScoring.used_modules r = ["macro"]
    /\ ~ List.In "options" (MasterScoring.used_modules r)
    /\ ~ List.In "pattern" (MasterScoring.used_modules r).
Proof.
  assert (Hc : exists r,
             MasterScoring.score_symbol MasterScoring.DEFAULT_CONFIG "AAPL"
               (dict_set "pattern" Fixtures.price_action_result
                  (dict_set "options" Fixtures.options_flow_result
                     [("macro", Fixtures.macro_result)])) = Ret r
             /\ MasterScoring.final_master_score r == 3
             /\ MasterScoring.used_modules r = ["macro"]).
  { eexists. split; [vm_compute; reflexivity|]. split; reflexivity. }
  destruct Hc as [r [Hr [Hf Hu]]]. exists r.
  split; [exact Hr|]. split; [exact Hf|]. split; [exact Hu|].
  apply (proj2 (engine_results_under_other_keys_are_skipped MasterScoring.DEFAULT_CONFIG
                  "AAPL" [("macro", Fixtures.macro_result)]
                  Fixtures.options_flow_result Fixtures.price_action_result
                  ltac:(cbn; intros k Hk; cbn in *; tauto)
                  ltac:(cbn; intros k Hk; cbn in *; tauto)) r Hr).
Defined.
